(** * Live quiz platform: scoring, answer intake, session driver, finalizer

    A shallow embedding of the quiz code of the backend
    (controllers/quizController.js, utils/socketQuizOrchestrator.js,
    utils/quizScheduler.js, models/Quiz.js and the join handler of server.js)
    together with the properties the specification states about it.

    Conventions of the embedding:
    - JavaScript numbers that hold counts, indices, scores and millisecond
      clock readings are integers of [Z];
    - [Date.now()] is an explicit argument [now] (milliseconds);
    - the MongoDB collection of quizzes is a finite map from the quiz id to
      the quiz document; every call on the model ([findById], [save],
      [findOneAndUpdate]) is one atomic step on that map;
    - a JavaScript [Map] is an association list in insertion order. *)

From stdpp Require Import base option list gmap strings pretty.
From Stdlib Require Import ZArith Lia Permutation Sorted.

Local Open Scope Z_scope.

(** ** JavaScript values and library functions used by the code *)

Module Js.

(** A value of a socket or HTTP payload that the code reads as a number:
    either a JavaScript number, or a string that holds the decimal numeral
    of an integer (such as the string of the characters 4 and 2). *)
Inductive jsval : Type :=
| JNum (n : Z)
| JNumeral (n : Z).

#[global] Instance jsval_eq_dec : EqDecision jsval.
Proof. solve_decision. Defined.

(** [Number(v)] *)
Definition Number (v : jsval) : Z :=
  match v with
  | JNum n => n
  | JNumeral n => n
  end.

(** [a === b] between a payload value and a stored number *)
Definition strict_eq_num (v : jsval) (n : Z) : bool := bool_decide (v = JNum n).

(** [x || d] on numbers: [d] replaces a zero *)
Definition or_num (x d : Z) : Z := if bool_decide (x = 0) then d else x.

(** [Math.round(ms / 1000)]: rounds halves upwards *)
Definition round_seconds (ms : Z) : Z := (ms + 500) `div` 1000.

(** [Math.floor(ms / 1000)] *)
Definition floor_seconds (ms : Z) : Z := ms `div` 1000.

(** [Array.prototype.sort(cmp)]: the language requires a stable sort; a
    negative [cmp a b] puts [a] first. Stable insertion sort. *)
Fixpoint sort_insert {A} (cmp : A → A → Z) (x : A) (l : list A) : list A :=
  match l with
  | [] => [x]
  | y :: l' => if bool_decide (cmp x y ≤ 0) then x :: y :: l' else y :: sort_insert cmp x l'
  end.

Fixpoint sort {A} (cmp : A → A → Z) (l : list A) : list A :=
  match l with
  | [] => []
  | x :: l' => sort_insert cmp x (sort cmp l')
  end.

(** A [Map]: keys in insertion order; [set] on a present key keeps its place. *)
Definition map_get {K V} `{EqDecision K} (k : K) (m : list (K * V)) : option V :=
  snd <$> List.find (λ kv, bool_decide (kv.1 = k)) m.

Definition map_has {K V} `{EqDecision K} (k : K) (m : list (K * V)) : bool :=
  existsb (λ kv, bool_decide (kv.1 = k)) m.

Fixpoint map_set {K V} `{EqDecision K} (k : K) (v : V) (m : list (K * V)) : list (K * V) :=
  match m with
  | [] => [(k, v)]
  | kv :: m' => if bool_decide (kv.1 = k) then (k, v) :: m' else kv :: map_set k v m'
  end.

(** [Map.prototype.delete]: the entry of the key is removed, the others keep
    their order. *)
Fixpoint map_delete {K V} `{EqDecision K} (k : K) (m : list (K * V)) : list (K * V) :=
  match m with
  | [] => []
  | kv :: m' => if bool_decide (kv.1 = k) then m' else kv :: map_delete k m'
  end.

(** [Math.ceil(x / d)] for a positive [d] *)
Definition ceil_div (x d : Z) : Z := - ((- x) `div` d).

(** [arr[i]] for a number [i] *)
Definition index {A} (l : list A) (i : Z) : option A :=
  if bool_decide (0 ≤ i) then l !! Z.to_nat i else None.

(** JSON payloads sent to clients *)
#[warnings="-register-all"]
Inductive json : Type :=
| JNull
| JBool (b : bool)
| JVal (v : jsval)
| JText (s : string)
| JList (l : list json)
| JObj (fields : list (string * json)).

(** Does the key [k] occur anywhere in the payload? *)
Fixpoint mentions (k : string) (j : json) : bool :=
  match j with
  | JList l => existsb (mentions k) l
  | JObj fields => existsb (λ kv, bool_decide (kv.1 = k) || mentions k kv.2) fields
  | _ => false
  end.

(** The value stored under key [k] at the top level of an object *)
Definition field (k : string) (j : json) : option json :=
  match j with
  | JObj fields => snd <$> List.find (λ kv, bool_decide (kv.1 = k)) fields
  | _ => None
  end.

Definition jnum (n : Z) : json := JVal (JNum n).

End Js.

(** ** The documents of models/Quiz.js *)

Module Question.
Record t : Type := mk {
  _id : string;
  text : string;
  options : list string;
  correctIndex : Z;
  category : string;
  difficulty : string;
  points : Z
}.
End Question.

Module Answer.
Record t : Type := mk {
  questionId : string;
  selectedIndex : Js.jsval;
  correct : bool;
  timeTaken : Z;
  points : Z;
  submittedAt : Z;
  serverTimeReceived : Z
}.
End Answer.

Module Participant.
Record t : Type := mk {
  _id : string;
  user : string;
  score : Z;
  totalQuestions : Z;
  correctAnswers : Z;
  timeSpent : Z;
  answers : list Answer.t;
  endTime : option Z;
  isCompleted : bool;
  rank : option Z;
  paid : bool
}.

(** The sum of the points of the answer ledger *)
Definition ledger_points (p : t) : Z :=
  foldr Z.add 0 (Answer.points <$> answers p).

End Participant.

Module Quiz.
Record t : Type := mk {
  _id : string;
  title : string;
  date : Z;
  currentParticipants : Z;
  maxParticipants : Z;
  startTime : option Z;
  endTime : option Z;
  questions : list Question.t;
  participants : list Participant.t;
  isLive : bool;
  isCompleted : bool;
  published : bool;
  totalQuestions : Z;
  timePerQuestion : Z;
  shuffleQuestions : bool;          (* settings.shuffleQuestions *)
  currentQuestionIndex : Z;
  questionStartTime : option Z
}.

Definition set_participants (ps : list Participant.t) (q : t) : t :=
  mk (_id q) (title q) (date q) (currentParticipants q) (maxParticipants q)
     (startTime q) (endTime q) (questions q) ps (isLive q)
     (isCompleted q) (published q) (totalQuestions q) (timePerQuestion q)
     (shuffleQuestions q) (currentQuestionIndex q) (questionStartTime q).

Definition set_questions (qs : list Question.t) (q : t) : t :=
  mk (_id q) (title q) (date q) (currentParticipants q) (maxParticipants q)
     (startTime q) (endTime q) qs (participants q) (isLive q)
     (isCompleted q) (published q) (totalQuestions q) (timePerQuestion q)
     (shuffleQuestions q) (currentQuestionIndex q) (questionStartTime q).

(** [$set: { isLive: true, published: true, startTime: now, currentQuestionIndex: 0 }]
    (the [status] the code also sets is not a path of the schema) *)
Definition go_live (now : Z) (q : t) : t :=
  mk (_id q) (title q) (date q) (currentParticipants q) (maxParticipants q)
     (Some now) (endTime q) (questions q) (participants q) true
     (isCompleted q) true (totalQuestions q) (timePerQuestion q)
     (shuffleQuestions q) 0 (questionStartTime q).

(** [$set: { currentQuestionIndex: idx, questionStartTime: start }] *)
Definition set_current (idx start : Z) (q : t) : t :=
  mk (_id q) (title q) (date q) (currentParticipants q) (maxParticipants q)
     (startTime q) (endTime q) (questions q) (participants q) (isLive q)
     (isCompleted q) (published q) (totalQuestions q) (timePerQuestion q)
     (shuffleQuestions q) idx (Some start).

(** [$set: { isLive: false, isCompleted: true, endTime: now }] *)
Definition set_ended (now : Z) (q : t) : t :=
  mk (_id q) (title q) (date q) (currentParticipants q) (maxParticipants q)
     (startTime q) (Some now) (questions q) (participants q) false
     true (published q) (totalQuestions q) (timePerQuestion q)
     (shuffleQuestions q) (currentQuestionIndex q) (questionStartTime q).

End Quiz.

(** The quiz collection *)
Abbreviation store := (gmap string Quiz.t).

(** ** The documents of models/User.js, and the payments *)

(** An element of [user.quizHistory]. The schema declares [quizId], [score],
    [date], [rank] and [participationDate]; the other paths that the code
    assigns to an entry ([correctAnswers], [totalQuestions], [timeSpent]) are
    not paths of the schema and are not stored. *)
Module History.
Record t : Type := mk {
  _id : string;
  quizId : option string;
  score : Z;
  date : option Z;
  rank : option Z;
  participationDate : Z
}.
End History.

Module User.

(** An element of [user.payments] as [enterQuiz] pushes it *)
Record payment : Type := mkPayment {
  p_orderId : string;
  p_paymentId : string;
  p_amount : Z;
  p_currency : string;
  p_status : string;
  p_date : Z;
  p_purpose : string;
  p_razorpaySignature : string;
  p_forDate : Z
}.

Record t : Type := mk {
  _id : string;
  fullName : string;
  username : option string;
  profileImage : string;
  payments : list payment;
  paidForDates : list Z;
  quizHistory : list History.t
}.

Definition set_quizHistory (h : list History.t) (u : t) : t :=
  mk (_id u) (fullName u) (username u) (profileImage u) (payments u) (paidForDates u) h.

End User.

(** A document of the payment collection, with the paths that the quiz code
    assigns or queries *)
Module Payment.
Record t : Type := mk {
  user : string;
  amount : Z;
  currency : string;
  status : string;
  verified : bool;
  razorpayOrderId : string;
  razorpayPaymentId : string;
  razorpaySignature : string;
  forDate : Z;
  orderId : string;
  purpose : string;                 (* notes.purpose *)
  test : bool                       (* notes.test *)
}.
End Payment.

(** The three collections the quiz code reads and writes; the payments in
    the order of their insertion *)
Record collections : Type := mkCollections {
  quizzes : store;
  users : gmap string User.t;
  payments : list Payment.t
}.

(** An HTTP response: the status and the JSON body *)
Definition http : Type := Z * Js.json.

(** ** controllers/quizController.js *)

Module QuizController.

(** [req.body] of [POST /answer]; [timeTaken] is what the client reports. *)
Record body : Type := mkBody {
  quizId : string;
  questionId : string;
  selectedIndex : Js.jsval;
  timeTaken : option Z
}.

Inductive response : Type :=
| Fail (status : Z) (message : string)
| Success (correct : bool) (points : Z) (totalScore : Z).

(** [now - (quiz.questionStartTime?.getTime() || 0)], in milliseconds; the
    code divides it by 1000 and compares the seconds with
    [timePerQuestion + 1] and with [0.5]. *)
Definition elapsed_ms (quiz : Quiz.t) (now : Z) : Z :=
  now - default 0 (Quiz.questionStartTime quiz).

(** The ledger entry and the new aggregates of an accepted answer *)
Definition record_answer (req : body) (question : Question.t) (elapsed now : Z)
    (participant : Participant.t) : Participant.t :=
  let isCorrect := Js.strict_eq_num (selectedIndex req) (Question.correctIndex question) in
  let points := if isCorrect then Question.points question else 0 in
  let entry := Answer.mk (questionId req) (selectedIndex req) isCorrect
                 (Js.round_seconds elapsed) points now now in
  Participant.mk (Participant._id participant) (Participant.user participant)
    (Participant.score participant + points)
    (Participant.totalQuestions participant + 1)
    (if isCorrect then Participant.correctAnswers participant + 1
     else Participant.correctAnswers participant)
    (Participant.timeSpent participant + Js.round_seconds elapsed)
    (Participant.answers participant ++ [entry])
    (Participant.endTime participant) (Participant.isCompleted participant)
    (Participant.rank participant) (Participant.paid participant).

Definition submitAnswer (db : store) (userId : string) (req : body) (now : Z)
    : response * store :=
  match db !! quizId req with
  | None => (Fail 404 "Quiz not found", db)
  | Some quiz =>
    match list_find (λ p, Participant.user p = userId) (Quiz.participants quiz) with
    | None => (Fail 400 "User not registered for this quiz", db)
    | Some (i, participant) =>
      match List.find (λ a, bool_decide (Answer.questionId a = questionId req))
                      (Participant.answers participant) with
      | Some _ => (Fail 400 "Question already answered", db)
      | None =>
        match List.find (λ q, bool_decide (Question._id q = questionId req))
                        (Quiz.questions quiz) with
        | None => (Fail 404 "Question not found", db)
        | Some question =>
          let elapsed := elapsed_ms quiz now in
          if bool_decide (elapsed > (Quiz.timePerQuestion quiz + 1) * 1000) then
            (Fail 400 "Time limit exceeded", db)
          else if bool_decide (elapsed < 500) then
            (Fail 400 "Answer submitted too quickly", db)
          else
            let participant' := record_answer req question elapsed now participant in
            let quiz' := Quiz.set_participants (<[i:=participant']> (Quiz.participants quiz)) quiz in
            (Success (Js.strict_eq_num (selectedIndex req) (Question.correctIndex question))
                     (if Js.strict_eq_num (selectedIndex req) (Question.correctIndex question)
                      then Question.points question else 0)
                     (Participant.score participant'),
             <[quizId req := quiz']> db)
        end
      end
    end
  end.

Definition jdate (d : option Z) : Js.json :=
  match d with
  | Some t => Js.jnum t
  | None => Js.JNull
  end.

(** [getTodayQuiz]: the body of the response for the quiz found for today *)
Definition getTodayQuiz (found : option Quiz.t) (userId : string) : Js.json :=
  match found with
  | None => Js.JObj [("exists", Js.JBool false);
                     ("message", Js.JText "No quiz scheduled for today")]
  | Some quiz =>
    let currentParticipant :=
      List.find (λ p, bool_decide (Participant.user p = userId)) (Quiz.participants quiz) in
    Js.JObj
      [("exists", Js.JBool true);
       ("quiz", Js.JObj
          [("_id", Js.JText (Quiz._id quiz));
           ("date", Js.jnum (Quiz.date quiz));
           ("startTime", jdate (Quiz.startTime quiz));
           ("endTime", jdate (Quiz.endTime quiz));
           ("isLive", Js.JBool (Quiz.isLive quiz));
           ("isCompleted", Js.JBool (Quiz.isCompleted quiz));
           ("totalQuestions", Js.jnum (Quiz.totalQuestions quiz));
           ("timePerQuestion", Js.jnum (Quiz.timePerQuestion quiz));
           ("currentParticipants", Js.jnum (Quiz.currentParticipants quiz));
           ("maxParticipants", Js.jnum (Quiz.maxParticipants quiz));
           ("userParticipated", Js.JBool (bool_decide (is_Some currentParticipant)));
           ("participant",
            match currentParticipant with
            | Some p =>
              Js.JObj [("isCompleted", Js.JBool (Participant.isCompleted p));
                       ("score", Js.jnum (Js.or_num (Participant.score p) 0));
                       ("correctAnswers", Js.jnum (Js.or_num (Participant.correctAnswers p) 0));
                       ("totalQuestions", Js.jnum (Js.or_num (Participant.totalQuestions p) 0))]
            | None => Js.JNull
            end);
           ("questions",
            Js.JList ((λ q, Js.JObj [("_id", Js.JText (Question._id q));
                                     ("text", Js.JText (Question.text q));
                                     ("options", Js.JList (Js.JText <$> Question.options q));
                                     ("category", Js.JText (Question.category q));
                                     ("difficulty", Js.JText (Question.difficulty q));
                                     ("points", Js.jnum (Question.points q))])
                      <$> Quiz.questions quiz))])]
  end.

(** *** Entering a quiz *)

Definition message (m : string) : Js.json := Js.JObj [("message", Js.JText m)].

(** The part of the quiz document that [enterQuiz] puts into its response *)
Definition quiz_summary (quiz : Quiz.t) : Js.json :=
  Js.JObj [("_id", Js.JText (Quiz._id quiz)); ("isLive", Js.JBool (Quiz.isLive quiz));
           ("totalQuestions", Js.jnum (Quiz.totalQuestions quiz));
           ("timePerQuestion", Js.jnum (Quiz.timePerQuestion quiz))].

(** [Payment.findOne({ user, forDate: { $gte: today, $lt: tomorrow },
    status: 'completed', verified: true })] *)
Definition findPayment (payments : list Payment.t) (userId : string) (today tomorrow : Z)
    : option Payment.t :=
  List.find (λ p, bool_decide (Payment.user p = userId)
                  && bool_decide (today ≤ Payment.forDate p)
                  && bool_decide (Payment.forDate p < tomorrow)
                  && bool_decide (Payment.status p = "completed")
                  && Payment.verified p) payments.

(** [hasPaid] before the test payment: a payment record for today, or a date
    of today among [user.paidForDates] *)
Definition hasPaid (c : collections) (user : User.t) (userId : string) (today tomorrow : Z)
    : bool :=
  bool_decide (is_Some (findPayment (payments c) userId today tomorrow))
  || (bool_decide (User.paidForDates user ≠ [])
      && existsb (λ d, bool_decide (today ≤ d) && bool_decide (d < tomorrow))
                 (User.paidForDates user)).

(** The payment part of [enterQuiz]: a user who has not paid is given a test
    payment ('For testing purposes, create a test payment if user hasn't
    paid'). [user.paidForDates.includes(today)] compares the stored dates
    with a Date object made in this call and is false. *)
Definition ensure_payment (c : collections) (user : User.t) (userId : string)
    (now today tomorrow : Z) : collections :=
  if hasPaid c user userId today tomorrow then c
  else
    let stamp := pretty now in
    let testPayment :=
      Payment.mk userId 5 "INR" "completed" true
        ("test_order_" +:+ stamp) ("test_payment_" +:+ stamp) ("test_signature_" +:+ stamp)
        today ("test_order_" +:+ stamp) "quiz_entry" true in
    let user' :=
      User.mk (User._id user) (User.fullName user) (User.username user)
        (User.profileImage user)
        (User.payments user
           ++ [User.mkPayment (Payment.razorpayOrderId testPayment)
                 (Payment.razorpayPaymentId testPayment) (Payment.amount testPayment)
                 "INR" "completed" now "quiz_entry"
                 (Payment.razorpaySignature testPayment) (Payment.forDate testPayment)])
        (User.paidForDates user ++ [today])
        (User.quizHistory user) in
    mkCollections (quizzes c) (<[userId := user']> (users c)) (payments c ++ [testPayment]).

(** The participant that [enterQuiz] pushes, with the defaults of the
    schema; [newId] is the id the subdocument is given. *)
Definition new_participant (newId userId : string) : Participant.t :=
  Participant.mk newId userId 0 0 0 0 [] None false None true.

(** [quiz.participants.push(participant); quiz.currentParticipants += 1] *)
Definition add_participant (participant : Participant.t) (q : Quiz.t) : Quiz.t :=
  Quiz.mk (Quiz._id q) (Quiz.title q) (Quiz.date q) (Quiz.currentParticipants q + 1)
    (Quiz.maxParticipants q) (Quiz.startTime q) (Quiz.endTime q) (Quiz.questions q)
    (Quiz.participants q ++ [participant]) (Quiz.isLive q) (Quiz.isCompleted q)
    (Quiz.published q) (Quiz.totalQuestions q) (Quiz.timePerQuestion q)
    (Quiz.shuffleQuestions q) (Quiz.currentQuestionIndex q) (Quiz.questionStartTime q).

Definition entered (text participantId : string) (quiz : Quiz.t) : http :=
  (200, Js.JObj [("success", Js.JBool true); ("message", Js.JText text);
                 ("participantId", Js.JText participantId);
                 ("quiz", quiz_summary quiz)]).

(** [enterQuiz]: [today] and [tomorrow] are the local midnights before and
    after [now]. *)
Definition enterQuiz (c : collections) (userId quizId newId : string)
    (now today tomorrow : Z) : http * collections :=
  match users c !! userId with
  | None => ((404, message "User not found"), c)
  | Some user =>
    let c1 := ensure_payment c user userId now today tomorrow in
    match quizzes c1 !! quizId with
    | None => ((404, message "Quiz not found"), c1)
    | Some quiz =>
      if negb (Quiz.isLive quiz) && negb (Quiz.published quiz) then
        ((403, message "Quiz is not available yet"), c1)
      else
      match List.find (λ p, bool_decide (Participant.user p = userId))
                      (Quiz.participants quiz) with
      | Some existingParticipant =>
        if Quiz.isLive quiz && Participant.paid existingParticipant then
          (entered "Reconnected to quiz" (Participant._id existingParticipant) quiz, c1)
        else ((400, message "You have already participated in this quiz"), c1)
      | None =>
        if bool_decide (Quiz.maxParticipants quiz ≤ Quiz.currentParticipants quiz) then
          ((400, message "Quiz is full. Maximum participants reached"), c1)
        else
          let quiz' := add_participant (new_participant newId userId) quiz in
          (entered "Successfully entered quiz" newId quiz',
           mkCollections (<[quizId := quiz']> (quizzes c1)) (users c1) (payments c1))
      end
    end
  end.

(** *** Completing a quiz *)

(** [(a, b) => b.score - a.score || a.timeSpent - b.timeSpent] *)
Definition compare (a b : Participant.t) : Z :=
  Js.or_num (Participant.score b - Participant.score a)
            (Participant.timeSpent a - Participant.timeSpent b).

(** [participant.isCompleted = true; participant.endTime = new Date()] *)
Definition mark_completed (now : Z) (p : Participant.t) : Participant.t :=
  Participant.mk (Participant._id p) (Participant.user p) (Participant.score p)
    (Participant.totalQuestions p) (Participant.correctAnswers p)
    (Participant.timeSpent p) (Participant.answers p) (Some now) true
    (Participant.rank p) (Participant.paid p).

(** [participant.rank = rank] *)
Definition with_rank (rank : Z) (p : Participant.t) : Participant.t :=
  Participant.mk (Participant._id p) (Participant.user p) (Participant.score p)
    (Participant.totalQuestions p) (Participant.correctAnswers p)
    (Participant.timeSpent p) (Participant.answers p) (Participant.endTime p)
    (Participant.isCompleted p) (Some rank) (Participant.paid p).

(** [sortedParticipants.findIndex(p => p.user.toString() === userId) + 1] *)
Definition rank_of (userId : string) (sorted : list Participant.t) : Z :=
  match list_find (λ p, Participant.user p = userId) sorted with
  | Some (j, _) => Z.of_nat j + 1
  | None => 0
  end.

(** The entry of the quiz in the history of the user: pushed when there is
    none, updated in place otherwise. [hid] is the id a pushed entry is
    given. *)
Definition record_history (user : User.t) (quiz : Quiz.t) (participant : Participant.t)
    (rank : Z) (hid : string) (now : Z) : User.t :=
  match list_find (λ h, History.quizId h = Some (Quiz._id quiz)) (User.quizHistory user) with
  | None =>
    User.set_quizHistory
      (User.quizHistory user
         ++ [History.mk hid (Some (Quiz._id quiz)) (Participant.score participant)
               (Some (Quiz.date quiz)) (Some rank) now]) user
  | Some (i, h) =>
    User.set_quizHistory
      (<[i := History.mk (History._id h) (History.quizId h) (Participant.score participant)
                (History.date h) (Some rank) (History.participationDate h)]>
         (User.quizHistory user)) user
  end.

Definition completeQuiz (c : collections) (userId quizId hid : string) (now : Z)
    : http * collections :=
  match quizzes c !! quizId with
  | None => ((404, message "Quiz not found"), c)
  | Some quiz =>
    match list_find (λ p, Participant.user p = userId) (Quiz.participants quiz) with
    | None => ((400, message "User not registered for this quiz"), c)
    | Some (i, participant) =>
      if Participant.isCompleted participant then
        ((400, message "Quiz already completed"), c)
      else
        let completed := mark_completed now participant in
        let sortedParticipants :=
          Js.sort compare
            (filter (λ p, Participant.isCompleted p = true)
                    (<[i := completed]> (Quiz.participants quiz))) in
        let rank := rank_of userId sortedParticipants in
        let participant' := with_rank rank completed in
        let quiz' :=
          Quiz.set_participants (<[i := participant']> (Quiz.participants quiz)) quiz in
        let users' :=
          match users c !! userId with
          | Some user =>
            <[userId := record_history user quiz' participant' rank hid now]> (users c)
          | None => users c
          end in
        ((200, Js.JObj [("success", Js.JBool true);
                        ("message", Js.JText "Quiz completed successfully");
                        ("score", Js.jnum (Participant.score participant'));
                        ("correctAnswers", Js.jnum (Participant.correctAnswers participant'));
                        ("totalQuestions", Js.jnum (Participant.totalQuestions participant'));
                        ("rank", Js.jnum rank);
                        ("timeSpent", Js.jnum (Participant.timeSpent participant'))]),
         mkCollections (<[quizId := quiz']> (quizzes c)) users' (payments c))
    end
  end.

(** *** Winners and history *)

(** [x || d] on strings: [d] replaces the empty string *)
Definition or_str (x d : string) : string := if bool_decide (x = "") then d else x.

(** The [accuracy] of a winner: the number 0, or the string
    [((correctAnswers / totalQuestions) * 100).toFixed(2)], kept as the two
    numbers it is computed from. *)
Inductive accuracy : Type :=
| NoAccuracy
| Percent (correctAnswers totalQuestions : Z).

Record winner_user : Type := mkWinnerUser {
  wu_id : option string;
  wu_fullName : string;
  wu_username : string;
  wu_profileImage : option string
}.

Record winner : Type := mkWinner {
  w_rank : Z;
  w_user : winner_user;
  w_score : Z;
  w_correctAnswers : Z;
  w_totalQuestions : Z;
  w_timeSpent : Z;
  w_accuracy : accuracy
}.

(** The three bodies of [getWinners] *)
Inductive winners : Type :=
| NoQuiz
| NoneCompleted (quizDate : Z)
| Winners (winners : list winner) (totalParticipants : Z) (quizDate : Z).

(** The populated [participant.user]: the user document, or null when there
    is no such user *)
Definition populated_user (us : gmap string User.t) (p : Participant.t) : winner_user :=
  match us !! Participant.user p with
  | Some u =>
    mkWinnerUser (Some (User._id u)) (or_str (User.fullName u) "Unknown")
      (or_str (default "" (User.username u)) "unknown")
      (if bool_decide (User.profileImage u = "") then None else Some (User.profileImage u))
  | None => mkWinnerUser None "Unknown" "unknown" None
  end.

Definition completedParticipants (quiz : Quiz.t) : list Participant.t :=
  filter (λ p, Participant.isCompleted p = true ∧ Participant.paid p = true)
         (Quiz.participants quiz).

(** [getWinners]: [found] is the quiz of the requested date. The comparison
    is the one of the scheduler's finalizer. *)
Definition getWinners (found : option Quiz.t) (us : gmap string User.t) : winners :=
  match found with
  | None => NoQuiz
  | Some quiz =>
    match completedParticipants quiz with
    | [] => NoneCompleted (Quiz.date quiz)
    | completed =>
      Winners
        (imap (λ index participant,
                 mkWinner (Z.of_nat index + 1) (populated_user us participant)
                   (Js.or_num (Participant.score participant) 0)
                   (Js.or_num (Participant.correctAnswers participant) 0)
                   (Js.or_num (Participant.totalQuestions participant)
                              (Js.or_num (Quiz.totalQuestions quiz) 50))
                   (Js.or_num (Participant.timeSpent participant) 0)
                   (if bool_decide (Participant.totalQuestions participant > 0)
                    then Percent (Participant.correctAnswers participant)
                                 (Participant.totalQuestions participant)
                    else NoAccuracy))
              (take 20 (Js.sort
                          (λ a b, if bool_decide (Participant.score b ≠ Participant.score a)
                                  then Participant.score b - Participant.score a
                                  else Js.or_num (Participant.timeSpent a) 0
                                       - Js.or_num (Participant.timeSpent b) 0)
                          completed)))
        (Z.of_nat (length completed)) (Quiz.date quiz)
    end
  end.

(** A row of [getUserQuizHistory] *)
Record history_row : Type := mkRow {
  hr_id : string;
  hr_quizId : string;
  hr_score : Z;
  hr_date : Z;
  hr_rank : Z;
  hr_correctAnswers : Z;
  hr_totalQuestions : Z;
  hr_timeSpent : Z
}.

(** The row of a history entry whose [quizId] is populated with an existing
    quiz; the entries of other quizzes are filtered out. *)
Definition format_history (qs : store) (h : History.t) : option history_row :=
  match History.quizId h with
  | None => None
  | Some quizId =>
    match qs !! quizId with
    | None => None
    | Some quiz =>
      Some (mkRow (History._id h) (Quiz._id quiz) (Js.or_num (History.score h) 0)
              (default (Quiz.date quiz) (History.date h))
              (Js.or_num (default 0 (History.rank h)) 0)
              0
              (Js.or_num (Quiz.totalQuestions quiz) 50)
              0)
    end
  end.

(** [getUserQuizHistory]: [None] is the 404 for a missing user. *)
Definition getUserQuizHistory (c : collections) (userId : string)
    : option (list history_row) :=
  match users c !! userId with
  | None => None
  | Some user =>
    Some (Js.sort (λ a b, hr_date b - hr_date a)
                  (omap (format_history (quizzes c)) (User.quizHistory user)))
  end.

(** *** Eligibility *)

(** The instants that [checkQuizEligibility] compares: the clock shifted to
    Indian time, 19:55, 20:00 and 20:30 of that day, and the local midnight
    before the request *)
Record times : Type := mkTimes {
  nowIST : Z;
  paymentDeadline : Z;
  quizStartTime : Z;
  quizEndTime : Z;
  todayStart : Z
}.

Definition not_eligible (text : string) (more : list (string * Js.json)) : http :=
  (200, Js.JObj ([("eligible", Js.JBool false); ("message", Js.JText text)] ++ more)).

(** [checkQuizEligibility]: [paymentRecord] is the instant
    [createdAt || forDate] of the payment record found for today, if one is
    found, and [offset] is [getTimezoneOffset] of the server, in minutes. *)
Definition checkQuizEligibility (user : option User.t) (t : times)
    (paymentRecord : option Z) (offset : Z → Z) : http :=
  match user with
  | None => (404, message "User not found")
  | Some user =>
    if bool_decide (nowIST t < paymentDeadline t) then
      not_eligible
        ("Payment must be completed before 7:55 PM IST. "
           +:+ pretty (Js.ceil_div (paymentDeadline t - nowIST t) 60000)
           +:+ " minutes remaining.")
        [("paymentDeadline", Js.jnum (paymentDeadline t)); ("paymentAmount", Js.jnum 500)]
    else
    let hasPaidToday :=
      bool_decide (is_Some paymentRecord)
      || existsb (λ p, bool_decide (todayStart t ≤ User.p_date p)
                       && bool_decide (5 ≤ User.p_amount p))
                 (User.payments user) in
    let late :=
      match paymentRecord with
      | Some paymentTime =>
        hasPaidToday && bool_decide (nowIST t < quizStartTime t)
        && bool_decide (paymentTime + offset paymentTime * 60000 + 19800000 > paymentDeadline t)
      | None => false
      end in
    if late then
      not_eligible
        "Payment was made after the 7:55 PM deadline. You cannot participate in today's quiz."
        [("paymentDeadline", Js.jnum (paymentDeadline t))]
    else if negb hasPaidToday then
      if bool_decide (paymentDeadline t ≤ nowIST t) && bool_decide (nowIST t < quizStartTime t)
      then
        not_eligible "Payment deadline has passed (7:55 PM IST). You cannot join today's quiz."
          [("paymentDeadline", Js.jnum (paymentDeadline t)); ("paymentAmount", Js.jnum 500)]
      else not_eligible "Payment required to participate in quiz" [("paymentAmount", Js.jnum 500)]
    else
    let isQuizTime :=
      bool_decide (quizStartTime t ≤ nowIST t) && bool_decide (nowIST t ≤ quizEndTime t) in
    let isBeforeQuiz := bool_decide (nowIST t < quizStartTime t) in
    let isAfterQuiz := bool_decide (nowIST t > quizEndTime t) in
    if isAfterQuiz then
      not_eligible "Today's quiz has ended. Check winners page for results."
        [("quizEnded", Js.JBool true)]
    else if negb isQuizTime && negb isBeforeQuiz then
      not_eligible "Quiz is not live yet. Quiz runs from 8:00 PM to 8:30 PM IST"
        [("nextQuizTime", Js.jnum (quizStartTime t))]
    else
      (200, Js.JObj [("eligible", Js.JBool true);
                     ("message", Js.JText "User is eligible to participate")])
  end.

End QuizController.

(** An emission of the server: to the socket of the request, or to a room. *)
Inductive target : Type :=
| ToSocket
| ToRoom (room : string).

Record emit : Type := mkEmit {
  e_target : target;
  e_event : string;
  e_payload : Js.json
}.

(** ** utils/socketQuizOrchestrator.js *)

Module Orchestrator.

(** A value of the [participant.answers] map *)
Record answer : Type := mkAnswer {
  a_selectedIndex : Js.jsval;
  a_isCorrect : bool;
  a_points : Z;
  a_timeTaken : Z
}.

(** A value of the [qstate.participants] map *)
Record participant : Type := mkParticipant {
  socketId : option string;
  answers : list (Js.jsval * answer);
  score : Z;
  correctAnswers : Z;
  timeSpent : Z;
  isCompleted : bool
}.

(** The sum of the points of the in-memory ledger *)
Definition ledger_points (p : participant) : Z :=
  foldr Z.add 0 ((λ kv, a_points kv.2) <$> answers p).

(** An element of [quizDoc.participants[..].answers] as the handler pushes it *)
Record doc_answer : Type := mkDocAnswer {
  da_questionIndex : Js.jsval;
  da_selectedIndex : Js.jsval;
  da_correct : bool;
  da_points : Z;
  da_timeTaken : Z
}.

(** An element of [quizDoc.participants] *)
Record doc_participant : Type := mkDocParticipant {
  dp_user : string;
  dp_score : Z;
  dp_answers : list (Answer.t + doc_answer);   (* stored entries, then pushed ones *)
  dp_isCompleted : bool;
  dp_totalQuestions : Z;
  dp_correctAnswers : Z;
  dp_timeSpent : Z
}.

(** [qstate.quizDoc]: the in-memory clone of the quiz document *)
Record quizDoc : Type := mkQuizDoc {
  d_id : string;
  d_title : string;
  d_questions : list Question.t;
  d_participants : list doc_participant
}.

Record qstate : Type := mkQstate {
  qs_quizDoc : option quizDoc;
  currentIndex : Z;
  running : bool;
  questionDurationSec : Z;
  participants : list (string * participant);
  questionStartAt : option Z;
  persistCount : Z
}.

(** [ORCHESTRATOR.quizzes] *)
Abbreviation registry := (gmap string qstate).

Record payload : Type := mkPayload {
  quizId : string;                     (* the empty string stands for a falsy id *)
  userId : string;
  questionIndex : option Js.jsval;     (* [None]: undefined *)
  selectedIndex : option Js.jsval;
  timestampClient : option Z
}.

Inductive outcome : Type :=
| AnswerError (message : string)
| AnswerResult (questionIndex : Js.jsval) (correct : bool) (points : Z) (totalScore : Z).

(** the [join-quiz] handler: the participant entry is created afresh *)
Definition join_quiz (reg : registry) (quizId userId socket : string) : registry :=
  if bool_decide (quizId = "") || bool_decide (userId = "") then reg
  else
    let qs := default (mkQstate None (-1) false 0 [] None 0) (reg !! quizId) in
    let fresh := mkParticipant (Some socket) [] 0 0 0 false in
    <[quizId := mkQstate (qs_quizDoc qs) (currentIndex qs) (running qs)
                  (questionDurationSec qs)
                  (Js.map_set userId fresh (participants qs))
                  (questionStartAt qs) (persistCount qs)]> reg.

(** [max(0, floor((now - questionStart) / 1000))] *)
Definition timeTaken_of (qs : qstate) (now : Z) : Z :=
  Z.max 0 (Js.floor_seconds (now - default 0 (questionStartAt qs))).

(** [isCorrect ? (question.points || 1) : 0] *)
Definition award (isCorrect : bool) (question : Question.t) : Z :=
  if isCorrect then Js.or_num (Question.points question) 1 else 0.

(** the update of [quizDoc.participants] after an accepted answer *)
Definition update_doc (doc : quizDoc) (user : string) (entry : doc_answer)
    (p : participant) : quizDoc :=
  let ps := d_participants doc in
  let '(i, pd, ps1) :=
    match list_find (λ x, dp_user x = user) ps with
    | Some (i, pd) => (i, pd, ps)
    | None => (length ps, mkDocParticipant user 0 [] false 0 0 0,
               ps ++ [mkDocParticipant user 0 [] false 0 0 0])
    end in
  let pd' := mkDocParticipant (dp_user pd) (score p) (dp_answers pd ++ [inr entry])
               (dp_isCompleted pd) (Js.or_num (dp_totalQuestions pd) 0 + 1)
               (correctAnswers p) (timeSpent p) in
  mkQuizDoc (d_id doc) (d_title doc) (d_questions doc) (<[i:=pd']> ps1).

(** the [submit-answer] handler. The third component tells whether this
    answer made the handler write [quizDoc.participants] to the database
    (every fifth accepted answer). *)
Definition submit_answer (reg : registry) (pl : payload) (now : Z)
    : outcome * registry * bool :=
  match questionIndex pl, selectedIndex pl with
  | Some qIndex, Some sel =>
    if bool_decide (quizId pl = "") || bool_decide (userId pl = "") then
      (AnswerError "Invalid payload", reg, false)
    else
    match reg !! quizId pl with
    | None => (AnswerError "Quiz not running", reg, false)
    | Some qs =>
      if negb (running qs) then (AnswerError "Quiz not running", reg, false)
      else if negb (bool_decide (currentIndex qs = Js.Number qIndex)) then
        (AnswerError "Answer for wrong question or late", reg, false)
      else
      match Js.map_get (userId pl) (participants qs) with
      | None => (AnswerError "User not registered for quiz", reg, false)
      | Some participant =>
        if Js.map_has qIndex (answers participant) then
          (AnswerError "Question already answered", reg, false)
        else
        let timeTaken := timeTaken_of qs now in
        if bool_decide (timeTaken > questionDurationSec qs) then
          (AnswerError "Too late to answer", reg, false)
        else
        match qs_quizDoc qs with
        | None => (AnswerError "Failed to process answer", reg, false)
        | Some doc =>
          match Js.index (d_questions doc) (currentIndex qs) with
          | None => (AnswerError "Failed to process answer", reg, false)
          | Some question =>
            let isCorrect := bool_decide (Js.Number sel = Question.correctIndex question) in
            let points := award isCorrect question in
            let participant' :=
              mkParticipant (socketId participant)
                (Js.map_set qIndex (mkAnswer sel isCorrect points timeTaken)
                            (answers participant))
                (score participant + points)
                (if isCorrect then correctAnswers participant + 1
                 else correctAnswers participant)
                (timeSpent participant + timeTaken)
                (isCompleted participant) in
            let doc' := update_doc doc (userId pl)
                          (mkDocAnswer qIndex sel isCorrect points timeTaken)
                          participant' in
            let count := Js.or_num (persistCount qs) 0 + 1 in
            let persist := bool_decide (5 ≤ count) in
            let qs' := mkQstate (Some doc') (currentIndex qs) (running qs)
                         (questionDurationSec qs)
                         (Js.map_set (userId pl) participant' (participants qs))
                         (questionStartAt qs)
                         (if persist then 0 else count) in
            (AnswerResult qIndex isCorrect points (score participant'),
             <[quizId pl := qs']> reg, persist)
          end
        end
      end
    end
  | _, _ => (AnswerError "Invalid payload", reg, false)
  end.

(** What the handler emits for an outcome *)
Definition emits_of (pl : payload) (o : outcome) : list emit :=
  match o with
  | AnswerError m => [mkEmit ToSocket "answer-error" (Js.JObj [("message", Js.JText m)])]
  | AnswerResult qIndex correct points total =>
    [mkEmit ToSocket "answer-result"
       (Js.JObj [("questionIndex", Js.JVal qIndex); ("correct", Js.JBool correct);
                 ("points", Js.jnum points); ("totalScore", Js.jnum total)]);
     mkEmit (ToRoom (quizId pl)) "participant-answered"
       (Js.JObj [("userId", Js.JText (userId pl)); ("questionIndex", Js.JVal qIndex)])]
  end.

(** [JSON.parse(JSON.stringify(quizDoc))] *)
Definition clone (quiz : Quiz.t) : quizDoc :=
  mkQuizDoc (Quiz._id quiz) (Quiz.title quiz) (Quiz.questions quiz)
    ((λ p, mkDocParticipant (Participant.user p) (Participant.score p)
             (inl <$> Participant.answers p) (Participant.isCompleted p)
             (Participant.totalQuestions p) (Participant.correctAnswers p)
             (Participant.timeSpent p)) <$> Quiz.participants quiz).

(** the payloads of [advanceTo] *)
Definition questionForClients (idx : Z) (question : Question.t) (duration : Z) : Js.json :=
  Js.JObj [("questionIndex", Js.jnum idx);
           ("text", Js.JText (Question.text question));
           ("options", Js.JList (Js.JText <$> Question.options question));
           ("duration", Js.jnum duration)].

Definition time_left (qid : string) (idx remaining : Z) : emit :=
  mkEmit (ToRoom qid) "time-left"
    (Js.JObj [("questionIndex", Js.jnum idx); ("remaining", Js.jnum remaining)]).

Definition question_ended (qid : string) (idx : Z) (question : Question.t) : emit :=
  mkEmit (ToRoom qid) "question-ended"
    (Js.JObj [("questionIndex", Js.jnum idx);
              ("correctIndex", Js.jnum (Question.correctIndex question))]).

(** An element of [participantsArr] in [finalizeQuiz] *)
Record ranked : Type := mkRanked {
  r_user : string;
  r_score : Z;
  r_correctAnswers : Z;
  r_timeSpent : Z;
  r_rank : Z
}.

(** What [advanceTo] leaves behind: nothing, the two timers of the question
    it opened, or the results of [finalizeQuiz]. *)
Inductive continuation : Type :=
| Idle
| Timers (idx : Z)
| Finalized (results : list ranked).

(** [(a, b) => b.score - a.score || (a.timeSpent || 0) - (b.timeSpent || 0)] *)
Definition compare (a b : ranked) : Z :=
  Js.or_num (r_score b - r_score a)
            (Js.or_num (r_timeSpent a) 0 - Js.or_num (r_timeSpent b) 0).

(** [participantsArr.forEach((p, idx) => { p.rank = idx + 1; })] *)
Definition assign_ranks (l : list ranked) : list ranked :=
  imap (λ idx p, mkRanked (r_user p) (r_score p) (r_correctAnswers p) (r_timeSpent p)
                   (Z.of_nat idx + 1)) l.

Definition participantsArr (qs : qstate) : list ranked :=
  (λ kv, mkRanked kv.1 (Js.or_num (score kv.2) 0) (Js.or_num (correctAnswers kv.2) 0)
           (Js.or_num (timeSpent kv.2) 0) 0) <$> participants qs.

Definition leaderboard_entry (p : ranked) : Js.json :=
  Js.JObj [("user", Js.JText (r_user p)); ("score", Js.jnum (r_score p));
           ("correctAnswers", Js.jnum (r_correctAnswers p));
           ("timeSpent", Js.jnum (r_timeSpent p)); ("rank", Js.jnum (r_rank p))].

(** [finalizeQuiz(qid)]: the ranked participants and the final emission (the
    write of the results to the quiz document and to the users' histories,
    whose failure the code only logs, is left out). *)
Definition finalizeQuiz (reg : registry) (qid : string)
    : registry * list emit * list ranked :=
  match reg !! qid with
  | None => (reg, [], [])
  | Some qs =>
    let results := assign_ranks (Js.sort compare (participantsArr qs)) in
    (delete qid reg,
     [mkEmit (ToRoom qid) "quiz-ended"
        (Js.JObj [("quizId", Js.JText qid);
                  ("leaderboard", Js.JList (leaderboard_entry <$> take 50 results))])],
     results)
  end.

(** [advanceTo(idx)] of the quiz [qid] *)
Definition advanceTo (reg : registry) (qid : string) (idx now : Z)
    : registry * list emit * continuation :=
  match reg !! qid with
  | None => (reg, [], Idle)
  | Some qs =>
    if negb (running qs) then (reg, [], Idle)
    else
      let qs' := mkQstate (qs_quizDoc qs) idx (running qs) (questionDurationSec qs)
                   (participants qs) (Some now) (persistCount qs) in
      let reg' := <[qid := qs']> reg in
      match qs_quizDoc qs ≫= λ doc, Js.index (d_questions doc) idx with
      | None =>
        let '(reg'', out, results) := finalizeQuiz reg' qid in
        (reg'', out, Finalized results)
      | Some question =>
        (reg',
         [mkEmit (ToRoom qid) "question-start"
            (questionForClients idx question (questionDurationSec qs));
          time_left qid idx (questionDurationSec qs)],
         Timers idx)
      end
  end.

(** the [setInterval] callback of question [idx]: [remaining] is the value
    before the tick *)
Definition perSecond (qid : string) (idx remaining : Z) : list emit :=
  if bool_decide (0 ≤ remaining - 1) then [time_left qid idx (remaining - 1)] else [].

(** What the end-of-question timer decides after its emission *)
Inductive next : Type :=
| Finalize
| AdvanceTo (nextIdx : Z).

(** the [setTimeout] callback that ends question [idx] (its write of the
    scores to the database, whose failure the code only logs, is left out) *)
Definition endHandle (doc : quizDoc) (qid : string) (idx : Z) (question : Question.t)
    : list emit * next :=
  ([question_ended qid idx question],
   if bool_decide (Z.of_nat (length (d_questions doc)) ≤ idx + 1) then Finalize
   else AdvanceTo (idx + 1)).

(** [startQuizNow(quizId)]: [inl] is the thrown error. *)
Definition startQuizNow (db : store) (reg : registry) (quizId : string) (now : Z)
    : string + (registry * list emit * continuation) :=
  match db !! quizId with
  | None => inl "Quiz not found"
  | Some quiz =>
    if bool_decide (running <$> reg !! quizId = Some true) then inr (reg, [], Idle)
    else
      let doc := clone quiz in
      let qs := mkQstate (Some doc) (-1) true 15
                  (foldl (λ m p, Js.map_set (Participant.user p)
                                   (mkParticipant None []
                                      (Js.or_num (Participant.score p) 0)
                                      (Js.or_num (Participant.correctAnswers p) 0)
                                      (Js.or_num (Participant.timeSpent p) 0)
                                      (Participant.isCompleted p)) m)
                         [] (Quiz.participants quiz))
                  None 0 in
      let '(reg', out, k) := advanceTo (<[quizId := qs]> reg) quizId 0 now in
      inr (reg',
           out ++ [mkEmit (ToRoom quizId) "quiz-started"
                     (Js.JObj [("quizId", Js.JText quizId); ("title", Js.JText (d_title doc));
                               ("totalQuestions", Js.jnum (Z.of_nat (length (d_questions doc))));
                               ("questionDuration", Js.jnum 15)])],
           k)
  end.

(** *** Leaving, disconnecting *)

Definition set_participants (ps : list (string * participant)) (qs : qstate) : qstate :=
  mkQstate (qs_quizDoc qs) (currentIndex qs) (running qs) (questionDurationSec qs)
    ps (questionStartAt qs) (persistCount qs).

(** the [leave-quiz] handler *)
Definition leave_quiz (reg : registry) (quizId userId : string) : registry :=
  if bool_decide (quizId = "") || bool_decide (userId = "") then reg
  else
    match reg !! quizId with
    | Some qs => <[quizId := set_participants (Js.map_delete userId (participants qs)) qs]> reg
    | None => reg
    end.

(** The loop of the [disconnect] handler over the entries of one quiz: the
    entry of every participant whose socket is [sid] is deleted. *)
Definition drop_socket (sid : string) (ps : list (string * participant))
    : list (string * participant) :=
  foldl (λ m kv, if bool_decide (socketId kv.2 = Some sid) then Js.map_delete kv.1 m else m)
        ps ps.

(** the [disconnect] handler of the socket [sid] *)
Definition disconnect (reg : registry) (sid : string) : registry :=
  (λ qs, set_participants (drop_socket sid (participants qs)) qs) <$> reg.

(** *** What [finalizeQuiz] writes to the database *)

(** The stored participant made from a ranked entry: the paths that the
    entry does not give take the defaults of the schema. [ids] gives the id
    of the subdocument at each position. *)
Definition stored_result (ids : nat → string) (index : nat) (p : ranked) : Participant.t :=
  Participant.mk (ids index) (r_user p) (r_score p) 0 (r_correctAnswers p) (r_timeSpent p)
    [] None true (Some (r_rank p)) false.

(** [user.quizHistory.push({ quizId, score, date: new Date(), rank })] for a
    ranked user that exists *)
Definition push_history (quizId : string) (now : Z) (hids : nat → string)
    (us : gmap string User.t) (entry : nat * ranked) : gmap string User.t :=
  match us !! r_user entry.2 with
  | None => us
  | Some user =>
    <[r_user entry.2 :=
        User.set_quizHistory
          (User.quizHistory user
             ++ [History.mk (hids entry.1) (Some quizId) (r_score entry.2) (Some now)
                   (Some (r_rank entry.2)) now]) user]> us
  end.

(** The persistence step of [finalizeQuiz] for the ranked participants
    [results] of the state [qs]: the participants of the stored quiz are
    replaced, then the histories are extended. Nothing is written when the
    state has no quiz document or the quiz is not found (the error is
    caught and logged). *)
Definition save_results (c : collections) (qs : qstate) (results : list ranked) (now : Z)
    (ids hids : nat → string) : collections :=
  match qs_quizDoc qs with
  | None => c
  | Some doc =>
    match quizzes c !! d_id doc with
    | None => c
    | Some quizDoc =>
      mkCollections
        (<[d_id doc := Quiz.set_participants (imap (stored_result ids) results) quizDoc]>
           (quizzes c))
        (foldl (push_history (Quiz._id quizDoc) now hids) (users c) (imap pair results))
        (payments c)
    end
  end.

End Orchestrator.

(** ** utils/notifications.js *)

Module Notifications.

Record notification : Type := mkNotification {
  n_title : string;
  n_body : string;
  n_type : string;
  n_quizId : string
}.

Record notifyData : Type := mkNotifyData {
  eligibleUserIds : list string;
  notification_of : notification;
  count : Z
}.

(** The [switch (kind)] *)
Definition notification_for (kind quizId : string) : notification :=
  if bool_decide (kind = "5min_before") then
    mkNotification "📢 Quiz Starting Soon!" "Daily quiz starts in 5 minutes. Get ready!"
      "quiz-alert" quizId
  else if bool_decide (kind = "1min_before") || bool_decide (kind = "ready") then
    mkNotification "⏰ Quiz Starting Now!" "Quiz starts in 1 minute. Join now!"
      "quiz-ready" quizId
  else if bool_decide (kind = "started") then
    mkNotification "🚀 Quiz is Live!" "Quiz has started. Join now to participate!"
      "quiz-started" quizId
  else if bool_decide (kind = "results") then
    mkNotification "🏆 Quiz Results Ready!" "Check your rank and the winners list!"
      "quiz-results" quizId
  else
    mkNotification "📢 Quiz Update" "Check the quiz page for updates" "quiz-update" quizId.

(** [Payment.find({ forDate: { $gte: todayStart, $lt: todayEnd },
    status: 'completed', verified: true })] *)
Definition eligiblePayments (pays : list Payment.t) (todayStart : Z) : list Payment.t :=
  filter (λ p, todayStart ≤ Payment.forDate p ∧ Payment.forDate p < todayStart + 86400000
               ∧ Payment.status p = "completed" ∧ Payment.verified p = true) pays.

(** [sendQuizNotifications({ quizId, kind })]: nothing is returned when the
    quiz is missing, or when a payment names a user that does not exist
    (its populated [user] is null, reading [_id] throws and the handler of
    the error returns null). *)
Definition sendQuizNotifications (db : store) (us : gmap string User.t)
    (pays : list Payment.t) (quizId kind : string) (todayStart : Z) : option notifyData :=
  match db !! quizId with
  | None => None
  | Some _ =>
    let eligible := eligiblePayments pays todayStart in
    if forallb (λ p, bool_decide (is_Some (us !! Payment.user p))) eligible then
      Some (mkNotifyData (Payment.user <$> eligible) (notification_for kind quizId)
              (Z.of_nat (length eligible)))
    else None
  end.

End Notifications.

(** ** utils/quizScheduler.js *)

Module Scheduler.

(** [Math.random()]: a supply of draws; [floor(random() * bound)] is the next
    draw reduced below [bound]. *)
Definition rng : Type := list nat.

Definition random_below (bound : nat) (g : rng) : nat * rng :=
  ((hd 0 g) `mod` bound, tl g)%nat.

(** [[a[i], a[j]] = [a[j], a[i]]] *)
Definition swap {A} (a : list A) (i j : nat) : list A :=
  match a !! i, a !! j with
  | Some x, Some y => <[j:=x]> (<[i:=y]> a)
  | _, _ => a
  end.

(** [for (let i = ...; i > 0; i--) { j = floor(random() * (i + 1)); swap }] *)
Fixpoint fisher_yates {A} (i : nat) (a : list A) (g : rng) : list A * rng :=
  match i with
  | O => (a, g)
  | S i' =>
    let '(j, g') := random_below (S i) g in
    fisher_yates i' (swap a i j) g'
  end.

Definition shuffle {A} (a : list A) (g : rng) : list A * rng :=
  fisher_yates (length a - 1) a g.

(** The body of the [forEach]: the options of one question are shuffled and
    its [correctIndex] is found again by the text of the correct option. *)
Definition reshuffle_options (question : Question.t) (g : rng) : Question.t * rng :=
  match Question.options question with
  | [] => (question, g)
  | _ =>
    let originalCorrectAnswer :=
      Js.index (Question.options question) (Question.correctIndex question) in
    let '(shuffledOptions, g') := shuffle (Question.options question) g in
    let found :=
      match list_find (λ opt, Some opt = originalCorrectAnswer) shuffledOptions with
      | Some (i, _) => Z.of_nat i
      | None => -1
      end in
    (Question.mk (Question._id question) (Question.text question) shuffledOptions found
       (Question.category question) (Question.difficulty question)
       (Question.points question), g')
  end.

(** Question objects live in a heap; an array of questions holds references. *)
Abbreviation heap := (gmap nat Question.t).

Fixpoint forEach_reshuffle (refs : list nat) (h : heap) (g : rng) : heap * rng :=
  match refs with
  | [] => (h, g)
  | r :: refs' =>
    match h !! r with
    | None => forEach_reshuffle refs' h g
    | Some question =>
      let '(question', g') := reshuffle_options question g in
      forEach_reshuffle refs' (<[r:=question']> h) g'
    end
  end.

(** [shuffleQuestions(questions)]: the returned array and the heap after the
    in-place update of the question objects *)
Definition shuffleQuestions (h : heap) (questions : list nat) (g : rng)
    : list nat * heap * rng :=
  match questions with
  | [] => (questions, h, g)
  | _ =>
    let '(shuffled, g1) := shuffle questions g in
    let '(h', g2) := forEach_reshuffle shuffled h g1 in
    (shuffled, h', g2)
  end.

(** [quiz.questions = shuffleQuestions(quiz.questions)] on a document, whose
    questions are distinct objects *)
Definition shuffle_document (qs : list Question.t) (g : rng) : list Question.t * rng :=
  let refs := seq 0 (length qs) in
  let '(out, h', g') := shuffleQuestions (list_to_map (zip refs qs)) refs g in
  (omap (λ r, h' !! r) out, g').

(** *** Going live *)

(** [Quiz.findOneAndUpdate({ _id, isLive: false }, { $set: ... }, { new: true })] *)
Definition claim_live (db : store) (quizId : string) (now : Z) : option Quiz.t * store :=
  match db !! quizId with
  | None => (None, db)
  | Some quiz =>
    if Quiz.isLive quiz then (None, db)
    else (Some (Quiz.go_live now quiz), <[quizId := Quiz.go_live now quiz]> db)
  end.

(** [activeQuizSessions]: quiz id to (questionIndex, questionStartTime) *)
Record world : Type := mkWorld {
  db : store;
  activeQuizSessions : gmap string (Z * Z)
}.

(** The timer a call of [emitNextQuestion] leaves pending. When [NextQuestion]
    fires it increments [questionIndex] and calls [emitNextQuestion]; when
    [Retry] fires it only calls [emitNextQuestion]. *)
Inductive timer : Type :=
| NoTimer
| Retry (delay : Z)
| NextQuestion (delay : Z).

(** The variables of the closure of one [startQuizSession] call *)
Record session : Type := mkSession {
  s_quizId : string;
  questionIndex : Z;
  currentTimer : timer
}.

(** Failures of the database during one call of [emitNextQuestion]: the
    reload [Quiz.findById] throws; the [findByIdAndUpdate] of the question
    state throws (caught on the spot). *)
Record faults : Type := mkFaults {
  reload_throws : bool;
  persist_throws : bool
}.

Definition no_faults : faults := mkFaults false false.

Definition compare (a b : Participant.t) : Z :=
  if bool_decide (Participant.score b ≠ Participant.score a)
  then Participant.score b - Participant.score a
  else Js.or_num (Participant.timeSpent a) 0 - Js.or_num (Participant.timeSpent b) 0.

Definition sortedParticipants (quiz : Quiz.t) : list Participant.t :=
  Js.sort compare (filter (λ p, Participant.paid p = true) (Quiz.participants quiz)).

(** The positional update of the first participant whose [_id] is [pid] *)
Definition set_rank (pid : string) (rank now : Z) (ps : list Participant.t)
    : list Participant.t :=
  match list_find (λ p, Participant._id p = pid) ps with
  | None => ps
  | Some (i, p) =>
    <[i := Participant.mk (Participant._id p) (Participant.user p) (Participant.score p)
             (Participant.totalQuestions p) (Participant.correctAnswers p)
             (Participant.timeSpent p) (Participant.answers p)
             (Some (default now (Participant.endTime p))) true (Some rank)
             (Participant.paid p)]> ps
  end.

(** The rank written for each sorted participant: [index + 1] *)
Definition ranks (sorted : list Participant.t) : list (Participant.t * Z) :=
  imap (λ index p, (p, Z.of_nat index + 1)) sorted.

Definition winner (entry : Participant.t * Z) : Js.json :=
  Js.JObj [("rank", Js.jnum entry.2); ("userId", Js.JText (Participant.user entry.1));
           ("score", Js.jnum (Participant.score entry.1));
           ("correctAnswers", Js.jnum (Participant.correctAnswers entry.1));
           ("totalQuestions", Js.jnum (Participant.totalQuestions entry.1));
           ("timeSpent", Js.jnum (Participant.timeSpent entry.1))].

(** [endQuizSession(quiz)] *)
Definition endQuizSession (w : world) (quizId : string) (now : Z) : world * list emit :=
  let active := delete quizId (activeQuizSessions w) in
  match db w !! quizId with
  | None => (mkWorld (db w) active, [])
  | Some currentQuiz =>
    let sorted := sortedParticipants currentQuiz in
    let ps := foldl (λ ps entry, set_rank (Participant._id entry.1) entry.2 now ps)
                    (Quiz.participants currentQuiz) (ranks sorted) in
    let finalQuiz := Quiz.set_ended now (Quiz.set_participants ps currentQuiz) in
    (mkWorld (<[quizId := finalQuiz]> (db w)) active,
     [mkEmit (ToRoom ("quiz-" +:+ quizId)) "quiz-ended"
        (Js.JObj [("quizId", Js.JText quizId); ("endTime", Js.jnum now);
                  ("totalParticipants", Js.jnum (Z.of_nat (length ps)));
                  ("winners", Js.JList (winner <$> take 20 (ranks sorted)))])])
  end.

(** the payload of the [question] event *)
Definition question_payload (questionIndex : Z) (quiz : Quiz.t) (q : Question.t)
    (questionStartTime : Z) : Js.json :=
  Js.JObj [("questionIndex", Js.jnum (questionIndex + 1));
           ("totalQuestions", Js.jnum (Quiz.totalQuestions quiz));
           ("question", Js.JObj [("_id", Js.JText (Question._id q));
                                 ("text", Js.JText (Question.text q));
                                 ("options", Js.JList (Js.JText <$> Question.options q));
                                 ("category", Js.JText (Question.category q));
                                 ("points", Js.jnum (Question.points q))]);
           ("timeLeft", Js.jnum (Quiz.timePerQuestion quiz * 1000));
           ("startTime", Js.jnum questionStartTime);
           ("duration", Js.jnum (Quiz.timePerQuestion quiz * 1000))].

(** [emitNextQuestion()] *)
Definition emitNextQuestion (w : world) (s : session) (f : faults) (now : Z)
    : world * session * list emit :=
  let quizId := s_quizId s in
  if reload_throws f then
    (w, mkSession quizId (questionIndex s + 1) (Retry 2000), [])
  else
  match db w !! quizId with
  | None => (mkWorld (db w) (delete quizId (activeQuizSessions w)),
             mkSession quizId (questionIndex s) NoTimer, [])
  | Some currentQuiz =>
    if negb (Quiz.isLive currentQuiz) then
      (mkWorld (db w) (delete quizId (activeQuizSessions w)),
       mkSession quizId (questionIndex s) NoTimer, [])
    else if bool_decide (Z.of_nat (length (Quiz.questions currentQuiz)) ≤ questionIndex s) then
      let '(w', out) := endQuizSession w quizId now in
      (w', mkSession quizId (questionIndex s) NoTimer, out)
    else
    match Js.index (Quiz.questions currentQuiz) (questionIndex s) with
    | None => (w, mkSession quizId (questionIndex s + 1) (Retry 1000), [])
    | Some currentQuestion =>
      let db' := if persist_throws f then db w
                 else <[quizId := Quiz.set_current (questionIndex s) now currentQuiz]> (db w) in
      (mkWorld db' (<[quizId := (questionIndex s, now)]> (activeQuizSessions w)),
       mkSession quizId (questionIndex s) (NextQuestion (Quiz.timePerQuestion currentQuiz * 1000)),
       [mkEmit (ToRoom ("quiz-" +:+ quizId)) "question"
          (question_payload (questionIndex s) currentQuiz currentQuestion now)])
    end
  end.

(** The pending timer of the session fires. *)
Definition timer_fires (w : world) (s : session) (f : faults) (now : Z)
    : world * session * list emit :=
  match currentTimer s with
  | NoTimer => (w, s, [])
  | Retry _ => emitNextQuestion w s f now
  | NextQuestion _ =>
    emitNextQuestion w (mkSession (s_quizId s) (questionIndex s + 1) (currentTimer s)) f now
  end.

(** [startQuizSession(quiz)]: no session when one is registered already, or
    when the quiz is missing or has no questions. *)
Definition startQuizSession (w : world) (quizId : string) (f : faults) (now : Z)
    : world * option session * list emit :=
  if bool_decide (is_Some (activeQuizSessions w !! quizId)) then (w, None, [])
  else
  match db w !! quizId with
  | None => (w, None, [])
  | Some currentQuiz =>
    match Quiz.questions currentQuiz with
    | [] => (w, None, [])
    | _ =>
      let questionIndex :=
        if bool_decide (0 ≤ Quiz.currentQuestionIndex currentQuiz)
        then Quiz.currentQuestionIndex currentQuiz else 0 in
      let '(w', s, out) := emitNextQuestion w (mkSession quizId questionIndex NoTimer) f now in
      (w', Some s, out)
    end
  end.

Definition quiz_started (quiz : Quiz.t) : emit :=
  mkEmit (ToRoom ("quiz-" +:+ Quiz._id quiz)) "quiz-started"
    (Js.JObj [("quizId", Js.JText (Quiz._id quiz));
              ("startTime", QuizController.jdate (Quiz.startTime quiz));
              ("totalQuestions", Js.jnum (Quiz.totalQuestions quiz));
              ("timePerQuestion", Js.jnum (Quiz.timePerQuestion quiz))]).

(** [startQuizDirectly(quiz)], the start of the cron path *)
Definition startQuizDirectly (w : world) (quizId : string) (now : Z)
    : world * option session * list emit :=
  match claim_live (db w) quizId now with
  | (None, _) => (w, None, [])
  | (Some updatedQuiz, db') =>
    let '(w', s, out) :=
      startQuizSession (mkWorld db' (activeQuizSessions w)) quizId no_faults now in
    (w', s, out ++ [quiz_started updatedQuiz])
  end.

(** [manualStartQuiz(quizId)] in its two steps on the database: the load with
    the check of [isLive] on the loaded document, then [quiz.save()] of that
    document, which writes the paths assigned since the load. *)
Definition manual_load (db : store) (quizId : string) : string + Quiz.t :=
  match db !! quizId with
  | None => inl "Quiz not found"
  | Some quiz => if Quiz.isLive quiz then inl "Quiz already live" else inr quiz
  end.

Definition manual_save (db : store) (loaded : Quiz.t) (g : rng) (now : Z) : store :=
  let shuffled :=
    if Quiz.shuffleQuestions loaded && bool_decide (Quiz.questions loaded ≠ [])
    then Some (shuffle_document (Quiz.questions loaded) g).1 else None in
  alter (λ stored, Quiz.go_live now
                     (match shuffled with
                      | Some qs => Quiz.set_questions qs stored
                      | None => stored
                      end)) (Quiz._id loaded) db.

Definition manualStartQuiz (w : world) (quizId : string) (g : rng) (now : Z)
    : string + (world * option session * list emit) :=
  match manual_load (db w) quizId with
  | inl error => inl error
  | inr quiz =>
    inr (startQuizSession (mkWorld (manual_save (db w) quiz g now) (activeQuizSessions w))
           quizId no_faults now)
  end.

(** *** The countdown of the open question *)

(** The [setInterval] callback of [emitNextQuestion]: what it emits at the
    clock reading [now], and whether it clears the interval. [questionIndex]
    is the value of the variable of the session when the callback runs;
    [ioInstance] is set. *)
Definition perSecondInterval (quizId : string) (questionIndex questionStartTime durationMs now : Z)
    : list emit * bool :=
  let remainingMs := Z.max 0 (questionStartTime + durationMs - now) in
  let remaining := Js.ceil_div remainingMs 1000 in
  (if bool_decide (0 ≤ remaining) then
     [mkEmit (ToRoom ("quiz-" +:+ quizId)) "time-left"
        (Js.JObj [("questionIndex", Js.jnum (questionIndex + 1));
                  ("remaining", Js.jnum remaining)])]
   else [],
   bool_decide (remaining ≤ 0)).

(** *** The scheduled start and the results *)

(** [Quiz.findOne(filter)]: a document of the collection that passes the
    filter, with its key *)
Definition findOne (filter : Quiz.t → bool) (db : store) : option (string * Quiz.t) :=
  List.find (λ kq, filter kq.2) (map_to_list db).

(** [date: { $gte: today, $lt: new Date(today.getTime() + 86400000) }] *)
Definition of_day (today : Z) (q : Quiz.t) : bool :=
  bool_decide (today ≤ Quiz.date q) && bool_decide (Quiz.date q < today + 86400000).

(** [startScheduledQuiz()]: [today] is the local midnight before [now];
    [useBullMQ] and [queue] tell whether the queue of jobs is configured and
    available, in which case the START job is left to start the quiz. *)
Definition startScheduledQuiz (w : world) (us : gmap string User.t) (pays : list Payment.t)
    (g : rng) (now today : Z) (useBullMQ queue : bool) : world * option session * list emit :=
  match findOne (λ q, of_day today q && negb (Quiz.isLive q) && Quiz.published q) (db w) with
  | None => (w, None, [])
  | Some (k, quiz) =>
    if Quiz.isLive quiz then (w, None, [])
    else
      let db1 :=
        if Quiz.shuffleQuestions quiz && bool_decide (Quiz.questions quiz ≠ []) then
          alter (Quiz.set_questions (shuffle_document (Quiz.questions quiz) g).1) k (db w)
        else db w in
      let personal :=
        match Notifications.sendQuizNotifications db1 us pays k "started" today with
        | Some notifyData =>
          (λ userId, mkEmit (ToRoom ("user-" +:+ userId)) "quiz-started-personal"
                       (Js.JObj [("quizId", Js.JText k);
                                 ("message", Js.JText "Quiz is now live! Join now!")]))
            <$> Notifications.eligibleUserIds notifyData
        | None => []
        end in
      if useBullMQ && queue then (mkWorld db1 (activeQuizSessions w), None, personal)
      else
        let '(w', s, out) := startQuizDirectly (mkWorld db1 (activeQuizSessions w)) k now in
        (w', s, personal ++ out)
  end.

(** A winner of [finalizeQuizResults] *)
Record result_winner : Type := mkResultWinner {
  rw_rank : Z;
  rw_userId : string;
  rw_score : Z;
  rw_correctAnswers : Z;
  rw_totalQuestions : Z;
  rw_timeSpent : Z;
  rw_accuracy : QuizController.accuracy
}.

(** What [finalizeQuizResults] sends: [quiz-results-ready] to every socket,
    with the first ten winners, and [quiz-results-personal] with all of them
    to the room of each eligible user. *)
Record results : Type := mkResults {
  rr_quizId : string;
  rr_winners : list result_winner;
  rr_totalParticipants : Z;
  rr_notification : option Notifications.notification;
  rr_personal : list (string * list result_winner)
}.

Definition result_winners (quiz : Quiz.t) : list result_winner :=
  imap (λ index participant,
          mkResultWinner (Z.of_nat index + 1) (Participant.user participant)
            (Participant.score participant) (Participant.correctAnswers participant)
            (Participant.totalQuestions participant) (Participant.timeSpent participant)
            (if bool_decide (Participant.totalQuestions participant > 0)
             then QuizController.Percent (Participant.correctAnswers participant)
                                         (Participant.totalQuestions participant)
             else QuizController.NoAccuracy))
       (take 20 (Js.sort compare (filter (λ p, Participant.isCompleted p = true)
                                         (Quiz.participants quiz)))).

(** [finalizeQuizResults()] *)
Definition finalizeQuizResults (db : store) (us : gmap string User.t) (pays : list Payment.t)
    (now today : Z) : store * option results :=
  match findOne (λ q, of_day today q && Quiz.isLive q) db with
  | None => (db, None)
  | Some (k, quiz) =>
    let winners := result_winners quiz in
    let db' := <[k := Quiz.set_ended now quiz]> db in
    let notifyData := Notifications.sendQuizNotifications db' us pays k "results" today in
    (db',
     Some (mkResults k (take 10 winners)
             (Z.of_nat (length (filter (λ p, Participant.isCompleted p = true)
                                       (Quiz.participants quiz))))
             (Notifications.notification_of <$> notifyData)
             (match notifyData with
              | Some data => (λ userId, (userId, winners)) <$> Notifications.eligibleUserIds data
              | None => []
              end)))
  end.

(** *** The histories written by [endQuizSession] *)

(** The body of the loop over [sortedParticipants]: a user that exists and
    has no entry for the quiz is given one. The rank of the entry is
    [participant.rank] of the document loaded before the ranks were
    written. *)
Definition update_history (finalQuiz : Quiz.t) (now : Z) (hids : nat → string)
    (us : gmap string User.t) (entry : nat * Participant.t) : gmap string User.t :=
  match us !! Participant.user entry.2 with
  | None => us
  | Some user =>
    match list_find (λ h, History.quizId h = Some (Quiz._id finalQuiz))
                    (User.quizHistory user) with
    | Some _ => us
    | None =>
      <[Participant.user entry.2 :=
          User.set_quizHistory
            (User.quizHistory user
               ++ [History.mk (hids entry.1) (Some (Quiz._id finalQuiz))
                     (Participant.score entry.2) (Some (Quiz.date finalQuiz))
                     (Participant.rank entry.2) now]) user]> us
    end
  end.

(** The users after [endQuizSession(quiz)] on the world [w] *)
Definition endQuizSession_histories (w : world) (us : gmap string User.t) (quizId : string)
    (now : Z) (hids : nat → string) : gmap string User.t :=
  match db w !! quizId with
  | None => us
  | Some currentQuiz =>
    foldl (update_history currentQuiz now hids) us (imap pair (sortedParticipants currentQuiz))
  end.

End Scheduler.

(** ** utils/jobs.js *)

Module Jobs.






(** The processor of the worker for a START job: [inl] is the error that
    marks the job as failed. *)
Definition start_job (w : Scheduler.world) (quizId : string) (g : Scheduler.rng) (now : Z)
    : string + (Scheduler.world * option Scheduler.session * list emit) :=
  match Scheduler.db w !! quizId with
  | None => inl ("Quiz " +:+ quizId +:+ " not found")
  | Some quiz =>
    if Quiz.isLive quiz then inr (w, None, [])
    else
      let '(w', s, out) :=
        Scheduler.startQuizSession
          (Scheduler.mkWorld (Scheduler.manual_save (Scheduler.db w) quiz g now)
                             (Scheduler.activeQuizSessions w))
          quizId Scheduler.no_faults now in
      inr (w', s, out ++ [Scheduler.quiz_started (Quiz.go_live now quiz)])
  end.

(** The processor for an END job *)
Definition end_job (w : Scheduler.world) (quizId : string) (now : Z)
    : Scheduler.world * list emit :=
  match Scheduler.db w !! quizId with
  | Some quiz => if Quiz.isLive quiz then Scheduler.endQuizSession w quizId now else (w, [])
  | None => (w, [])
  end.

(** The processor for a RESULT_ANNOUNCE job: the notification data is not
    used here, then the results are finalized. *)
Definition result_announce_job (w : Scheduler.world) (us : gmap string User.t)
    (pays : list Payment.t) (now today : Z) : Scheduler.world * option Scheduler.results :=
  let '(db', sent) := Scheduler.finalizeQuizResults (Scheduler.db w) us pays now today in
  (Scheduler.mkWorld db' (Scheduler.activeQuizSessions w), sent).

End Jobs.

(** ** server.js: what a joining socket is sent *)

Module Server.

(** A question subdocument as it is serialized when the object itself is
    put into a payload: every path of the schema. *)
Definition question_toJSON (q : Question.t) : Js.json :=
  Js.JObj [("_id", Js.JText (Question._id q)); ("text", Js.JText (Question.text q));
           ("options", Js.JList (Js.JText <$> Question.options q));
           ("correctIndex", Js.jnum (Question.correctIndex q));
           ("category", Js.JText (Question.category q));
           ("difficulty", Js.JText (Question.difficulty q));
           ("points", Js.jnum (Question.points q))].

(** The resynchronisation at the end of the [join-room] handler that sends
    [question: q]. *)
Definition resync (quiz : Quiz.t) (now : Z) : list emit :=
  if bool_decide (0 ≤ Quiz.currentQuestionIndex quiz) then
    match Js.index (Quiz.questions quiz) (Quiz.currentQuestionIndex quiz) with
    | None => []
    | Some q =>
      let startMs := Js.or_num (default 0 (Quiz.questionStartTime quiz)) now in
      let durationMs := Js.or_num (Quiz.timePerQuestion quiz) 15 * 1000 in
      [mkEmit ToSocket "question"
         (Js.JObj [("questionIndex", Js.jnum (Quiz.currentQuestionIndex quiz + 1));
                   ("totalQuestions", Js.jnum (Quiz.totalQuestions quiz));
                   ("question", question_toJSON q);
                   ("timeLeft", Js.jnum (Z.max 0 (durationMs - (now - startMs))));
                   ("startTime", Js.jnum startMs);
                   ("duration", Js.jnum durationMs)])]
    end
  else [].

(** The [join-room] handler of a paid participant [userId] (device check and
    socket bookkeeping left out: they do not change what is sent here). *)
Definition join_room (db : store) (roomId userId username : string) (now : Z) : list emit :=
  match db !! roomId with
  | None => [mkEmit ToSocket "join-error" (Js.JObj [("message", Js.JText "Quiz not available")])]
  | Some quiz =>
    if negb (Quiz.isLive quiz) then
      [mkEmit ToSocket "join-error" (Js.JObj [("message", Js.JText "Quiz not available")])]
    else
    match list_find (λ p, Participant.user p = userId ∧ Participant.paid p = true)
                    (Quiz.participants quiz) with
    | None => [mkEmit ToSocket "join-error" (Js.JObj [("message", Js.JText "Not registered")])]
    | Some _ =>
      [mkEmit ToSocket "joined" (Js.JObj [("roomId", Js.JText ("quiz-" +:+ roomId))]);
       mkEmit (ToRoom ("quiz-" +:+ roomId)) "user-joined"
         (Js.JObj [("userId", Js.JText userId); ("username", Js.JText username)])]
      ++ resync quiz now
    end
  end.

End Server.

(** * Definitions used by the statements *)

(** ** Predicates and derived functions *)

(** The entry of [qstate.participants] after an accepted answer *)
Definition scored (participant : Orchestrator.participant) (qIndex sel : Js.jsval)
    (isCorrect : bool) (points timeTaken : Z) : Orchestrator.participant :=
  Orchestrator.mkParticipant (Orchestrator.socketId participant)
    (Orchestrator.answers participant
       ++ [(qIndex, Orchestrator.mkAnswer sel isCorrect points timeTaken)])
    (Orchestrator.score participant + points)
    (if isCorrect then Orchestrator.correctAnswers participant + 1
     else Orchestrator.correctAnswers participant)
    (Orchestrator.timeSpent participant + timeTaken)
    (Orchestrator.isCompleted participant).


(** No question occurs twice in a ledger of the collection. *)
Definition one_entry_per_question (db : store) : Prop :=
  ∀ k quiz, db !! k = Some quiz →
    Forall (λ p, NoDup (Answer.questionId <$> Participant.answers p)) (Quiz.participants quiz).

(** Higher score first; with equal scores, less time first. *)
Definition ranks_before (score_a time_a score_b time_b : Z) : Prop :=
  score_b < score_a ∨ (score_a = score_b ∧ time_a ≤ time_b).

(** What a row of the leaderboard says about a participant, rank left out *)
Definition row (r : Orchestrator.ranked) : string * Z * Z :=
  (Orchestrator.r_user r, Orchestrator.r_score r, Orchestrator.r_timeSpent r).

(** The participant after the update of [endQuizSession] that gives it [rank] *)
Definition ranked_participant (p : Participant.t) (rank now : Z) : Participant.t :=
  Participant.mk (Participant._id p) (Participant.user p) (Participant.score p)
    (Participant.totalQuestions p) (Participant.correctAnswers p)
    (Participant.timeSpent p) (Participant.answers p)
    (Some (default now (Participant.endTime p))) true (Some rank)
    (Participant.paid p).

(** The stored [currentQuestionIndex] of a quiz *)
Definition persisted_index (w : Scheduler.world) (quizId : string) : option Z :=
  Quiz.currentQuestionIndex <$> Scheduler.db w !! quizId.


(** The stored index is at most the index of the session. *)
Definition index_behind (w : Scheduler.world) (s : Scheduler.session) : Prop :=
  ∃ stored, persisted_index w (Scheduler.s_quizId s) = Some stored
            ∧ stored ≤ Scheduler.questionIndex s.

(** The emissions of the orchestrator for one question, in their order: the
    opening of [advanceTo], [n] ticks of the per-second timer, the end. *)
Definition question_trace (qid : string) (idx : Z) (question : Question.t) (doc : Orchestrator.quizDoc)
    (duration : Z) (n : nat) : list emit :=
  [mkEmit (ToRoom qid) "question-start" (Orchestrator.questionForClients idx question duration);
   Orchestrator.time_left qid idx duration]
  ++ flat_map (λ k, Orchestrator.perSecond qid idx (duration - Z.of_nat k)) (seq 0 n)
  ++ (Orchestrator.endHandle doc qid idx question).1.

(** What the shuffle of its options keeps of a question: everything but the
    order of the options, and the text of the correct option when
    [correctIndex] pointed at one. *)
Definition same_question (q q' : Question.t) : Prop :=
  Question._id q' = Question._id q
  ∧ Question.text q' = Question.text q
  ∧ Question.points q' = Question.points q
  ∧ Question.options q' ≡ₚ Question.options q
  ∧ ∀ answer,
      Js.index (Question.options q) (Question.correctIndex q) = Some answer →
      Js.index (Question.options q') (Question.correctIndex q') = Some answer.

(** ** Example data *)

(** Questions *)
Definition q_capital : Question.t :=
  Question.mk "q0" "Capital of France?" ["Rome"; "Paris"; "Oslo"; "Bern"] 1 "geo" "easy" 10.


Definition q_second : Question.t :=
  Question.mk "q1" "2 + 2?" ["3"; "4"; "5"; "6"] 1 "math" "easy" 5.

Definition q_third : Question.t :=
  Question.mk "q2" "Largest planet?" ["Mars"; "Venus"; "Jupiter"; "Earth"] 2 "space" "easy" 5.

(** A paid participant who has not answered yet *)
Definition fresh_participant (pid user : string) : Participant.t :=
  Participant.mk pid user 0 0 0 0 [] None false None true.

(** A quiz document with fifteen seconds per question *)
Definition quiz_of (questions : list Question.t) (participants : list Participant.t)
    (live : bool) (idx : Z) (start : option Z) : Quiz.t :=
  Quiz.mk "quiz1" "Daily Quiz" 0 (Z.of_nat (length participants)) 2000 None None
    questions participants live false true (Z.of_nat (length questions)) 15 false idx start.

(** The collection that holds one quiz *)
Definition db_of (quiz : Quiz.t) : store := {[ Quiz._id quiz := quiz ]}.

(** Alice, registered for a live quiz whose question 0 started at 1000 ms *)
Definition quiz_alice : Quiz.t :=
  quiz_of [q_capital] [fresh_participant "p1" "alice"] true 0 (Some 1000).

Definition db_alice : store := db_of quiz_alice.

(** Her answer to question [q0]: option 1, the correct one *)
Definition answer_alice : QuizController.body :=
  QuizController.mkBody "quiz1" "q0" (Js.JNum 1) None.


(** The orchestrator running the quiz of the capital question, Alice connected *)
Definition reg_capital : Orchestrator.registry :=
  {[ "quiz1" :=
       Orchestrator.mkQstate
         (Some (Orchestrator.mkQuizDoc "quiz1" "Daily Quiz" [q_capital] []))
         0 true 15
         [("alice", Orchestrator.mkParticipant (Some "s1") [] 0 0 0 false)]
         (Some 1000) 0 ]}.

(** The participants of the example: scores 50, 80, 80, 30 and times 10, 5, 8, 20 *)
Definition contestant (pid : string) (score timeSpent : Z) : Participant.t :=
  Participant.mk pid pid score 0 0 timeSpent [] None false None true.

Definition contestants : list Participant.t :=
  [contestant "a" 50 10; contestant "b" 80 5; contestant "c" 80 8; contestant "d" 30 20].

(** The same contestants in the orchestrator *)
Definition reg_contest : Orchestrator.registry :=
  {[ "quiz1" :=
       Orchestrator.mkQstate
         (Some (Orchestrator.mkQuizDoc "quiz1" "Daily Quiz" [q_capital] []))
         0 true 15
         [("a", Orchestrator.mkParticipant None [] 50 0 10 false);
          ("b", Orchestrator.mkParticipant None [] 80 0 5 false);
          ("c", Orchestrator.mkParticipant None [] 80 0 8 false);
          ("d", Orchestrator.mkParticipant None [] 30 0 20 false)]
         (Some 1000) 0 ]}.

(** A published quiz of three questions that has not started *)
Definition quiz_scheduled : Quiz.t :=
  quiz_of [q_capital; q_second; q_third] [fresh_participant "p1" "alice"] false (-1) None.

(** A live quiz of three questions, question 0 being open since 5000 ms *)
Definition quiz_running : Quiz.t :=
  quiz_of [q_capital; q_second; q_third] [fresh_participant "p1" "alice"] true 0 (Some 5000).

(** Two question objects at the addresses 0 and 1 *)
Definition heap_two : Scheduler.heap := {[ 0%nat := q_capital; 1%nat := q_second ]}.

(** ** Definitions for the further properties *)

(** The roster of a quiz is in order: no user is registered twice, the
    counter is the number of participants and does not exceed the
    capacity. *)
Definition roster_ok (q : Quiz.t) : Prop :=
  NoDup (Participant.user <$> Quiz.participants q)
  ∧ Quiz.currentParticipants q = Z.of_nat (length (Quiz.participants q))
  ∧ Quiz.currentParticipants q ≤ Quiz.maxParticipants q.

(** A user without payments and history *)
Definition user_of (uid name : string) : User.t :=
  User.mk uid name (Some name) "" [] [] [].

(** The collections of the example: the scheduled quiz with Alice
    registered, the users Alice and Bob, no payment *)
Definition c_scheduled : collections :=
  mkCollections (db_of quiz_scheduled)
    {[ "alice" := user_of "alice" "Alice"; "bob" := user_of "bob" "Bob" ]} [].

(** The same with the running quiz *)
Definition c_running : collections :=
  mkCollections (db_of quiz_running)
    {[ "alice" := user_of "alice" "Alice"; "bob" := user_of "bob" "Bob" ]} [].


(** A quiz in progress: Alice has answered and not completed, Carol and Dave
    have completed. *)
Definition quiz_played : Quiz.t :=
  quiz_of [q_capital]
    [Participant.mk "p1" "alice" 10 1 1 5 [] None false None true;
     Participant.mk "p2" "carol" 20 1 1 7 [] (Some 9000) true (Some 1) true;
     Participant.mk "p3" "dave" 0 1 0 3 [] (Some 8000) true (Some 1) true]
    true 0 (Some 1000).

Definition c_played : collections :=
  mkCollections (db_of quiz_played)
    {[ "alice" := user_of "alice" "Alice"; "carol" := user_of "carol" "Carol";
       "dave" := user_of "dave" "Dave" ]} [].

(** The number of entries of the quiz in a history *)
Definition entries_of (quizId : string) (u : User.t) : Z :=
  Z.of_nat (length (filter (λ h, History.quizId h = Some quizId) (User.quizHistory u))).


(** The user has paid for the day of the request: a payment record was
    found, or one of [user.payments] is of today and of at least 5. *)
Definition paid_today (u : User.t) (t : QuizController.times) (paymentRecord : option Z)
    : Prop :=
  is_Some paymentRecord
  ∨ ∃ p, p ∈ User.payments u
         ∧ QuizController.todayStart t ≤ User.p_date p ∧ 5 ≤ User.p_amount p.

(** The payment record found is from after the deadline, and the quiz has
    not started. *)
Definition paid_late (t : QuizController.times) (paymentRecord : option Z) (offset : Z → Z)
    : Prop :=
  ∃ paymentTime,
    paymentRecord = Some paymentTime
    ∧ QuizController.nowIST t < QuizController.quizStartTime t
    ∧ paymentTime + offset paymentTime * 60000 + 19800000 > QuizController.paymentDeadline t.


(** The quiz [qid] of the orchestrator from [advanceTo(idx)] on, when every
    end-of-question timer fires and nobody answers: the registry at the end
    and the emissions in their order, the ticks of the countdown left out.
    [fuel] bounds the number of questions opened. *)
Fixpoint play (fuel : nat) (reg : Orchestrator.registry) (qid : string) (idx now : Z)
    : Orchestrator.registry * list emit :=
  match fuel with
  | O => (reg, [])
  | S fuel' =>
    let '(reg1, out1, k) := Orchestrator.advanceTo reg qid idx now in
    match k with
    | Orchestrator.Timers i =>
      match reg1 !! qid with
      | Some qs =>
        match Orchestrator.qs_quizDoc qs with
        | Some doc =>
          match Js.index (Orchestrator.d_questions doc) i with
          | Some question =>
            let '(out2, after) := Orchestrator.endHandle doc qid i question in
            match after with
            | Orchestrator.Finalize =>
              let '(reg2, out3, _) := Orchestrator.finalizeQuiz reg1 qid in
              (reg2, out1 ++ out2 ++ out3)
            | Orchestrator.AdvanceTo nextIdx =>
              let '(reg2, out3) :=
                play fuel' reg1 qid nextIdx
                     (now + Orchestrator.questionDurationSec qs * 1000 + 1000) in
              (reg2, out1 ++ out2 ++ out3)
            end
          | None => (reg1, out1)
          end
        | None => (reg1, out1)
        end
      | None => (reg1, out1)
      end
    | _ => (reg1, out1)
    end
  end.

(** The three emissions of the orchestrator for the question at position
    [i], without the ticks *)
Definition question_events (qid : string) (duration : Z) (i : nat) (question : Question.t)
    : list emit :=
  [mkEmit (ToRoom qid) "question-start"
     (Orchestrator.questionForClients (Z.of_nat i) question duration);
   Orchestrator.time_left qid (Z.of_nat i) duration;
   Orchestrator.question_ended qid (Z.of_nat i) question].


(** The state of the contest in the orchestrator, and the collections with
    its quiz *)
Definition qs_contest : Orchestrator.qstate :=
  Orchestrator.mkQstate
    (Some (Orchestrator.mkQuizDoc "quiz1" "Daily Quiz" [q_capital] []))
    0 true 15
    [("a", Orchestrator.mkParticipant None [] 50 0 10 false);
     ("b", Orchestrator.mkParticipant None [] 80 0 5 false);
     ("c", Orchestrator.mkParticipant None [] 80 0 8 false);
     ("d", Orchestrator.mkParticipant None [] 30 0 20 false)]
    (Some 1000) 0.

Definition quiz_contest : Quiz.t := quiz_of [q_capital] contestants true 0 (Some 1000).

Definition c_contest : collections :=
  mkCollections (db_of quiz_contest)
    {[ "a" := user_of "a" "Ann"; "b" := user_of "b" "Ben" ]} [].

(** The ids given to new subdocuments: a prefix and the position *)
Definition ids_from (prefix : string) (i : nat) : string := prefix +:+ pretty i.


(** The session lets its timer fire at each reading of [clock], the
    database never failing: the world and the session at the end, and the
    emissions in their order (the ticks of the countdown left out). *)
Fixpoint run_session (w : Scheduler.world) (s : Scheduler.session) (clock : list Z)
    : Scheduler.world * Scheduler.session * list emit :=
  match clock with
  | [] => (w, s, [])
  | now :: clock' =>
    let '(w1, s1, out1) := Scheduler.timer_fires w s Scheduler.no_faults now in
    let '(w2, s2, out2) := run_session w1 s1 clock' in
    (w2, s2, out1 ++ out2)
  end.

(** The [question] emission for the question at position [i], opened at the
    instant [start] *)
Definition question_emit (quizId : string) (quiz : Quiz.t) (start : Z) (i : nat)
    (q : Question.t) : emit :=
  mkEmit (ToRoom ("quiz-" +:+ quizId)) "question"
    (Scheduler.question_payload (Z.of_nat i) quiz q start).

(** A running quiz with two paid participants and one that has not paid *)
Definition quiz_mixed : Quiz.t :=
  quiz_of [q_capital]
    [Participant.mk "p1" "alice" 10 1 1 5 [] None false None true;
     Participant.mk "p2" "bob" 30 1 1 4 [] None false None false;
     Participant.mk "p3" "carol" 20 1 1 7 [] (Some 9000) false None true]
    true 0 (Some 1000).


(** A published quiz of three questions that has not started and asks for
    its questions to be shuffled *)
Definition quiz_to_shuffle : Quiz.t :=
  Quiz.mk "quiz1" "Daily Quiz" 0 1 2000 None None [q_capital; q_second; q_third]
    [fresh_participant "p1" "alice"] false false true 3 15 true (-1) None.


(** * Properties *)

(** ** Answer intake of the HTTP controller *)

Example submit_example :
  (QuizController.submitAnswer db_alice "alice" answer_alice 4000).1
  = QuizController.Success true 10 10.
Proof. vm_compute. reflexivity. Qed.


(** Every accepted answer went through all the checks, and the response and
    the new collection are the ones [record_answer] describes. *)
Lemma submitAnswer_accepted db userId req now c pts total db' :
  QuizController.submitAnswer db userId req now = (QuizController.Success c pts total, db') →
  ∃ quiz i participant question,
    db !! QuizController.quizId req = Some quiz
    ∧ list_find (λ p, Participant.user p = userId) (Quiz.participants quiz) = Some (i, participant)
    ∧ List.find (λ a, bool_decide (Answer.questionId a = QuizController.questionId req))
                (Participant.answers participant) = None
    ∧ List.find (λ q, bool_decide (Question._id q = QuizController.questionId req))
                (Quiz.questions quiz) = Some question
    ∧ 500 ≤ QuizController.elapsed_ms quiz now ≤ (Quiz.timePerQuestion quiz + 1) * 1000
    ∧ c = Js.strict_eq_num (QuizController.selectedIndex req) (Question.correctIndex question)
    ∧ pts = (if c then Question.points question else 0)
    ∧ total = Participant.score participant + pts
    ∧ db' = <[QuizController.quizId req :=
               Quiz.set_participants
                 (<[i := QuizController.record_answer req question
                           (QuizController.elapsed_ms quiz now) now participant]>
                    (Quiz.participants quiz)) quiz]> db.
Proof.
  unfold QuizController.submitAnswer.
  destruct (db !! _) as [quiz|] eqn:Hq; [|done].
  destruct (list_find _ _) as [[i participant]|] eqn:Hp; [|done].
  destruct (List.find _ (Participant.answers _)) eqn:Ha; [done|].
  destruct (List.find _ (Quiz.questions _)) as [question|] eqn:Hqu; [|done].
  case_bool_decide; [done|]. case_bool_decide; [done|].
  intros [= <- <- <- <-].
  eexists quiz, i, participant, question. split_and!; try done; try lia.
Qed.

(** A rejected answer leaves the collection as it was. *)
Lemma submitAnswer_rejected db userId req now status message db' :
  QuizController.submitAnswer db userId req now = (QuizController.Fail status message, db') →
  db' = db.
Proof.
  unfold QuizController.submitAnswer. intros H.
  repeat case_match; by simplify_eq.
Qed.

(** ** The maps of the orchestrator *)

Section maps.
Context {K V : Type} `{EqDecision K}.
Implicit Types (m : list (K * V)).

Lemma map_get_set k v m : Js.map_get k (Js.map_set k v m) = Some v.
Proof.
  unfold Js.map_get. induction m as [|[k' v'] m IH]; simpl.
  - by rewrite bool_decide_eq_true_2.
  - case_bool_decide; simpl.
    + by rewrite bool_decide_eq_true_2.
    + by rewrite bool_decide_eq_false_2.
Qed.

Lemma map_set_fresh k v m : Js.map_has k m = false → Js.map_set k v m = m ++ [(k, v)].
Proof.
  unfold Js.map_has. induction m as [|[k' v'] m IH]; simpl; [done|].
  intros [Hk Hm]%orb_false_iff. rewrite Hk. by rewrite IH.
Qed.

End maps.

(** ** Answer intake of the socket orchestrator *)

Lemma submit_answer_accepted reg pl now qIndex c pts total reg' persisted :
  Orchestrator.submit_answer reg pl now
    = (Orchestrator.AnswerResult qIndex c pts total, reg', persisted) →
  ∃ sel qs participant doc question qs',
    bool_decide (Orchestrator.quizId pl = "") || bool_decide (Orchestrator.userId pl = "") = false
    ∧ Orchestrator.questionIndex pl = Some qIndex
    ∧ Orchestrator.selectedIndex pl = Some sel
    ∧ reg !! Orchestrator.quizId pl = Some qs
    ∧ Orchestrator.running qs = true
    ∧ Orchestrator.currentIndex qs = Js.Number qIndex
    ∧ Js.map_get (Orchestrator.userId pl) (Orchestrator.participants qs) = Some participant
    ∧ Js.map_has qIndex (Orchestrator.answers participant) = false
    ∧ Orchestrator.timeTaken_of qs now ≤ Orchestrator.questionDurationSec qs
    ∧ Orchestrator.qs_quizDoc qs = Some doc
    ∧ Js.index (Orchestrator.d_questions doc) (Orchestrator.currentIndex qs) = Some question
    ∧ c = bool_decide (Js.Number sel = Question.correctIndex question)
    ∧ pts = Orchestrator.award c question
    ∧ total = Orchestrator.score participant + pts
    ∧ reg' = <[Orchestrator.quizId pl := qs']> reg
    ∧ Orchestrator.running qs' = true
    ∧ Orchestrator.currentIndex qs' = Orchestrator.currentIndex qs
    ∧ Js.map_get (Orchestrator.userId pl) (Orchestrator.participants qs')
      = Some (scored participant qIndex sel c pts (Orchestrator.timeTaken_of qs now)).
Proof.
  unfold Orchestrator.submit_answer. intros H.
  destruct (Orchestrator.questionIndex pl) as [qi|] eqn:Hqi; [|simplify_eq].
  destruct (Orchestrator.selectedIndex pl) as [sel|] eqn:Hsel; [|simplify_eq].
  destruct (_ || _) eqn:Hfalsy; [simplify_eq|].
  destruct (reg !! _) as [qs|] eqn:Hqs; [|simplify_eq].
  destruct (Orchestrator.running qs) eqn:Hrun; simpl in H; [|simplify_eq].
  destruct (bool_decide (Orchestrator.currentIndex qs = _)) eqn:Hidx; simpl in H; [|simplify_eq].
  apply bool_decide_eq_true in Hidx.
  destruct (Js.map_get _ _) as [participant|] eqn:Hp; [|simplify_eq].
  destruct (Js.map_has _ _) eqn:Hhas; [simplify_eq|].
  destruct (bool_decide (_ > _)) eqn:Ht; [simplify_eq|].
  apply bool_decide_eq_false in Ht.
  destruct (Orchestrator.qs_quizDoc qs) as [doc|] eqn:Hdoc; [|simplify_eq].
  destruct (Js.index _ _) as [question|] eqn:Hquestion; [|simplify_eq].
  simplify_eq.
  eexists sel, qs, participant, doc, question, _.
  split_and!; try done; try lia.
  simpl. rewrite map_get_set. unfold scored. by rewrite map_set_fresh.
Qed.


(** ** Scoring *)






(** ** At most one answer per question *)

(** HTTP controller: a question that is in the ledger is refused, and
    nothing is written. *)
Lemma submitAnswer_duplicate db userId req now quiz i participant a :
  db !! QuizController.quizId req = Some quiz →
  list_find (λ p, Participant.user p = userId) (Quiz.participants quiz) = Some (i, participant) →
  a ∈ Participant.answers participant →
  Answer.questionId a = QuizController.questionId req →
  QuizController.submitAnswer db userId req now
  = (QuizController.Fail 400 "Question already answered", db).
Proof.
  intros Hq Hp Ha Hid. unfold QuizController.submitAnswer. rewrite Hq, Hp.
  destruct (List.find _ _) eqn:Hfind; [done|].
  apply list_elem_of_In in Ha.
  pose proof (find_none _ _ Hfind _ Ha) as Hf. simpl in Hf.
  by rewrite bool_decide_eq_true_2 in Hf.
Qed.

(** HTTP controller: after an accepted answer, any later request of the same
    user for the same question of the same quiz is refused. *)
Lemma submitAnswer_again db userId req now c pts total db' req2 now2 :
  QuizController.submitAnswer db userId req now = (QuizController.Success c pts total, db') →
  QuizController.quizId req2 = QuizController.quizId req →
  QuizController.questionId req2 = QuizController.questionId req →
  QuizController.submitAnswer db' userId req2 now2
  = (QuizController.Fail 400 "Question already answered", db').
Proof.
  intros H Hquiz Hquestion.
  apply submitAnswer_accepted in H
    as (quiz & i & p & question & Hq & Hp & _ & _ & _ & -> & -> & -> & ->).
  pose proof Hp as (Hi & Hu & Hleast)%list_find_Some.
  eapply submitAnswer_duplicate with (i := i).
  - rewrite Hquiz. apply lookup_insert_eq.
  - simpl. apply list_find_insert_Some. right; left.
    split_and!; try done. by eapply lookup_lt_Some.
  - simpl. apply elem_of_app. right. apply list_elem_of_singleton. reflexivity.
  - by rewrite Hquestion.
Qed.

(** The HTTP controller keeps that, request after request. *)
Lemma submitAnswer_one_entry db userId req now :
  one_entry_per_question db →
  one_entry_per_question (QuizController.submitAnswer db userId req now).2.
Proof.
  intros Hdb.
  destruct (QuizController.submitAnswer db userId req now) as [[status message|c pts total] db'] eqn:E.
  - apply submitAnswer_rejected in E as ->. exact Hdb.
  - apply submitAnswer_accepted in E
      as (quiz & i & p & question & Hq & Hp & Hnone & _ & _ & -> & -> & -> & ->).
    intros k quiz' Hk. simpl in Hk.
    destruct (decide (QuizController.quizId req = k)) as [<-|Hne].
    + rewrite lookup_insert_eq in Hk. injection Hk as <-. simpl.
      apply Forall_insert; [by eapply Hdb|]. simpl.
      apply list_find_Some in Hp as (Hi & _ & _).
      pose proof (Hdb _ _ Hq) as Hall. rewrite Forall_lookup in Hall.
      rewrite fmap_app. apply NoDup_app. split_and!.
      * by eapply Hall.
      * intros x (a & -> & Ha)%list_elem_of_fmap Hx. simpl in Hx.
        apply list_elem_of_singleton in Hx.
        apply list_elem_of_In in Ha.
        pose proof (find_none _ _ Hnone _ Ha) as Hf. simpl in Hf.
        by rewrite bool_decide_eq_true_2 in Hf.
      * simpl. apply NoDup_singleton.
    + rewrite lookup_insert_ne in Hk by done. by eapply Hdb.
Qed.

(** Socket orchestrator: the same key is refused the second time. *)
Lemma submit_answer_again reg pl now qIndex c pts total reg' persisted pl2 now2 :
  Orchestrator.submit_answer reg pl now
    = (Orchestrator.AnswerResult qIndex c pts total, reg', persisted) →
  Orchestrator.quizId pl2 = Orchestrator.quizId pl →
  Orchestrator.userId pl2 = Orchestrator.userId pl →
  Orchestrator.questionIndex pl2 = Some qIndex →
  is_Some (Orchestrator.selectedIndex pl2) →
  Orchestrator.submit_answer reg' pl2 now2
  = (Orchestrator.AnswerError "Question already answered", reg', false).
Proof.
  intros H Hquiz Huser Hidx [sel2 Hsel2].
  apply submit_answer_accepted in H
    as (sel & qs & p & doc & question & qs' & Hfalsy & Hqi & Hsel & Hqs & _ & Hcur & _ & _ & _
        & _ & _ & -> & -> & -> & -> & Hrun' & Hcur' & Hp').
  unfold Orchestrator.submit_answer.
  rewrite Hidx, Hsel2, Hquiz, Huser, Hfalsy, lookup_insert_eq.
  rewrite Hrun', Hcur', Hcur, Hp'. simpl.
  rewrite bool_decide_eq_true_2 by done. simpl.
  unfold Js.map_has. rewrite existsb_app. simpl.
  rewrite bool_decide_eq_true_2 by done. by rewrite orb_true_r.
Qed.

(** C2, the failing input evaluated: in the socket orchestrator Alice answers
    question 0 with the index sent as the number 0, then again with the index
    sent as the string of the digit 0. The check of the current question
    compares [Number(questionIndex)], the check of the ledger looks the raw
    value up in the map, so the second answer is accepted too: the ledger
    holds two entries for question 0 and the question is scored twice. *)
Theorem C2_orchestrator_accepts_duplicate :
  let first :=
    Orchestrator.submit_answer reg_capital
      (Orchestrator.mkPayload "quiz1" "alice" (Some (Js.JNum 0)) (Some (Js.JNum 1)) None) 4000 in
  let second :=
    Orchestrator.submit_answer first.1.2
      (Orchestrator.mkPayload "quiz1" "alice" (Some (Js.JNumeral 0)) (Some (Js.JNum 1)) None) 5000 in
  first.1.1 = Orchestrator.AnswerResult (Js.JNum 0) true 10 10
  ∧ second.1.1 = Orchestrator.AnswerResult (Js.JNumeral 0) true 10 20
  ∧ (second.1.2 !! "quiz1" ≫= λ qs, Js.map_get "alice" (Orchestrator.participants qs))
    = Some (Orchestrator.mkParticipant (Some "s1")
              [(Js.JNum 0, Orchestrator.mkAnswer (Js.JNum 1) true 10 3);
               (Js.JNumeral 0, Orchestrator.mkAnswer (Js.JNum 1) true 10 4)]
              20 2 7 false)
  ∧ (λ doc : Orchestrator.quizDoc,
       (λ pd, (Orchestrator.dp_user pd, Orchestrator.dp_score pd,
               length (Orchestrator.dp_answers pd)))
         <$> Orchestrator.d_participants doc)
      <$> (second.1.2 !! "quiz1" ≫= Orchestrator.qs_quizDoc)
    = Some [("alice", 20, 2%nat)]
  ∧ Js.Number (Js.JNum 0) = Js.Number (Js.JNumeral 0).
Proof. vm_compute. done. Qed.

(** A second way to the same state: Alice answers question 0, joins the room
    again (the [join-quiz] handler gives her a new, empty map of answers) and
    answers question 0 once more with the very same payload. The answer is
    accepted, and the ledger of the quiz document has two entries for her. *)
Example rejoin_accepts_duplicate :
  let pl := Orchestrator.mkPayload "quiz1" "alice" (Some (Js.JNum 0)) (Some (Js.JNum 1)) None in
  let first := Orchestrator.submit_answer reg_capital pl 4000 in
  let rejoined := Orchestrator.join_quiz first.1.2 "quiz1" "alice" "s2" in
  let second := Orchestrator.submit_answer rejoined pl 5000 in
  first.1.1 = Orchestrator.AnswerResult (Js.JNum 0) true 10 10
  ∧ second.1.1 = Orchestrator.AnswerResult (Js.JNum 0) true 10 10
  ∧ (λ doc : Orchestrator.quizDoc,
       (λ pd, (Orchestrator.dp_user pd, Orchestrator.dp_score pd,
               Orchestrator.dp_totalQuestions pd, length (Orchestrator.dp_answers pd)))
         <$> Orchestrator.d_participants doc)
      <$> (second.1.2 !! "quiz1" ≫= Orchestrator.qs_quizDoc)
    = Some [("alice", 10, 2, 2%nat)].
Proof. vm_compute. done. Qed.

(** ** The time window *)





(** ** The client's clock *)

(** C9: the time a client reports ([timeTaken] in the body of the HTTP
    request, [timestampClient] in the socket payload) has no influence: two
    submissions that differ only in it give the same response, the same
    emissions and the same stored state, ledger entry included. The time
    recorded in the entry is computed from [now] and the recorded start. *)
Theorem C9_client_time_ignored :
  (∀ db userId quizId questionId selectedIndex now t1 t2,
     QuizController.submitAnswer db userId
       (QuizController.mkBody quizId questionId selectedIndex t1) now
     = QuizController.submitAnswer db userId
         (QuizController.mkBody quizId questionId selectedIndex t2) now)
  ∧ (∀ reg quizId userId questionIndex selectedIndex now t1 t2,
       Orchestrator.submit_answer reg
         (Orchestrator.mkPayload quizId userId questionIndex selectedIndex t1) now
       = Orchestrator.submit_answer reg
           (Orchestrator.mkPayload quizId userId questionIndex selectedIndex t2) now
       ∧ ∀ o,
           Orchestrator.emits_of
             (Orchestrator.mkPayload quizId userId questionIndex selectedIndex t1) o
           = Orchestrator.emits_of
               (Orchestrator.mkPayload quizId userId questionIndex selectedIndex t2) o)
  ∧ (∀ req question elapsed now participant,
       Answer.timeTaken <$> last (Participant.answers
                                    (QuizController.record_answer req question elapsed now participant))
       = Some (Js.round_seconds elapsed)).
Proof.
  split_and!.
  - reflexivity.
  - intros. split; reflexivity.
  - intros. simpl. by rewrite last_snoc.
Qed.

(** ** The finalizers: sorting and ranks *)

Section sort.
Context {A : Type} (cmp : A → A → Z).

Lemma sort_insert_perm x l : Js.sort_insert cmp x l ≡ₚ x :: l.
Proof.
  induction l as [|y l IH]; simpl; [done|].
  case_bool_decide; [done|]. rewrite IH. apply Permutation_swap.
Qed.

Lemma sort_perm l : Js.sort cmp l ≡ₚ l.
Proof.
  induction l as [|x l IH]; simpl; [done|].
  rewrite sort_insert_perm. by rewrite IH.
Qed.

(** [cmp] never puts both of two elements after each other, and "not after"
    is transitive: the comparator is consistent. *)
Hypothesis cmp_total : ∀ a b, ¬ cmp a b ≤ 0 → cmp b a ≤ 0.
Hypothesis cmp_trans : ∀ a b c, cmp a b ≤ 0 → cmp b c ≤ 0 → cmp a c ≤ 0.

Lemma sort_insert_sorted x l :
  StronglySorted (λ a b, cmp a b ≤ 0) l →
  StronglySorted (λ a b, cmp a b ≤ 0) (Js.sort_insert cmp x l).
Proof.
  induction 1 as [|y l Hl IH Hy]; simpl.
  - repeat constructor.
  - case_bool_decide as Hxy.
    + constructor; [by constructor|].
      constructor; [done|]. eapply Forall_impl; [exact Hy|]. intros z Hz. by eapply cmp_trans.
    + constructor; [done|].
      rewrite sort_insert_perm. constructor; [by apply cmp_total|done].
Qed.

Lemma sort_sorted l : StronglySorted (λ a b, cmp a b ≤ 0) (Js.sort cmp l).
Proof.
  induction l as [|x l IH]; simpl; [constructor|by apply sort_insert_sorted].
Qed.

End sort.

Lemma or_num_zero x : Js.or_num x 0 = x.
Proof. unfold Js.or_num. by case_bool_decide. Qed.

Lemma scheduler_compare_before a b :
  Scheduler.compare a b ≤ 0
  ↔ ranks_before (Participant.score a) (Participant.timeSpent a)
                 (Participant.score b) (Participant.timeSpent b).
Proof.
  unfold Scheduler.compare, ranks_before. rewrite !or_num_zero.
  case_bool_decide; lia.
Qed.

Lemma orchestrator_compare_before a b :
  Orchestrator.compare a b ≤ 0
  ↔ ranks_before (Orchestrator.r_score a) (Orchestrator.r_timeSpent a)
                 (Orchestrator.r_score b) (Orchestrator.r_timeSpent b).
Proof.
  unfold Orchestrator.compare, ranks_before, Js.or_num.
  repeat case_bool_decide; lia.
Qed.

Lemma StronglySorted_iff {A} (R R' : A → A → Prop) l :
  (∀ a b, R a b ↔ R' a b) → StronglySorted R l → StronglySorted R' l.
Proof.
  intros HR. induction 1 as [|x l Hl IH Hx]; constructor; [done|].
  eapply Forall_impl; [exact Hx|]. intros y. apply HR.
Qed.

Lemma sortedParticipants_sorted quiz :
  StronglySorted (λ a b, ranks_before (Participant.score a) (Participant.timeSpent a)
                                      (Participant.score b) (Participant.timeSpent b))
    (Scheduler.sortedParticipants quiz).
Proof.
  eapply StronglySorted_iff; [apply scheduler_compare_before|].
  apply sort_sorted.
  - intros a b. rewrite !scheduler_compare_before. unfold ranks_before. lia.
  - intros a b c. rewrite !scheduler_compare_before. unfold ranks_before. lia.
Qed.

Lemma participantsArr_sorted l :
  StronglySorted (λ a b, ranks_before (Orchestrator.r_score a) (Orchestrator.r_timeSpent a)
                                      (Orchestrator.r_score b) (Orchestrator.r_timeSpent b))
    (Js.sort Orchestrator.compare l).
Proof.
  eapply StronglySorted_iff; [apply orchestrator_compare_before|].
  apply sort_sorted.
  - intros a b. rewrite !orchestrator_compare_before. unfold ranks_before. lia.
  - intros a b c. rewrite !orchestrator_compare_before. unfold ranks_before. lia.
Qed.

Lemma ranks_lookup sorted (i : nat) :
  Scheduler.ranks sorted !! i = (λ p, (p, Z.of_nat i + 1)) <$> sorted !! i.
Proof. unfold Scheduler.ranks. by rewrite list_lookup_imap. Qed.

Lemma assign_ranks_lookup l (i : nat) :
  Orchestrator.assign_ranks l !! i
  = (λ p, Orchestrator.mkRanked (Orchestrator.r_user p) (Orchestrator.r_score p)
            (Orchestrator.r_correctAnswers p) (Orchestrator.r_timeSpent p)
            (Z.of_nat i + 1)) <$> l !! i.
Proof. unfold Orchestrator.assign_ranks. by rewrite list_lookup_imap. Qed.

Lemma assign_ranks_rows l : row <$> Orchestrator.assign_ranks l = row <$> l.
Proof.
  apply list_eq. intros i.
  rewrite !list_lookup_fmap, assign_ranks_lookup. by destruct (l !! i).
Qed.

Lemma imap_rank_sorted (f : nat → Z) l :
  StronglySorted (λ a b, ranks_before (Orchestrator.r_score a) (Orchestrator.r_timeSpent a)
                                      (Orchestrator.r_score b) (Orchestrator.r_timeSpent b)) l →
  StronglySorted (λ a b, ranks_before (Orchestrator.r_score a) (Orchestrator.r_timeSpent a)
                                      (Orchestrator.r_score b) (Orchestrator.r_timeSpent b))
    (imap (λ idx p, Orchestrator.mkRanked (Orchestrator.r_user p) (Orchestrator.r_score p)
                      (Orchestrator.r_correctAnswers p) (Orchestrator.r_timeSpent p) (f idx)) l).
Proof.
  intros H. revert f.
  induction H as [|x l Hl IH Hx]; intros f; simpl; constructor.
  - apply (IH (f ∘ S)).
  - apply Forall_lookup. intros i y. rewrite list_lookup_imap.
    destruct (l !! i) as [z|] eqn:Hz; intros [= <-]. simpl.
    rewrite Forall_lookup in Hx. by apply (Hx i).
Qed.

Lemma assign_ranks_sorted l :
  StronglySorted (λ a b, ranks_before (Orchestrator.r_score a) (Orchestrator.r_timeSpent a)
                                      (Orchestrator.r_score b) (Orchestrator.r_timeSpent b)) l →
  StronglySorted (λ a b, ranks_before (Orchestrator.r_score a) (Orchestrator.r_timeSpent a)
                                      (Orchestrator.r_score b) (Orchestrator.r_timeSpent b))
    (Orchestrator.assign_ranks l).
Proof. apply (imap_rank_sorted (λ n, Z.of_nat n + 1)). Qed.

Lemma set_rank_ids pid rank now ps :
  Participant._id <$> Scheduler.set_rank pid rank now ps = Participant._id <$> ps.
Proof.
  unfold Scheduler.set_rank.
  destruct (list_find _ ps) as [[i p]|] eqn:Hfind; [|done].
  apply list_find_Some in Hfind as (Hi & _ & _).
  rewrite list_fmap_insert. simpl. apply list_insert_id.
  by rewrite list_lookup_fmap, Hi.
Qed.

Lemma set_rank_lookup pid rank now ps (j : nat) p :
  NoDup (Participant._id <$> ps) →
  ps !! j = Some p →
  Scheduler.set_rank pid rank now ps !! j
  = Some (if decide (Participant._id p = pid) then ranked_participant p rank now else p).
Proof.
  intros Hnd Hj. unfold Scheduler.set_rank.
  destruct (list_find _ ps) as [[i p0]|] eqn:Hfind.
  - apply list_find_Some in Hfind as (Hi & Hid & _).
    case_decide as Hp.
    + assert (i = j) as ->.
      { eapply NoDup_lookup; [exact Hnd| |]; rewrite list_lookup_fmap.
        - by rewrite Hi.
        - rewrite Hj. simpl. congruence. }
      assert (p0 = p) as -> by congruence.
      rewrite list_lookup_insert_eq by (by eapply lookup_lt_Some). done.
    + rewrite list_lookup_insert_ne; [done|]. intros ->. congruence.
  - rewrite decide_False; [done|].
    apply list_find_None in Hfind. rewrite Forall_lookup in Hfind. by apply (Hfind j).
Qed.

Lemma apply_ranks_lookup now (entries : list (Participant.t * Z)) : ∀ ps (j : nat) p,
  NoDup (Participant._id <$> ps) →
  NoDup (Participant._id <$> entries.*1) →
  ps !! j = Some p →
  foldl (λ ps entry, Scheduler.set_rank (Participant._id entry.1) entry.2 now ps) ps entries !! j
  = Some (match list_find (λ entry, Participant._id entry.1 = Participant._id p) entries with
          | Some (_, entry) => ranked_participant p entry.2 now
          | None => p
          end).
Proof.
  induction entries as [|[p0 r0] entries IH]; intros ps j p Hps Hes Hj; simpl; [done|].
  simpl in Hes. apply NoDup_cons in Hes as [Hfresh Hes].
  pose proof (set_rank_lookup (Participant._id p0) r0 now ps j p Hps Hj) as Hstep.
  rewrite (IH _ j _ (eq_ind_r (λ l, NoDup l) Hps (set_rank_ids _ _ _ _)) Hes Hstep).
  case_decide as Hp0; case_decide as Hp0'; try congruence; simpl.
  - replace (list_find _ entries) with (@None (nat * (Participant.t * Z))); [done|].
    symmetry. apply list_find_None, Forall_forall. intros [p1 r1] Hin Hid. simpl in Hid.
    apply Hfresh. rewrite <- Hp0, <- Hid.
    apply list_elem_of_fmap. exists p1. split; [done|].
    apply list_elem_of_fmap. by exists (p1, r1).
  - by destruct (list_find _ entries) as [[? ?]|].
Qed.

Lemma ranks_fst sorted : (Scheduler.ranks sorted).*1 = sorted.
Proof.
  apply list_eq. intros i. rewrite list_lookup_fmap.
  unfold Scheduler.ranks. rewrite list_lookup_imap. by destruct (sorted !! i).
Qed.

Lemma sortedParticipants_ids quiz :
  NoDup (Participant._id <$> Quiz.participants quiz) →
  NoDup (Participant._id <$> Scheduler.sortedParticipants quiz).
Proof.
  intros Hnd. unfold Scheduler.sortedParticipants. rewrite sort_perm.
  eapply sublist_NoDup; [exact Hnd|]. apply fmap_sublist, sublist_filter.
Qed.

(** With distinct participant ids, [endQuizSession] stores for the participant
    at position [i] of the sorted order the rank [i + 1], marks it completed,
    and keeps its score and time. *)
Lemma endQuizSession_stores_ranks w quizId quiz now (i : nat) p :
  Scheduler.db w !! quizId = Some quiz →
  NoDup (Participant._id <$> Quiz.participants quiz) →
  Scheduler.sortedParticipants quiz !! i = Some p →
  ∃ (j : nat) quiz',
    Quiz.participants quiz !! j = Some p
    ∧ Scheduler.db (Scheduler.endQuizSession w quizId now).1 !! quizId = Some quiz'
    ∧ Quiz.participants quiz' !! j = Some (ranked_participant p (Z.of_nat i + 1) now).
Proof.
  intros Hq Hnd Hi.
  assert (p ∈ Quiz.participants quiz) as Hin.
  { assert (p ∈ Scheduler.sortedParticipants quiz) as Hs by (apply list_elem_of_lookup; eauto).
    unfold Scheduler.sortedParticipants in Hs. rewrite sort_perm in Hs.
    by apply list_elem_of_filter in Hs as [_ ?]. }
  apply list_elem_of_lookup in Hin as [j Hj].
  unfold Scheduler.endQuizSession. rewrite Hq. simpl.
  eexists j, _. split_and!; [done|apply lookup_insert_eq|]. simpl.
  rewrite (apply_ranks_lookup now _ _ j p Hnd); [|by rewrite ranks_fst; apply sortedParticipants_ids|done].
  assert (list_find (λ entry : Participant.t * Z, Participant._id entry.1 = Participant._id p)
            (Scheduler.ranks (Scheduler.sortedParticipants quiz))
          = Some (i, (p, Z.of_nat i + 1))) as ->; [|done].
  apply list_find_Some. split_and!.
  - by rewrite ranks_lookup, Hi.
  - done.
  - intros i' [p' r'] Hi' Hlt Hid. simpl in Hid.
    rewrite ranks_lookup in Hi'.
    destruct (Scheduler.sortedParticipants quiz !! i') as [p''|] eqn:Hp''; [|done].
    injection Hi' as -> _.
    assert (i' = i); [|lia].
    eapply NoDup_lookup; [by apply sortedParticipants_ids| |]; rewrite list_lookup_fmap.
    + by rewrite Hp''.
    + rewrite Hi. simpl. congruence.
Qed.

(** C4: both finalizers ([endQuizSession] of the scheduler on the paid
    participants of the stored quiz, [finalizeQuiz] of the socket orchestrator
    on the participants of the running quiz) order the participants by score,
    highest first, and by time spent, least first, among equal scores; the
    result is a rearrangement of the participants, and the rank given to the
    participant at position [i] (from 0) is [i + 1]; [endQuizSession] stores
    that rank in the participant's record when the participants have distinct
    ids. For scores 50, 80, 80, 30 with times 10, 5, 8, 20 the ranks are 3,
    1, 2, 4: score 80 with time 5 first, score 80 with time 8 second, score
    50 third, score 30 fourth. *)
Theorem C4_rank_order :
  (∀ quiz,
     Scheduler.sortedParticipants quiz
       ≡ₚ filter (λ p, Participant.paid p = true) (Quiz.participants quiz)
     ∧ StronglySorted (λ a b, ranks_before (Participant.score a) (Participant.timeSpent a)
                                           (Participant.score b) (Participant.timeSpent b))
         (Scheduler.sortedParticipants quiz)
     ∧ ∀ i : nat,
         Scheduler.ranks (Scheduler.sortedParticipants quiz) !! i
         = (λ p, (p, Z.of_nat i + 1)) <$> Scheduler.sortedParticipants quiz !! i)
  ∧ (∀ reg qid,
       row <$> (Orchestrator.finalizeQuiz reg qid).2
         ≡ₚ row <$> from_option Orchestrator.participantsArr [] (reg !! qid)
       ∧ StronglySorted
           (λ a b, ranks_before (Orchestrator.r_score a) (Orchestrator.r_timeSpent a)
                                (Orchestrator.r_score b) (Orchestrator.r_timeSpent b))
           (Orchestrator.finalizeQuiz reg qid).2
       ∧ ∀ i : nat,
           Orchestrator.r_rank <$> (Orchestrator.finalizeQuiz reg qid).2 !! i
           = (λ _, Z.of_nat i + 1) <$> (Orchestrator.finalizeQuiz reg qid).2 !! i)
  ∧ (∀ w quizId quiz now (i : nat) p,
       Scheduler.db w !! quizId = Some quiz →
       NoDup (Participant._id <$> Quiz.participants quiz) →
       Scheduler.sortedParticipants quiz !! i = Some p →
       ∃ (j : nat) quiz',
         Quiz.participants quiz !! j = Some p
         ∧ Scheduler.db (Scheduler.endQuizSession w quizId now).1 !! quizId = Some quiz'
         ∧ Quiz.participants quiz' !! j = Some (ranked_participant p (Z.of_nat i + 1) now))
  ∧ (λ e : Participant.t * Z, (Participant.score e.1, Participant.timeSpent e.1, e.2))
      <$> Scheduler.ranks
            (Scheduler.sortedParticipants (quiz_of [q_capital] contestants true 0 (Some 1000)))
    = [(80, 5, 1); (80, 8, 2); (50, 10, 3); (30, 20, 4)]
  ∧ ((λ p, (Participant.score p, Participant.timeSpent p, Participant.rank p))
       <$> from_option Quiz.participants []
             (Scheduler.db
                (Scheduler.endQuizSession
                   (Scheduler.mkWorld
                      (db_of (quiz_of [q_capital] contestants true 0 (Some 1000))) ∅)
                   "quiz1" 99000).1 !! "quiz1"))
    = [(50, 10, Some 3); (80, 5, Some 1); (80, 8, Some 2); (30, 20, Some 4)]
  ∧ (λ r, (Orchestrator.r_score r, Orchestrator.r_timeSpent r, Orchestrator.r_rank r))
      <$> (Orchestrator.finalizeQuiz reg_contest "quiz1").2
    = [(80, 5, 1); (80, 8, 2); (50, 10, 3); (30, 20, 4)].
Proof.
  split_and!.
  - intros quiz. split_and!.
    + apply sort_perm.
    + apply sortedParticipants_sorted.
    + intros i. apply ranks_lookup.
  - intros reg qid. unfold Orchestrator.finalizeQuiz.
    destruct (reg !! qid) as [qs|]; simpl.
    + split_and!.
      * rewrite assign_ranks_rows. by rewrite sort_perm.
      * apply assign_ranks_sorted, participantsArr_sorted.
      * intros i. rewrite assign_ranks_lookup. by destruct (_ !! i).
    + split_and!; [done|constructor|done].
  - apply endQuizSession_stores_ranks.
  - vm_compute. reflexivity.
  - vm_compute. reflexivity.
  - vm_compute. reflexivity.
Qed.

(** C4, witness: the contestant with score 80 and time 8 is second in the
    sorted order and is stored with rank 2. *)
Lemma C4_rank_order_witness :
  ∃ (j : nat) quiz',
    contestants !! j = Some (contestant "c" 80 8)
    ∧ Scheduler.db
        (Scheduler.endQuizSession
           (Scheduler.mkWorld (db_of (quiz_of [q_capital] contestants true 0 (Some 1000))) ∅)
           "quiz1" 99000).1 !! "quiz1" = Some quiz'
    ∧ Participant.rank <$> Quiz.participants quiz' !! j = Some (Some 2).
Proof.
  destruct C4_rank_order as (_ & _ & Hstored & _).
  destruct (Hstored
              (Scheduler.mkWorld (db_of (quiz_of [q_capital] contestants true 0 (Some 1000))) ∅)
              "quiz1" (quiz_of [q_capital] contestants true 0 (Some 1000)) 99000
              1%nat (contestant "c" 80 8))
    as (j & quiz' & Hj & Hq' & Hrank).
  - reflexivity.
  - apply (proj1 (bool_decide_eq_true _)). vm_compute. reflexivity.
  - vm_compute. reflexivity.
  - exists j, quiz'. split_and!; [exact Hj|exact Hq'|]. by rewrite Hrank.
Defined.

(** ** Going live *)

(** The conditional update lets one caller through: whatever the first call
    did, a second one finds no quiz to claim. *)
Lemma claim_live_once db quizId now1 now2 :
  Scheduler.claim_live (Scheduler.claim_live db quizId now1).2 quizId now2
  = (None, (Scheduler.claim_live db quizId now1).2).
Proof.
  unfold Scheduler.claim_live.
  destruct (db !! quizId) as [quiz|] eqn:Hq; simpl.
  - destruct (Quiz.isLive quiz) eqn:Hlive; simpl.
    + by rewrite Hq, Hlive.
    + by rewrite lookup_insert_eq.
  - by rewrite Hq.
Qed.

(** A session that is started leaves the quiz as live as it was. *)
Lemma emitNextQuestion_keeps_live w s now quiz :
  Scheduler.db w !! Scheduler.s_quizId s = Some quiz →
  (0 ≤ Scheduler.questionIndex s < Z.of_nat (length (Quiz.questions quiz))) →
  Quiz.isLive
    <$> Scheduler.db (Scheduler.emitNextQuestion w s Scheduler.no_faults now).1.1
          !! Scheduler.s_quizId s
  = Some (Quiz.isLive quiz).
Proof.
  intros Hq Hidx. unfold Scheduler.emitNextQuestion. simpl. rewrite Hq.
  destruct (Quiz.isLive quiz) eqn:Hlive; simpl; [|by rewrite Hq; simpl; rewrite Hlive].
  rewrite bool_decide_eq_false_2 by lia.
  destruct (Js.index _ _); simpl.
  - by rewrite lookup_insert_eq; simpl; rewrite Hlive.
  - by rewrite Hq; simpl; rewrite Hlive.
Qed.

(** A quiz that [startQuizDirectly] has started is stored as live. *)
Lemma startQuizDirectly_live w quizId now w1 s out :
  Scheduler.startQuizDirectly w quizId now = (w1, Some s, out) →
  Quiz.isLive <$> Scheduler.db w1 !! quizId = Some true.
Proof.
  unfold Scheduler.startQuizDirectly, Scheduler.claim_live. intros H.
  destruct (Scheduler.db w !! quizId) as [quiz|] eqn:Hq; [|simplify_eq].
  destruct (Quiz.isLive quiz) eqn:Hlive; [simplify_eq|].
  unfold Scheduler.startQuizSession in H. simpl in H.
  case_bool_decide; [simplify_eq|].
  rewrite lookup_insert_eq in H. simpl in H.
  destruct (Quiz.questions quiz) as [|q0 qs] eqn:Hqs; [simplify_eq|].
  pose proof (emitNextQuestion_keeps_live
                (Scheduler.mkWorld (<[quizId := Quiz.go_live now quiz]> (Scheduler.db w))
                   (Scheduler.activeQuizSessions w))
                (Scheduler.mkSession quizId 0 Scheduler.NoTimer) now
                (Quiz.go_live now quiz)) as Hlive'.
  simpl in Hlive'. rewrite lookup_insert_eq, Hqs in Hlive'.
  specialize (Hlive' eq_refl).
  assert (0 ≤ 0 < Z.of_nat (length (q0 :: qs))) as Hrange by (simpl; lia).
  specialize (Hlive' Hrange).
  destruct (Scheduler.emitNextQuestion _ _ _ _) as [[w' s'] out'].
  by simplify_eq.
Qed.

(** The cron path: once [startQuizDirectly] has started a quiz, every further
    call, from this process or from another one on the same database, starts
    nothing and writes nothing. *)
Lemma startQuizDirectly_once w quizId now1 w1 s out active2 now2 :
  Scheduler.startQuizDirectly w quizId now1 = (w1, Some s, out) →
  Scheduler.startQuizDirectly (Scheduler.mkWorld (Scheduler.db w1) active2) quizId now2
  = (Scheduler.mkWorld (Scheduler.db w1) active2, None, []).
Proof.
  intros Hlive%startQuizDirectly_live.
  unfold Scheduler.startQuizDirectly, Scheduler.claim_live. simpl.
  destruct (Scheduler.db w1 !! quizId) as [quiz1|]; [|done].
  simpl in Hlive. injection Hlive as ->. done.
Qed.

(** One call after the other, the second [manualStartQuiz] is refused by the
    check on the loaded document. *)
Example manualStartQuiz_twice :
  let w0 := Scheduler.mkWorld (db_of quiz_scheduled) ∅ in
  let first := Scheduler.manualStartQuiz w0 "quiz1" [] 1000 in
  (match first with
   | inr (_, s, _) => s
   | inl _ => None
   end) = Some (Scheduler.mkSession "quiz1" 0 (Scheduler.NextQuestion 15000))
  ∧ (match first with
     | inr (w1, _, _) => Some (Scheduler.manualStartQuiz w1 "quiz1" [] 2000)
     | inl _ => None
     end) = Some (inl "Quiz already live").
Proof. vm_compute. done. Qed.

(** C5, the failing input evaluated: two calls of [manualStartQuiz] for the
    same scheduled quiz, whose loads are both answered before either save.
    Both pass the check of [isLive], which is made on the loaded copy; both
    saves go through, each setting [currentQuestionIndex] to 0; and each
    caller starts a session that opens question 1 of 3 (the second one in a
    server process whose session table does not hold the first session).
    The cron path claims the quiz with its conditional update instead
    ([claim_live_once], [startQuizDirectly_once]). *)
Theorem C5_manual_start_race :
  let db0 := db_of quiz_scheduled in
  let loadA := Scheduler.manual_load db0 "quiz1" in
  let loadB := Scheduler.manual_load db0 "quiz1" in
  let dbA := Scheduler.manual_save db0 quiz_scheduled [] 1000 in
  let startA := Scheduler.startQuizSession (Scheduler.mkWorld dbA ∅) "quiz1"
                  Scheduler.no_faults 1000 in
  let dbB := Scheduler.manual_save (Scheduler.db startA.1.1) quiz_scheduled [] 1200 in
  let startB := Scheduler.startQuizSession (Scheduler.mkWorld dbB ∅) "quiz1"
                  Scheduler.no_faults 1200 in
  loadA = inr quiz_scheduled
  ∧ loadB = inr quiz_scheduled
  ∧ Quiz.currentQuestionIndex <$> dbA !! "quiz1" = Some 0
  ∧ Quiz.startTime <$> dbA !! "quiz1" = Some (Some 1000)
  ∧ Quiz.startTime <$> dbB !! "quiz1" = Some (Some 1200)
  ∧ startA.1.2 = Some (Scheduler.mkSession "quiz1" 0 (Scheduler.NextQuestion 15000))
  ∧ startB.1.2 = Some (Scheduler.mkSession "quiz1" 0 (Scheduler.NextQuestion 15000))
  ∧ e_event <$> startA.2 = ["question"]
  ∧ e_event <$> startB.2 = ["question"]
  ∧ (Scheduler.startQuizDirectly (Scheduler.mkWorld dbA ∅) "quiz1" 1200).1.2 = None.
Proof. vm_compute. done. Qed.

(** ** The session driver: the current question index *)

Lemma endQuizSession_index w quizId now :
  persisted_index (Scheduler.endQuizSession w quizId now).1 quizId = persisted_index w quizId.
Proof.
  unfold persisted_index, Scheduler.endQuizSession.
  destruct (Scheduler.db w !! quizId) as [quiz|] eqn:Hq; simpl.
  - by rewrite lookup_insert_eq.
  - by rewrite Hq.
Qed.

Lemma emitNextQuestion_index w s f now stored :
  persisted_index w (Scheduler.s_quizId s) = Some stored →
  stored ≤ Scheduler.questionIndex s →
  ∃ stored',
    persisted_index (Scheduler.emitNextQuestion w s f now).1.1 (Scheduler.s_quizId s) = Some stored'
    ∧ stored ≤ stored' ≤ Scheduler.questionIndex (Scheduler.emitNextQuestion w s f now).1.2
    ∧ Scheduler.questionIndex s
        ≤ Scheduler.questionIndex (Scheduler.emitNextQuestion w s f now).1.2
        ≤ Scheduler.questionIndex s + 1
    ∧ Scheduler.s_quizId (Scheduler.emitNextQuestion w s f now).1.2 = Scheduler.s_quizId s.
Proof.
  intros Hstored Hle. unfold Scheduler.emitNextQuestion.
  destruct (Scheduler.reload_throws f); simpl.
  { exists stored. split_and!; try done; lia. }
  unfold persisted_index in Hstored.
  destruct (Scheduler.db w !! Scheduler.s_quizId s) as [quiz|] eqn:Hq; [|done].
  simpl in Hstored. injection Hstored as <-.
  destruct (Quiz.isLive quiz); simpl.
  2: { exists (Quiz.currentQuestionIndex quiz). unfold persisted_index. simpl. rewrite Hq.
       split_and!; try done; lia. }
  case_bool_decide.
  { destruct (Scheduler.endQuizSession w (Scheduler.s_quizId s) now) as [w' out] eqn:E. simpl.
    exists (Quiz.currentQuestionIndex quiz).
    pose proof (endQuizSession_index w (Scheduler.s_quizId s) now) as Hend.
    rewrite E in Hend. simpl in Hend. rewrite Hend. unfold persisted_index. rewrite Hq.
    split_and!; try done; lia. }
  destruct (Js.index _ _) as [question|]; simpl.
  - destruct (Scheduler.persist_throws f); unfold persisted_index; simpl.
    + rewrite Hq. eexists. split_and!; try done; lia.
    + rewrite lookup_insert_eq. eexists. split_and!; try done; simpl; lia.
  - unfold persisted_index. rewrite Hq. eexists. split_and!; try done; simpl; lia.
Qed.



(** A session that is started begins with the stored index behind its own. *)
Lemma startQuizSession_index w quizId f now w' s out :
  Scheduler.startQuizSession w quizId f now = (w', Some s, out) →
  Scheduler.s_quizId s = quizId ∧ index_behind w' s.
Proof.
  unfold Scheduler.startQuizSession. intros H.
  case_bool_decide; [simplify_eq|].
  destruct (Scheduler.db w !! quizId) as [quiz|] eqn:Hq; [|simplify_eq].
  destruct (Quiz.questions quiz) eqn:Hqs; [simplify_eq|].
  set (s0 := Scheduler.mkSession quizId _ Scheduler.NoTimer) in H.
  destruct (emitNextQuestion_index w s0 f now (Quiz.currentQuestionIndex quiz))
    as (stored' & H1 & H2 & H3 & H4).
  { unfold persisted_index. simpl. by rewrite Hq. }
  { simpl. case_bool_decide; lia. }
  destruct (Scheduler.emitNextQuestion w s0 f now) as [[w1 s1] out1].
  injection H as -> -> ->. subst s0. simpl in *.
  split; [done|]. exists stored'. rewrite H4. split; [done|lia].
Qed.

(** [startQuizNow] opens question 0: the index goes from -1 to 0. *)
Example startQuizNow_opens_first_question :
  (match Orchestrator.startQuizNow db_alice ∅ "quiz1" 1000 with
   | inr (reg, out, k) =>
     Some (Orchestrator.currentIndex <$> reg !! "quiz1", e_event <$> out, k)
   | inl _ => None
   end)
  = Some (Some 0, ["question-start"; "time-left"; "quiz-started"], Orchestrator.Timers 0).
Proof. vm_compute. done. Qed.




(** ** Resuming after a restart *)




(** ** What is sent to clients *)

Lemma texts_hide k (l : list string) : existsb (Js.mentions k) (Js.JText <$> l) = false.
Proof. induction l as [|x l IH]; [done|]. csimpl. exact IH. Qed.

Lemma objects_hide {A} (f : A → Js.json) k (l : list A) :
  (∀ x, Js.mentions k (f x) = false) → existsb (Js.mentions k) (f <$> l) = false.
Proof. intros Hf. induction l as [|x l IH]; [done|]. csimpl. by rewrite Hf, IH. Qed.

(** The payloads of the question-by-question broadcast of the orchestrator
    and of the scheduler, the acknowledgements of an answer and the response
    of [getTodayQuiz] do not hold the key [correctIndex]; [question-ended]
    holds it, with the index of the correct option. *)
Lemma broadcast_hides_correctIndex :
  (∀ idx question duration,
     Js.mentions "correctIndex" (Orchestrator.questionForClients idx question duration) = false)
  ∧ (∀ qid idx remaining,
       Js.mentions "correctIndex" (e_payload (Orchestrator.time_left qid idx remaining)) = false)
  ∧ (∀ pl o, Forall (λ e, Js.mentions "correctIndex" (e_payload e) = false)
               (Orchestrator.emits_of pl o))
  ∧ (∀ questionIndex quiz q start,
       Js.mentions "correctIndex" (Scheduler.question_payload questionIndex quiz q start) = false)
  ∧ (∀ quiz, Js.mentions "correctIndex" (e_payload (Scheduler.quiz_started quiz)) = false)
  ∧ (∀ found userId,
       Js.mentions "correctIndex" (QuizController.getTodayQuiz found userId) = false)
  ∧ (∀ qid idx question,
       Js.field "correctIndex" (e_payload (Orchestrator.question_ended qid idx question))
       = Some (Js.jnum (Question.correctIndex question))).
Proof.
  split_and!.
  - intros. simpl. by rewrite texts_hide.
  - done.
  - intros pl [m|qi c pts total]; repeat constructor.
  - intros. simpl. by rewrite texts_hide.
  - intros quiz. simpl. by destruct (Quiz.startTime quiz).
  - intros [quiz|] userId; [|done]. simpl.
    rewrite objects_hide; [|intros q; simpl; by rewrite texts_hide].
    destruct (Quiz.startTime quiz), (Quiz.endTime quiz), (List.find _ _); done.
  - done.
Qed.

(** In the orchestrator the index of the correct option first appears in the
    last emission of the question, [question-ended]. *)
Lemma question_trace_reveals_last qid idx question doc duration n :
  ∃ before,
    question_trace qid idx question doc duration n
    = before ++ [Orchestrator.question_ended qid idx question]
    ∧ Forall (λ e, Js.mentions "correctIndex" (e_payload e) = false) before.
Proof.
  unfold question_trace.
  eexists ([_; _] ++ flat_map _ (seq 0 n)). split.
  - by rewrite <- app_assoc.
  - apply Forall_app. split.
    + repeat constructor. simpl. by rewrite texts_hide.
    + apply Forall_flat_map, Forall_forall. intros k _.
      unfold Orchestrator.perSecond. case_bool_decide; repeat constructor.
Qed.

(** C7, the failing input evaluated: Alice, a paid participant, joins the
    room of the live quiz three seconds after question 0 was opened. The
    [join-room] handler that ends with [socket.emit("question", { ...,
    question: q, ... })] sends her the stored question object, and with it
    [correctIndex], before the question is closed. *)
Theorem C7_join_resync_reveals_answer :
  let out := Server.join_room db_alice "quiz1" "alice" "Alice" 4000 in
  e_event <$> out = ["joined"; "user-joined"; "question"]
  ∧ (last out ≫= λ e, Js.field "timeLeft" (e_payload e)) = Some (Js.jnum 12000)
  ∧ (Js.mentions "correctIndex" <$> (e_payload <$> last out)) = Some true
  ∧ (last out ≫= λ e, Js.field "question" (e_payload e) ≫= Js.field "correctIndex")
    = Some (Js.jnum (Question.correctIndex q_capital)).
Proof. vm_compute. done. Qed.

(** ** Shuffling *)

Section shuffle.
Context {A : Type}.
Implicit Types (a : list A).

Lemma insert_perm a (i : nat) x y :
  a !! i = Some x → <[i:=y]> a ≡ₚ y :: delete i a.
Proof.
  intros Hi. rewrite insert_take_drop by (by eapply lookup_lt_Some).
  rewrite delete_take_drop. by rewrite <- Permutation_middle.
Qed.

Lemma swap_perm a (i j : nat) : Scheduler.swap a i j ≡ₚ a.
Proof.
  unfold Scheduler.swap.
  destruct (a !! i) as [x|] eqn:Hi; [|done].
  destruct (a !! j) as [y|] eqn:Hj; [|done].
  destruct (decide (i = j)) as [->|Hne].
  - assert (x = y) as -> by congruence.
    by rewrite !list_insert_id by (by rewrite ?list_insert_id).
  - assert (<[i:=y]> a !! j = Some y) as Hj' by (by rewrite list_lookup_insert_ne).
    rewrite (insert_perm _ j y x Hj').
    assert (delete j (<[i:=y]> a) ≡ₚ delete i a) as ->.
    { apply (inj (cons y)). rewrite <- (delete_Permutation _ j y Hj').
      by apply insert_perm with x. }
    symmetry. by apply delete_Permutation.
Qed.

Lemma fisher_yates_perm (i : nat) : ∀ a g, (Scheduler.fisher_yates i a g).1 ≡ₚ a.
Proof.
  induction i as [|i IH]; intros a g; simpl; [done|].
  rewrite IH. apply swap_perm.
Qed.

Lemma shuffle_perm a g : (Scheduler.shuffle a g).1 ≡ₚ a.
Proof. apply fisher_yates_perm. Qed.

End shuffle.

Lemma same_question_refl q : same_question q q.
Proof. by repeat split. Qed.

Lemma same_question_trans q1 q2 q3 :
  same_question q1 q2 → same_question q2 q3 → same_question q1 q3.
Proof.
  intros (? & ? & ? & ? & H12) (? & ? & ? & ? & H23).
  split_and!; try congruence; [by etrans|]. auto.
Qed.

Lemma index_elem_of {A} (l : list A) i x : Js.index l i = Some x → x ∈ l.
Proof.
  unfold Js.index. case_bool_decide; [|done]. intros Hx.
  apply list_elem_of_lookup. eauto.
Qed.

Lemma reshuffle_options_same q g : same_question q (Scheduler.reshuffle_options q g).1.
Proof.
  unfold Scheduler.reshuffle_options.
  destruct (Question.options q) as [|o os] eqn:Hopts; [apply same_question_refl|].
  rewrite <- Hopts.
  destruct (Scheduler.shuffle (Question.options q) g) as [shuffled g'] eqn:Hs. simpl.
  assert (shuffled ≡ₚ Question.options q) as Hperm.
  { pose proof (shuffle_perm (Question.options q) g) as Hp. by rewrite Hs in Hp. }
  split_and!; try done. simpl.
  intros answer Hanswer. rewrite Hanswer.
  assert (answer ∈ shuffled) as Hin by (rewrite Hperm; by eapply index_elem_of).
  destruct (list_find_elem_of (λ opt, Some opt = Some answer) shuffled answer Hin eq_refl)
    as [[i opt] Hfind].
  rewrite Hfind.
  apply list_find_Some in Hfind as (Hi & [= ->] & _).
  unfold Js.index. rewrite bool_decide_eq_true_2 by lia. by rewrite Nat2Z.id.
Qed.

Lemma forEach_reshuffle_same (refs : list nat) : ∀ (h : Scheduler.heap) g r q,
  h !! r = Some q →
  ∃ q', (Scheduler.forEach_reshuffle refs h g).1 !! r = Some q' ∧ same_question q q'.
Proof.
  induction refs as [|r0 refs IH]; intros h g r q Hr; simpl.
  - exists q. split; [done|apply same_question_refl].
  - destruct (h !! r0) as [q0|] eqn:Hr0; [|by apply IH].
    destruct (Scheduler.reshuffle_options q0 g) as [q0' g'] eqn:Hq0.
    pose proof (reshuffle_options_same q0 g) as Hsame. rewrite Hq0 in Hsame. simpl in Hsame.
    destruct (decide (r = r0)) as [->|Hne].
    + assert (q = q0) as -> by congruence.
      destruct (IH (<[r0:=q0']> h) g' r0 q0') as (q' & Hq' & Hsame'); [apply lookup_insert_eq|].
      exists q'. split; [done|]. by eapply same_question_trans.
    + apply IH. by rewrite lookup_insert_ne.
Qed.

(** C10: the array that [shuffleQuestions] returns is a rearrangement of the
    array it was given (the same question objects), and every question
    object keeps its text, its points and its options up to their order; when
    its [correctIndex] was an index into its options, the option at the new
    [correctIndex] has the text of the option at the old one. *)
Theorem C10_shuffleQuestions (h : Scheduler.heap) (questions : list nat) (g : Scheduler.rng) :
  (Scheduler.shuffleQuestions h questions g).1.1 ≡ₚ questions
  ∧ ∀ r q,
      r ∈ questions →
      h !! r = Some q →
      ∃ q',
        (Scheduler.shuffleQuestions h questions g).1.2 !! r = Some q'
        ∧ Question.text q' = Question.text q
        ∧ Question.options q' ≡ₚ Question.options q
        ∧ ∀ answer,
            Js.index (Question.options q) (Question.correctIndex q) = Some answer →
            Js.index (Question.options q') (Question.correctIndex q') = Some answer.
Proof.
  unfold Scheduler.shuffleQuestions.
  destruct questions as [|r0 rs] eqn:Hqs.
  { simpl. split; [done|]. intros r q Hr. by apply elem_of_nil in Hr. }
  rewrite <- Hqs.
  destruct (Scheduler.shuffle questions g) as [shuffled g1] eqn:Hs.
  destruct (Scheduler.forEach_reshuffle shuffled h g1) as [h' g2] eqn:Hf. simpl.
  split.
  - pose proof (shuffle_perm questions g) as Hp. by rewrite Hs in Hp.
  - intros r q _ Hr.
    destruct (forEach_reshuffle_same shuffled h g1 r q Hr) as (q' & Hq' & _ & ? & _ & ? & ?).
    rewrite Hf in Hq'. exists q'. by split_and!.
Qed.

(** C10, witness: two questions, with the draws 1, 0, 2, 5, 1, 3, 3, 0. *)
Lemma C10_shuffleQuestions_witness :
  ∃ q',
    (Scheduler.shuffleQuestions heap_two [0; 1]%nat [1; 0; 2; 5; 1; 3; 3; 0]%nat).1.2 !! 0%nat
      = Some q'
    ∧ Question.options q' ≡ₚ Question.options q_capital
    ∧ Js.index (Question.options q') (Question.correctIndex q') = Some "Paris".
Proof.
  destruct (proj2 (C10_shuffleQuestions heap_two [0; 1]%nat [1; 0; 2; 5; 1; 3; 3; 0]%nat)
              0%nat q_capital) as (q' & Hq' & _ & Hopts & Hanswer).
  - apply list_elem_of_here.
  - vm_compute. reflexivity.
  - exists q'. split_and!; [done|done|]. apply Hanswer. reflexivity.
Defined.

Example shuffle_example :
  (Scheduler.shuffleQuestions heap_two [0; 1]%nat [1; 0; 2; 5; 1; 3; 3; 0]%nat).1
  = ([0; 1]%nat,
     {[ 0%nat := Question.mk "q0" "Capital of France?" ["Bern"; "Paris"; "Oslo"; "Rome"] 1
                   "geo" "easy" 10;
        1%nat := Question.mk "q1" "2 + 2?" ["5"; "6"; "3"; "4"] 3 "math" "easy" 5 ]}).
Proof. vm_compute. reflexivity. Qed.


(** * Further properties of the quiz code *)

(** ** Entering a quiz *)

Lemma find_user_None (userId : string) (ps : list Participant.t) :
  List.find (λ p, bool_decide (Participant.user p = userId)) ps = None →
  userId ∉ Participant.user <$> ps.
Proof.
  induction ps as [|p ps IH]; simpl; [intros _; apply not_elem_of_nil|].
  case_bool_decide as Hp; [done|]. intros H. rewrite not_elem_of_cons. split; [congruence|auto].
Qed.

Lemma ensure_payment_quizzes c user userId now today tomorrow :
  quizzes (QuizController.ensure_payment c user userId now today tomorrow) = quizzes c.
Proof. unfold QuizController.ensure_payment. by destruct (QuizController.hasPaid _ _ _ _ _). Qed.

(** X1: [enterQuiz] keeps the roster of every quiz in order: when in every
    stored quiz no user is registered twice, the counter
    [currentParticipants] is the number of participants and is at most
    [maxParticipants], the same holds after the call. *)
Theorem X1_enterQuiz_keeps_roster c userId quizId newId now today tomorrow :
  (∀ k q, quizzes c !! k = Some q → roster_ok q) →
  ∀ k q,
    quizzes (QuizController.enterQuiz c userId quizId newId now today tomorrow).2 !! k = Some q →
    roster_ok q.
Proof.
  intros Hok k q. unfold QuizController.enterQuiz.
  destruct (users c !! userId) as [user|]; simpl; [|apply Hok].
  pose proof (ensure_payment_quizzes c user userId now today tomorrow) as Hq.
  destruct (quizzes (QuizController.ensure_payment c user userId now today tomorrow) !! quizId)
    as [quiz|] eqn:Hquiz; simpl; [|rewrite Hq; apply Hok].
  destruct (negb (Quiz.isLive quiz) && negb (Quiz.published quiz)); simpl;
    [rewrite Hq; apply Hok|].
  destruct (List.find _ (Quiz.participants quiz)) as [existing|] eqn:Hfind.
  { destruct (Quiz.isLive quiz && Participant.paid existing); simpl; rewrite Hq; apply Hok. }
  case_bool_decide as Hfull; simpl; [rewrite Hq; apply Hok|].
  rewrite Hq in Hquiz |- *.
  destruct (decide (k = quizId)) as [->|Hk].
  - rewrite lookup_insert_eq. intros [= <-].
    destruct (Hok _ _ Hquiz) as (Hnd & Hcount & Hmax).
    unfold roster_ok, QuizController.add_participant; simpl. split_and!.
    + rewrite fmap_app. apply NoDup_app. split_and!; [done| |apply NoDup_singleton].
      intros u Hu Hu'. apply list_elem_of_singleton in Hu'. subst u.
      by apply find_user_None in Hfind.
    + rewrite length_app, Hcount. simpl. lia.
    + lia.
  - rewrite lookup_insert_ne by done. apply Hok.
Qed.

Lemma X1_enterQuiz_keeps_roster_witness :
  (∀ k q, quizzes c_scheduled !! k = Some q → roster_ok q)
  ∧ (∀ k q,
       quizzes (QuizController.enterQuiz c_scheduled "bob" "quiz1" "p2" 1000 0 86400000).2 !! k
       = Some q →
       roster_ok q).
Proof.
  assert (∀ k q, quizzes c_scheduled !! k = Some q → roster_ok q) as Hok.
  { intros k q Hq. unfold c_scheduled, db_of in Hq. simpl in Hq.
    apply lookup_singleton_Some in Hq as [_ <-].
    unfold roster_ok. simpl. split_and!; [|done|lia].
    apply NoDup_singleton. }
  split; [exact Hok|].
  exact (X1_enterQuiz_keeps_roster c_scheduled "bob" "quiz1" "p2" 1000 0 86400000 Hok).
Defined.

Lemma find_snoc {A} (f : A → bool) (l : list A) (x : A) :
  List.find f l = None → f x = true → List.find f (l ++ [x]) = Some x.
Proof.
  induction l as [|y l IH]; simpl; [by intros _ ->|].
  destruct (f y); [done|auto].
Qed.

Lemma find_app_Some {A} (f : A → bool) (l l' : list A) (x : A) :
  List.find f l = Some x → List.find f (l ++ l') = Some x.
Proof.
  induction l as [|y l IH]; simpl; [done|]. destruct (f y); [done|auto].
Qed.

(** After the payment part of [enterQuiz] the user counts as paid for the
    day. *)
Lemma ensure_payment_paid c user userId now today tomorrow :
  today < tomorrow →
  users c !! userId = Some user →
  ∃ user1,
    users (QuizController.ensure_payment c user userId now today tomorrow) !! userId = Some user1
    ∧ QuizController.hasPaid (QuizController.ensure_payment c user userId now today tomorrow)
        user1 userId today tomorrow = true.
Proof.
  intros Hday Huser. unfold QuizController.ensure_payment.
  destruct (QuizController.hasPaid c user userId today tomorrow) eqn:Hpaid; [by eexists|].
  eexists. simpl. rewrite lookup_insert_eq. split; [done|].
  unfold QuizController.hasPaid in *. simpl.
  apply orb_false_iff in Hpaid as [Hnone _].
  apply bool_decide_eq_false in Hnone.
  apply orb_true_iff. left. apply bool_decide_eq_true.
  unfold QuizController.findPayment in *.
  destruct (List.find _ (payments c)) eqn:Hfind; [by destruct Hnone|].
  erewrite find_snoc; [done|exact Hfind|]. simpl.
  rewrite !andb_true_iff, !bool_decide_eq_true. split_and!; [done|lia|lia|done|done].
Qed.

(** X2: a user who has just entered a quiz and asks again (the same day) is
    not registered a second time: when the quiz is live the answer is
    'Reconnected to quiz' with the participant id of the first entry, when
    it is only published the answer is the refusal 'You have already
    participated in this quiz'; the collections are left as they were. *)
Theorem X2_enterQuiz_again c userId quizId newId now today tomorrow response c' newId2 now2 :
  today < tomorrow →
  QuizController.enterQuiz c userId quizId newId now today tomorrow = (response, c') →
  Js.field "message" response.2 = Some (Js.JText "Successfully entered quiz") →
  ∃ quiz',
    quizzes c' !! quizId = Some quiz'
    ∧ QuizController.enterQuiz c' userId quizId newId2 now2 today tomorrow
      = (if Quiz.isLive quiz'
         then QuizController.entered "Reconnected to quiz" newId quiz'
         else (400, QuizController.message "You have already participated in this quiz"),
         c').
Proof.
  intros Hday. unfold QuizController.enterQuiz at 1.
  destruct (users c !! userId) as [user|] eqn:Huser; [|intros [= <- <-]; simpl; intros [=]].
  destruct (ensure_payment_paid c user userId now today tomorrow Hday Huser)
    as (user1 & Huser1 & Hpaid1).
  set (c1 := QuizController.ensure_payment c user userId now today tomorrow) in *.
  destruct (quizzes c1 !! quizId) as [quiz|] eqn:Hquiz; [|intros [= <- <-]; simpl; intros [=]].
  destruct (negb (Quiz.isLive quiz) && negb (Quiz.published quiz)) eqn:Havailable;
    [intros [= <- <-]; simpl; intros [=]|].
  destruct (List.find _ (Quiz.participants quiz)) as [existing|] eqn:Hfind.
  { destruct (Quiz.isLive quiz && Participant.paid existing);
      intros [= <- <-]; simpl; intros [=]. }
  case_bool_decide as Hfull; [intros [= <- <-]; simpl; intros [=]|].
  intros [= <- <-] _.
  eexists. simpl. rewrite lookup_insert_eq. split; [done|].
  unfold QuizController.enterQuiz. simpl. rewrite Huser1.
  assert (QuizController.ensure_payment
            (mkCollections
               (<[quizId := QuizController.add_participant
                              (QuizController.new_participant newId userId) quiz]> (quizzes c1))
               (users c1) (payments c1)) user1 userId now2 today tomorrow
          = mkCollections
              (<[quizId := QuizController.add_participant
                             (QuizController.new_participant newId userId) quiz]> (quizzes c1))
              (users c1) (payments c1)) as ->.
  { unfold QuizController.ensure_payment.
    match goal with
    | |- context [QuizController.hasPaid ?c2 user1 userId today tomorrow] =>
      change (QuizController.hasPaid c2 user1 userId today tomorrow)
        with (QuizController.hasPaid c1 user1 userId today tomorrow)
    end.
    by rewrite Hpaid1. }
  simpl. rewrite lookup_insert_eq. simpl. rewrite Havailable.
  erewrite find_snoc; [|exact Hfind|by apply bool_decide_eq_true].
  simpl. rewrite andb_true_r. by destruct (Quiz.isLive quiz).
Qed.

Lemma X2_enterQuiz_again_witness :
  (0 < 86400000)
  ∧ Js.field "message"
      (QuizController.enterQuiz c_running "bob" "quiz1" "p2" 1000 0 86400000).1.2
    = Some (Js.JText "Successfully entered quiz")
  ∧ ∃ quiz',
      quizzes (QuizController.enterQuiz c_running "bob" "quiz1" "p2" 1000 0 86400000).2
        !! "quiz1" = Some quiz'
      ∧ QuizController.enterQuiz
          (QuizController.enterQuiz c_running "bob" "quiz1" "p2" 1000 0 86400000).2
          "bob" "quiz1" "p3" 2000 0 86400000
        = (if Quiz.isLive quiz'
           then QuizController.entered "Reconnected to quiz" "p2" quiz'
           else (400, QuizController.message "You have already participated in this quiz"),
           (QuizController.enterQuiz c_running "bob" "quiz1" "p2" 1000 0 86400000).2).
Proof.
  split_and!; [lia|vm_compute; reflexivity|].
  apply (X2_enterQuiz_again c_running "bob" "quiz1" "p2" 1000 0 86400000
           (QuizController.enterQuiz c_running "bob" "quiz1" "p2" 1000 0 86400000).1
           (QuizController.enterQuiz c_running "bob" "quiz1" "p2" 1000 0 86400000).2
           "p3" 2000); [lia|by destruct (QuizController.enterQuiz _ _ _ _ _ _ _) as [??]|].
  vm_compute. reflexivity.
Defined.

(** X3: [enterQuiz] never refuses a user for a missing payment. Its answer
    is the same whatever the payments and the paid dates of the user are
    (two collections with the same quizzes that both know the user give the
    same response), and after the call the user has a completed, verified
    payment record for the day or a paid date of the day: the one there
    was, or the test payment of 5 that the code creates. *)
Theorem X3_enterQuiz_payment_not_required c userId quizId newId now today tomorrow user :
  users c !! userId = Some user →
  today < tomorrow →
  (∀ c2, quizzes c2 = quizzes c → is_Some (users c2 !! userId) →
     (QuizController.enterQuiz c2 userId quizId newId now today tomorrow).1
     = (QuizController.enterQuiz c userId quizId newId now today tomorrow).1)
  ∧ ∃ user',
      users (QuizController.enterQuiz c userId quizId newId now today tomorrow).2 !! userId
      = Some user'
      ∧ QuizController.hasPaid (QuizController.enterQuiz c userId quizId newId now today tomorrow).2
          user' userId today tomorrow = true.
Proof.
  intros Huser Hday. split.
  - intros c2 Hsame [user2 Huser2]. unfold QuizController.enterQuiz.
    rewrite Huser, Huser2. simpl.
    rewrite !ensure_payment_quizzes, Hsame.
    destruct (quizzes c !! quizId) as [quiz|]; [|done].
    destruct (negb (Quiz.isLive quiz) && negb (Quiz.published quiz)); [done|].
    destruct (List.find _ (Quiz.participants quiz)) as [existing|].
    { by destruct (Quiz.isLive quiz && Participant.paid existing). }
    by case_bool_decide.
  - destruct (ensure_payment_paid c user userId now today tomorrow Hday Huser)
      as (user1 & Huser1 & Hpaid1).
    exists user1. unfold QuizController.enterQuiz. rewrite Huser. simpl.
    set (c1 := QuizController.ensure_payment c user userId now today tomorrow) in *.
    destruct (quizzes c1 !! quizId) as [quiz|]; [|done].
    destruct (negb (Quiz.isLive quiz) && negb (Quiz.published quiz)); [done|].
    destruct (List.find _ (Quiz.participants quiz)) as [existing|].
    { by destruct (Quiz.isLive quiz && Participant.paid existing). }
    by case_bool_decide.
Qed.

Lemma X3_enterQuiz_payment_not_required_witness :
  users c_running !! "bob" = Some (user_of "bob" "Bob")
  ∧ 0 < 86400000
  ∧ (QuizController.enterQuiz c_running "bob" "quiz1" "p2" 1000 0 86400000).1.1 = 200
  ∧ ∃ user',
      users (QuizController.enterQuiz c_running "bob" "quiz1" "p2" 1000 0 86400000).2 !! "bob"
      = Some user'
      ∧ QuizController.hasPaid
          (QuizController.enterQuiz c_running "bob" "quiz1" "p2" 1000 0 86400000).2
          user' "bob" 0 86400000 = true.
Proof.
  assert (users c_running !! "bob" = Some (user_of "bob" "Bob")) as Huser
    by (vm_compute; reflexivity).
  split_and!; [exact Huser|lia|vm_compute; reflexivity|].
  exact (proj2 (X3_enterQuiz_payment_not_required c_running "bob" "quiz1" "p2" 1000 0 86400000
                  (user_of "bob" "Bob") Huser ltac:(lia))).
Defined.

(** ** Completing a quiz *)

Lemma controller_compare_before a b :
  QuizController.compare a b ≤ 0
  ↔ ranks_before (Participant.score a) (Participant.timeSpent a)
                 (Participant.score b) (Participant.timeSpent b).
Proof.
  unfold QuizController.compare, ranks_before, Js.or_num.
  repeat case_bool_decide; lia.
Qed.

Lemma controller_sorted l :
  StronglySorted (λ a b, QuizController.compare a b ≤ 0) (Js.sort QuizController.compare l).
Proof.
  apply sort_sorted.
  - intros a b. rewrite !controller_compare_before. unfold ranks_before. lia.
  - intros a b c. rewrite !controller_compare_before. unfold ranks_before. lia.
Qed.

(** Two elements of a list with the same key are the same element when the
    keys of the list are distinct. *)
Lemma NoDup_fmap_eq {A B} (f : A → B) (l : list A) (x y : A) :
  NoDup (f <$> l) → x ∈ l → y ∈ l → f x = f y → x = y.
Proof.
  intros Hnd [i Hi]%list_elem_of_lookup [j Hj]%list_elem_of_lookup Hf.
  assert (i = j) as ->.
  { eapply NoDup_lookup; [exact Hnd| |]; rewrite list_lookup_fmap.
    - by rewrite Hi.
    - by rewrite Hj, Hf. }
  congruence.
Qed.

Lemma sorted_split {A} (R : A → A → Prop) (l : list A) (j : nat) (x : A) :
  StronglySorted R l → l !! j = Some x →
  Forall (λ y, R y x) (take j l) ∧ Forall (R x) (drop (S j) l).
Proof.
  intros Hs Hj. rewrite <- (take_drop_middle l j x Hj) in Hs.
  revert Hs. generalize (take j l) (drop (S j) l). intros l1 l2.
  induction l1 as [|y l1 IH]; simpl; intros Hs.
  - inversion Hs; subst. by split.
  - inversion Hs as [|?? Hs' Hall]; subst. destruct (IH Hs') as [H1 H2].
    split; [|done]. constructor; [|done].
    rewrite Forall_forall in Hall. apply Hall, elem_of_app. right. left.
Qed.

(** The state of [completeQuiz] at its success, used by the three
    properties below. *)
Lemma completeQuiz_success c userId quizId hid now quiz i participant :
  quizzes c !! quizId = Some quiz →
  list_find (λ p, Participant.user p = userId) (Quiz.participants quiz) = Some (i, participant) →
  Participant.isCompleted participant = false →
  ∃ rank,
    rank = QuizController.rank_of userId
             (Js.sort QuizController.compare
                (filter (λ p, Participant.isCompleted p = true)
                        (<[i := QuizController.mark_completed now participant]>
                           (Quiz.participants quiz))))
    ∧ QuizController.completeQuiz c userId quizId hid now
      = ((200, Js.JObj [("success", Js.JBool true);
                        ("message", Js.JText "Quiz completed successfully");
                        ("score", Js.jnum (Participant.score participant));
                        ("correctAnswers", Js.jnum (Participant.correctAnswers participant));
                        ("totalQuestions", Js.jnum (Participant.totalQuestions participant));
                        ("rank", Js.jnum rank);
                        ("timeSpent", Js.jnum (Participant.timeSpent participant))]),
         mkCollections
           (<[quizId :=
                Quiz.set_participants
                  (<[i := QuizController.with_rank rank
                            (QuizController.mark_completed now participant)]>
                     (Quiz.participants quiz)) quiz]> (quizzes c))
           (match users c !! userId with
            | Some user =>
              <[userId :=
                  QuizController.record_history user
                    (Quiz.set_participants
                       (<[i := QuizController.with_rank rank
                                 (QuizController.mark_completed now participant)]>
                          (Quiz.participants quiz)) quiz)
                    (QuizController.with_rank rank
                       (QuizController.mark_completed now participant))
                    rank hid now]> (users c)
            | None => users c
            end)
           (payments c)).
Proof.
  intros Hquiz Hfind Hnot. eexists. split; [reflexivity|].
  unfold QuizController.completeQuiz. rewrite Hquiz, Hfind, Hnot. reflexivity.
Qed.

(** X4: the rank that [completeQuiz] gives. When the users of the quiz are
    distinct and the caller is registered and has not completed, the call
    succeeds, only the caller's entry of the quiz changes (completed, end
    time, rank), and the rank is one more than the number of the other
    completed participants that the order puts before the caller: the other
    completed participants split into those counted before, each with a
    higher score or the same score and at most the caller's time, and the
    rest, none of which has a higher score or the same score in less
    time. *)
Theorem X4_completeQuiz_rank c userId quizId hid now quiz i participant :
  quizzes c !! quizId = Some quiz →
  NoDup (Participant.user <$> Quiz.participants quiz) →
  list_find (λ p, Participant.user p = userId) (Quiz.participants quiz) = Some (i, participant) →
  Participant.isCompleted participant = false →
  ∃ rank before after,
    (QuizController.completeQuiz c userId quizId hid now).1.1 = 200
    ∧ Js.field "rank" (QuizController.completeQuiz c userId quizId hid now).1.2
      = Some (Js.jnum rank)
    ∧ quizzes (QuizController.completeQuiz c userId quizId hid now).2 !! quizId
      = Some (Quiz.set_participants
                (<[i := QuizController.with_rank rank
                          (QuizController.mark_completed now participant)]>
                   (Quiz.participants quiz)) quiz)
    ∧ filter (λ p, Participant.isCompleted p = true) (delete i (Quiz.participants quiz))
      ≡ₚ before ++ after
    ∧ rank = Z.of_nat (length before) + 1
    ∧ Forall (λ p, ranks_before (Participant.score p) (Participant.timeSpent p)
                                (Participant.score participant)
                                (Participant.timeSpent participant)) before
    ∧ Forall (λ p, ranks_before (Participant.score participant)
                                (Participant.timeSpent participant)
                                (Participant.score p) (Participant.timeSpent p)) after.
Proof.
  intros Hquiz Hnd Hfind Hnot.
  destruct (completeQuiz_success c userId quizId hid now quiz i participant Hquiz Hfind Hnot)
    as (rank & Hrank & ->).
  pose proof Hfind as (Hi & Huser & _)%list_find_Some.
  assert (i < length (Quiz.participants quiz))%nat as Hlen by by eapply lookup_lt_Some.
  set (completed := QuizController.mark_completed now participant) in *.
  set (ps := Quiz.participants quiz) in *.
  set (sorted := Js.sort QuizController.compare
                   (filter (λ p, Participant.isCompleted p = true) (<[i:=completed]> ps))) in *.
  assert (sorted ≡ₚ filter (λ p, Participant.isCompleted p = true) (<[i:=completed]> ps))
    as Hperm by apply sort_perm.
  assert (completed ∈ sorted) as Hin.
  { rewrite Hperm. apply list_elem_of_filter. split; [done|].
    eapply list_elem_of_lookup_2. by apply list_lookup_insert_eq. }
  assert (NoDup (Participant.user <$> sorted)) as Hnd'.
  { rewrite Hperm. eapply sublist_NoDup; [|apply fmap_sublist, sublist_filter].
    rewrite list_fmap_insert. rewrite list_insert_id; [done|].
    rewrite list_lookup_fmap. fold ps. rewrite Hi. simpl. by rewrite Huser. }
  destruct (list_find (λ p, Participant.user p = userId) sorted) as [[j c0]|] eqn:Hfound.
  2:{ apply list_find_None in Hfound. rewrite Forall_forall in Hfound.
      destruct (Hfound completed Hin). exact Huser. }
  pose proof Hfound as (Hj & Hc0 & _)%list_find_Some.
  assert (c0 = completed) as ->.
  { eapply (NoDup_fmap_eq Participant.user sorted); [done| |done|].
    - by eapply list_elem_of_lookup_2.
    - by rewrite Hc0. }
  assert (rank = Z.of_nat j + 1) as Hrank'.
  { rewrite Hrank. unfold QuizController.rank_of. fold completed. fold sorted.
    by rewrite Hfound. }
  exists rank, (take j sorted), (drop (S j) sorted). simpl. split_and!.
  - done.
  - done.
  - apply lookup_insert_eq.
  - rewrite delete_take_drop, filter_app.
    apply Permutation_app_inv with (a := completed).
    rewrite <- (filter_cons_True (λ p, Participant.isCompleted p = true) completed) by done.
    rewrite <- filter_app, <- insert_take_drop by done.
    rewrite <- Hperm. by rewrite take_drop_middle.
  - rewrite length_take. apply lookup_lt_Some in Hj. lia.
  - pose proof (sorted_split (λ a b, QuizController.compare a b ≤ 0) sorted j completed
                  (controller_sorted _) Hj) as [Hbefore _].
    rewrite Forall_forall in Hbefore |- *. intros p Hp.
    apply controller_compare_before, Hbefore, Hp.
  - pose proof (sorted_split (λ a b, QuizController.compare a b ≤ 0) sorted j completed
                  (controller_sorted _) Hj) as [_ Hafter].
    rewrite Forall_forall in Hafter |- *. intros p Hp.
    apply controller_compare_before, Hafter, Hp.
Qed.

Lemma X4_completeQuiz_rank_witness :
  quizzes c_played !! "quiz1" = Some quiz_played
  ∧ NoDup (Participant.user <$> Quiz.participants quiz_played)
  ∧ list_find (λ p, Participant.user p = "alice") (Quiz.participants quiz_played)
    = Some (0%nat, Participant.mk "p1" "alice" 10 1 1 5 [] None false None true)
  ∧ (QuizController.completeQuiz c_played "alice" "quiz1" "h1" 20000).1.1 = 200
  ∧ Js.field "rank" (QuizController.completeQuiz c_played "alice" "quiz1" "h1" 20000).1.2
    = Some (Js.jnum 2).
Proof.
  assert (quizzes c_played !! "quiz1" = Some quiz_played) as Hquiz
    by (vm_compute; reflexivity).
  assert (NoDup (Participant.user <$> Quiz.participants quiz_played)) as Hnd
    by (apply (proj1 (bool_decide_eq_true _)); vm_compute; reflexivity).
  assert (list_find (λ p, Participant.user p = "alice") (Quiz.participants quiz_played)
          = Some (0%nat, Participant.mk "p1" "alice" 10 1 1 5 [] None false None true))
    as Hfind by (vm_compute; reflexivity).
  split_and!; [exact Hquiz|exact Hnd|exact Hfind| |].
  - destruct (X4_completeQuiz_rank c_played "alice" "quiz1" "h1" 20000 quiz_played 0%nat _
                Hquiz Hnd Hfind eq_refl) as (rank & before & after & Hstatus & _).
    exact Hstatus.
  - vm_compute. reflexivity.
Defined.

Lemma filter_insert_length {A} (P : A → Prop) `{!∀ x, Decision (P x)} (l : list A)
    (k : nat) (x y : A) :
  l !! k = Some x → (P x ↔ P y) →
  length (filter P (<[k:=y]> l)) = length (filter P l).
Proof.
  intros Hk Hxy.
  rewrite insert_take_drop by by eapply lookup_lt_Some.
  rewrite <- (take_drop_middle l k x Hk) at 3.
  rewrite !filter_app, !length_app. f_equal.
  rewrite !filter_cons. destruct (decide (P y)), (decide (P x)); simpl; tauto.
Qed.

(** X5: completing a quiz succeeds once. After a successful [completeQuiz]
    a second call for the same user and quiz is refused with 'Quiz already
    completed' and writes nothing. *)
Theorem X5_completeQuiz_once c userId quizId hid now response c' hid2 now2 :
  QuizController.completeQuiz c userId quizId hid now = (response, c') →
  response.1 = 200 →
  QuizController.completeQuiz c' userId quizId hid2 now2
  = ((400, QuizController.message "Quiz already completed"), c').
Proof.
  unfold QuizController.completeQuiz at 1.
  destruct (quizzes c !! quizId) as [quiz|] eqn:Hquiz; [|intros [= <- <-]; simpl; lia].
  destruct (list_find _ (Quiz.participants quiz)) as [[i participant]|] eqn:Hfind;
    [|intros [= <- <-]; simpl; lia].
  destruct (Participant.isCompleted participant) eqn:Hnot; [intros [= <- <-]; simpl; lia|].
  intros [= <- <-] _.
  pose proof Hfind as (Hi & Huser & Hleast)%list_find_Some.
  unfold QuizController.completeQuiz. simpl. rewrite lookup_insert_eq. simpl.
  match goal with
  | |- context [list_find ?P (<[i := ?p]> ?l)] =>
    assert (list_find P (<[i := p]> l) = Some (i, p)) as ->
  end.
  { apply list_find_insert_Some. right; left.
    split_and!; try done. by eapply lookup_lt_Some. }
  reflexivity.
Qed.

Lemma X5_completeQuiz_once_witness :
  (QuizController.completeQuiz c_played "alice" "quiz1" "h1" 20000).1.1 = 200
  ∧ QuizController.completeQuiz
      (QuizController.completeQuiz c_played "alice" "quiz1" "h1" 20000).2
      "alice" "quiz1" "h2" 21000
    = ((400, QuizController.message "Quiz already completed"),
       (QuizController.completeQuiz c_played "alice" "quiz1" "h1" 20000).2).
Proof.
  assert ((QuizController.completeQuiz c_played "alice" "quiz1" "h1" 20000).1.1 = 200)
    as Hstatus by (vm_compute; reflexivity).
  split; [exact Hstatus|].
  apply (X5_completeQuiz_once c_played "alice" "quiz1" "h1" 20000
           (QuizController.completeQuiz c_played "alice" "quiz1" "h1" 20000).1 _ "h2" 21000);
    [by destruct (QuizController.completeQuiz _ _ _ _ _) as [??]|exact Hstatus].
Defined.

(** X6: the history of the user after [completeQuiz]. When the quiz is
    stored under its id and the user exists, the history read back by
    [getUserQuizHistory] has a row of the quiz with the score of the
    participant and the rank of the response; an entry is added only when
    the history had none for the quiz, so the number of entries of the quiz
    becomes 1 when it was 0 and stays what it was otherwise. *)
Theorem X6_completeQuiz_history c userId quizId hid now quiz i participant user :
  quizzes c !! quizId = Some quiz →
  Quiz._id quiz = quizId →
  list_find (λ p, Participant.user p = userId) (Quiz.participants quiz) = Some (i, participant) →
  Participant.isCompleted participant = false →
  users c !! userId = Some user →
  ∃ rank rows row user',
    Js.field "rank" (QuizController.completeQuiz c userId quizId hid now).1.2
    = Some (Js.jnum rank)
    ∧ QuizController.getUserQuizHistory
        (QuizController.completeQuiz c userId quizId hid now).2 userId = Some rows
    ∧ row ∈ rows
    ∧ QuizController.hr_quizId row = quizId
    ∧ QuizController.hr_score row = Participant.score participant
    ∧ QuizController.hr_rank row = rank
    ∧ users (QuizController.completeQuiz c userId quizId hid now).2 !! userId = Some user'
    ∧ entries_of quizId user' = Z.max 1 (entries_of quizId user).
Proof.
  intros Hquiz Hid Hfind Hnot Huser.
  destruct (completeQuiz_success c userId quizId hid now quiz i participant Hquiz Hfind Hnot)
    as (rank & _ & ->).
  rewrite Huser. simpl.
  set (participant' := QuizController.with_rank rank
                         (QuizController.mark_completed now participant)).
  set (quiz' := Quiz.set_participants (<[i:=participant']> (Quiz.participants quiz)) quiz).
  assert (Quiz._id quiz' = quizId) as Hid' by done.
  unfold QuizController.getUserQuizHistory. simpl. rewrite lookup_insert_eq.
  assert (∃ entry,
            entry ∈ User.quizHistory
                      (QuizController.record_history user quiz' participant' rank hid now)
            ∧ History.quizId entry = Some quizId
            ∧ History.score entry = Participant.score participant
            ∧ History.rank entry = Some rank
            ∧ entries_of quizId
                (QuizController.record_history user quiz' participant' rank hid now)
              = Z.max 1 (entries_of quizId user)) as (entry & Hentry & Hq & Hs & Hr & Hcount).
  { unfold QuizController.record_history, entries_of. rewrite Hid'.
    destruct (list_find _ (User.quizHistory user)) as [[k h]|] eqn:Hh.
    - apply list_find_Some in Hh as (Hk & Hhq & _).
      eexists. simpl. split_and!.
      + eapply list_elem_of_lookup_2. apply list_lookup_insert_eq. by eapply lookup_lt_Some.
      + done.
      + done.
      + done.
      + rewrite (filter_insert_length _ _ k h) by done.
        assert (h ∈ filter (λ h, History.quizId h = Some quizId) (User.quizHistory user)) as Hin.
        { apply list_elem_of_filter. split; [done|]. by eapply list_elem_of_lookup_2. }
        destruct (filter _ (User.quizHistory user)); [by apply elem_of_nil in Hin|].
        simpl. lia.
    - apply list_find_None in Hh.
      eexists. simpl. split_and!.
      + apply elem_of_app. right. apply list_elem_of_singleton. reflexivity.
      + done.
      + done.
      + done.
      + rewrite filter_app, length_app.
        assert (filter (λ h, History.quizId h = Some quizId) (User.quizHistory user) = [])
          as ->.
        { induction (User.quizHistory user) as [|h hs IH]; [done|].
          inversion Hh; subst. rewrite filter_cons_False by done. auto. }
        rewrite filter_cons_True by done. simpl. lia. }
  eexists rank, _,
    (QuizController.mkRow (History._id entry) quizId (Participant.score participant)
       (default (Quiz.date quiz') (History.date entry)) rank 0
       (Js.or_num (Quiz.totalQuestions quiz') 50) 0), _.
  split_and!; [done|reflexivity| |done|done|done|reflexivity|exact Hcount].
  rewrite sort_perm. apply list_elem_of_omap. exists entry. split; [done|].
  unfold QuizController.format_history. rewrite Hq. simpl. rewrite lookup_insert_eq.
  rewrite Hs, Hr. simpl. rewrite !or_num_zero. by rewrite Hid.
Qed.

Lemma X6_completeQuiz_history_witness :
  quizzes c_played !! "quiz1" = Some quiz_played
  ∧ Quiz._id quiz_played = "quiz1"
  ∧ users c_played !! "alice" = Some (user_of "alice" "Alice")
  ∧ ∃ rank rows row user',
      Js.field "rank" (QuizController.completeQuiz c_played "alice" "quiz1" "h1" 20000).1.2
      = Some (Js.jnum rank)
      ∧ QuizController.getUserQuizHistory
          (QuizController.completeQuiz c_played "alice" "quiz1" "h1" 20000).2 "alice"
        = Some rows
      ∧ row ∈ rows
      ∧ QuizController.hr_quizId row = "quiz1"
      ∧ QuizController.hr_score row = 10
      ∧ QuizController.hr_rank row = rank
      ∧ users (QuizController.completeQuiz c_played "alice" "quiz1" "h1" 20000).2 !! "alice"
        = Some user'
      ∧ entries_of "quiz1" user' = Z.max 1 (entries_of "quiz1" (user_of "alice" "Alice")).
Proof.
  assert (quizzes c_played !! "quiz1" = Some quiz_played) as Hquiz
    by (vm_compute; reflexivity).
  assert (users c_played !! "alice" = Some (user_of "alice" "Alice")) as Huser
    by (vm_compute; reflexivity).
  split_and!; [exact Hquiz|reflexivity|exact Huser|].
  apply (X6_completeQuiz_history c_played "alice" "quiz1" "h1" 20000 quiz_played 0%nat
           (Participant.mk "p1" "alice" 10 1 1 5 [] None false None true)
           (user_of "alice" "Alice") Hquiz eq_refl);
    [vm_compute; reflexivity|reflexivity|exact Huser].
Defined.

(** ** Winners *)

Lemma StronglySorted_take {A} (R : A → A → Prop) (n : nat) (l : list A) :
  StronglySorted R l → StronglySorted R (take n l).
Proof.
  intros Hs. revert n. induction Hs as [|x l Hs IH Hx]; intros [|n]; simpl; try constructor.
  - apply IH.
  - rewrite Forall_forall in Hx |- *. intros y Hy. apply Hx.
    apply list_elem_of_lookup_1 in Hy as [k Hk].
    apply lookup_take_Some in Hk as [Hk _]. by eapply list_elem_of_lookup_2.
Qed.

Lemma StronglySorted_imap {A B} (R : A → A → Prop) (R' : B → B → Prop) (f : nat → A → B)
    (l : list A) :
  (∀ i j a b, R a b → R' (f i a) (f j b)) →
  StronglySorted R l → StronglySorted R' (imap f l).
Proof.
  intros Hf Hs. revert f Hf. induction Hs as [|x l Hs IH Hx]; intros f Hf; simpl; constructor.
  - apply IH. intros i j a b. apply Hf.
  - rewrite Forall_forall in Hx. rewrite Forall_forall. intros y Hy.
    apply list_elem_of_lookup_1 in Hy as [k Hk].
    rewrite list_lookup_imap in Hk.
    destruct (l !! k) as [a|] eqn:Ha; simplify_eq/=.
    apply Hf, Hx. by eapply list_elem_of_lookup_2.
Qed.

Lemma scheduler_sorted l :
  StronglySorted (λ a b, ranks_before (Participant.score a) (Participant.timeSpent a)
                                      (Participant.score b) (Participant.timeSpent b))
    (Js.sort Scheduler.compare l).
Proof.
  eapply StronglySorted_iff; [apply scheduler_compare_before|].
  apply sort_sorted.
  - intros a b. rewrite !scheduler_compare_before. unfold ranks_before. lia.
  - intros a b c. rewrite !scheduler_compare_before. unfold ranks_before. lia.
Qed.



(** ** Eligibility *)

Lemma existsb_payment (u : User.t) (t : QuizController.times) :
  existsb (λ p, bool_decide (QuizController.todayStart t ≤ User.p_date p)
                && bool_decide (5 ≤ User.p_amount p)) (User.payments u) = true
  ↔ ∃ p, p ∈ User.payments u
         ∧ QuizController.todayStart t ≤ User.p_date p ∧ 5 ≤ User.p_amount p.
Proof.
  rewrite existsb_exists. split.
  - intros (p & Hin & Hp). exists p. rewrite list_elem_of_In.
    apply andb_true_iff in Hp as [?%bool_decide_eq_true ?%bool_decide_eq_true]. done.
  - intros (p & Hin & H1 & H2). exists p. rewrite <- list_elem_of_In.
    split; [done|]. apply andb_true_iff. by rewrite !bool_decide_eq_true.
Qed.

(** X8: when [checkQuizEligibility] answers that the user is eligible. It
    does so exactly when the user exists, the clock in Indian time is
    neither before the payment deadline (19:55) nor after the end of the
    quiz (20:30), the user has paid for the day, and the payment record
    found is not one made after the deadline while the quiz has not
    started. In particular a user who has paid is told 'not eligible' until
    19:55. The reply 'Quiz is not live yet' (with [nextQuizTime]) is never
    given. *)
Theorem X8_eligibility_window user t paymentRecord offset :
  (Js.field "eligible"
     (QuizController.checkQuizEligibility user t paymentRecord offset).2
   = Some (Js.JBool true)
   ↔ ∃ u, user = Some u
          ∧ QuizController.paymentDeadline t ≤ QuizController.nowIST t
          ∧ QuizController.nowIST t ≤ QuizController.quizEndTime t
          ∧ paid_today u t paymentRecord
          ∧ ¬ paid_late t paymentRecord offset)
  ∧ Js.field "nextQuizTime"
      (QuizController.checkQuizEligibility user t paymentRecord offset).2 = None.
Proof.
  unfold QuizController.checkQuizEligibility, paid_today, paid_late.
  destruct user as [u|]; [|split; [|done]; split; [intros [=]|by intros (? & [=] & _)]].
  pose proof (existsb_payment u t) as Hpayments.
  destruct (existsb _ (User.payments u)) eqn:Hex;
    destruct paymentRecord as [paymentTime|]; simpl;
    repeat case_bool_decide; simpl;
    repeat match goal with
           | H : ¬ is_Some (Some _) |- _ => by destruct H
           | H : is_Some None |- _ => by destruct H as [? [=]]
           end;
    (split; [|first [done|exfalso; lia]]);
    (split;
     [first [solve [intros [=]]
            |intros _; exists u;
             split_and!;
               [done|lia|lia
               |first [by left|right; by apply Hpayments]
               |intros (pt & Hpt & ? & ?); simplify_eq; lia]]
     |first [done
            |intros (u' & Hu & ? & ? & Hpaid & Hlate); simplify_eq;
             first [lia
                   |destruct Hlate; eexists; split_and!; [done|lia|lia]
                   |destruct Hpaid as [[? [=]]|Hp]; apply Hpayments in Hp; done]]]).
Qed.

(** ** The socket orchestrator: leaving and disconnecting *)

Lemma filter_all {A} (P : A → Prop) `{!∀ x, Decision (P x)} (l : list A) :
  Forall P l → filter P l = l.
Proof.
  induction 1 as [|x l Hx Hl IH]; [done|]. rewrite filter_cons_True by done. by f_equal.
Qed.

Section map_delete.
Context {K V : Type} `{EqDecision K}.
Implicit Types m : list (K * V).

Lemma map_delete_filter k m :
  NoDup m.*1 → Js.map_delete k m = filter (λ kv, kv.1 ≠ k) m.
Proof.
  induction m as [|kv m IH]; simpl; [done|].
  intros [Hkv Hnd]%NoDup_cons. case_bool_decide as Hk.
  - rewrite filter_cons_False by (intros ?; done).
    symmetry. apply filter_all, Forall_forall. intros kv' Hin Heq. apply Hkv.
    rewrite Hk, <- Heq. by apply list_elem_of_fmap_2.
  - rewrite filter_cons_True by done. f_equal. by apply IH.
Qed.

Lemma map_delete_keys k m : NoDup m.*1 → NoDup (Js.map_delete k m).*1.
Proof.
  intros Hnd. rewrite map_delete_filter by done.
  eapply sublist_NoDup; [exact Hnd|]. apply fmap_sublist, sublist_filter.
Qed.

Lemma map_get_filter (P : K * V → Prop) `{!∀ x, Decision (P x)} k m :
  (∀ kv, kv.1 = k → ¬ P kv) → Js.map_get k (filter P m) = None.
Proof.
  intros HP. unfold Js.map_get. induction m as [|kv m IH]; [done|].
  rewrite filter_cons. destruct (decide (P kv)) as [Hp|]; [|done]. simpl.
  case_bool_decide as Hk; [by destruct (HP kv Hk)|done].
Qed.

Lemma map_get_filter_other (P : K * V → Prop) `{!∀ x, Decision (P x)} k m :
  (∀ kv, kv.1 = k → P kv) → Js.map_get k (filter P m) = Js.map_get k m.
Proof.
  intros HP. unfold Js.map_get. induction m as [|kv m IH]; [done|].
  rewrite filter_cons. destruct (decide (P kv)) as [Hp|Hp]; simpl.
  - case_bool_decide; [done|exact IH].
  - case_bool_decide as Hk; [by destruct Hp; apply HP|exact IH].
Qed.

End map_delete.

(** X9: leaving a quiz. After [leave-quiz] the user has no entry in the
    participants of the quiz while the entries of the other users are
    untouched, and every answer the user submits for that quiz is answered
    with an error and changes nothing; it is the error 'User not registered
    for quiz' when the quiz is running and the answer is for the current
    question. *)
Theorem X9_leave_quiz reg quizId userId qs :
  reg !! quizId = Some qs →
  quizId ≠ "" → userId ≠ "" →
  NoDup (Orchestrator.participants qs).*1 →
  ∃ qs',
    Orchestrator.leave_quiz reg quizId userId = <[quizId := qs']> reg
    ∧ Js.map_get userId (Orchestrator.participants qs') = None
    ∧ (∀ other, other ≠ userId →
         Js.map_get other (Orchestrator.participants qs')
         = Js.map_get other (Orchestrator.participants qs))
    ∧ ∀ pl now,
        Orchestrator.quizId pl = quizId → Orchestrator.userId pl = userId →
        ∃ m,
          Orchestrator.submit_answer (Orchestrator.leave_quiz reg quizId userId) pl now
          = (Orchestrator.AnswerError m, Orchestrator.leave_quiz reg quizId userId, false)
          ∧ (Orchestrator.running qs = true →
             (∃ qIndex, Orchestrator.questionIndex pl = Some qIndex
                        ∧ Orchestrator.currentIndex qs = Js.Number qIndex) →
             is_Some (Orchestrator.selectedIndex pl) →
             m = "User not registered for quiz").
Proof.
  intros Hqs Hq Hu Hnd.
  unfold Orchestrator.leave_quiz.
  rewrite bool_decide_false by done. rewrite bool_decide_false by done. simpl.
  rewrite Hqs.
  set (qs' := Orchestrator.set_participants _ qs).
  assert (Js.map_get userId (Orchestrator.participants qs') = None) as Hgone.
  { simpl. rewrite map_delete_filter by done. apply map_get_filter.
    intros kv Hk Hne. by apply Hne. }
  exists qs'. split_and!; [done|done| |].
  - intros other Hother. simpl. rewrite map_delete_filter by done.
    apply map_get_filter_other. intros kv Hk. by rewrite Hk.
  - intros pl now Hpq Hpu. unfold Orchestrator.submit_answer.
    destruct (Orchestrator.questionIndex pl) as [qIndex|] eqn:HqIndex;
      [|eexists; split; [done|by intros _ (? & [=] & _)]].
    destruct (Orchestrator.selectedIndex pl) as [sel|] eqn:Hsel;
      [|eexists; split; [done|by intros _ _ [? [=]]]].
    rewrite Hpq, Hpu.
    rewrite bool_decide_false by done. rewrite bool_decide_false by done. simpl.
    rewrite lookup_insert_eq.
    change (Orchestrator.running qs') with (Orchestrator.running qs).
    change (Orchestrator.currentIndex qs') with (Orchestrator.currentIndex qs).
    destruct (Orchestrator.running qs); simpl;
      [|eexists; split; [done|intros [=]]].
    case_bool_decide as Hcurrent; simpl.
    + eexists.
      rewrite (Hgone : Js.map_get userId (Js.map_delete userId (Orchestrator.participants qs))
                       = None).
      done.
    + eexists; split; [done|]. intros _ (qi & [= <-] & Hqi). done.
Qed.

Lemma X9_leave_quiz_witness :
  NoDup (["alice"] : list string)
  ∧ Orchestrator.submit_answer (Orchestrator.leave_quiz reg_capital "quiz1" "alice")
      (Orchestrator.mkPayload "quiz1" "alice" (Some (Js.JNum 0)) (Some (Js.JNum 1)) None) 4000
    = (Orchestrator.AnswerError "User not registered for quiz",
       Orchestrator.leave_quiz reg_capital "quiz1" "alice", false).
Proof.
  assert (NoDup (["alice"] : list string)) as Hnd by apply NoDup_singleton.
  split; [exact Hnd|].
  edestruct (X9_leave_quiz reg_capital "quiz1" "alice") as (qs' & _ & _ & _ & Hsubmit);
    [vm_compute; reflexivity|done|done|exact Hnd|].
  edestruct (Hsubmit (Orchestrator.mkPayload "quiz1" "alice" (Some (Js.JNum 0))
                        (Some (Js.JNum 1)) None) 4000) as (m & Hm & Hmessage);
    [reflexivity|reflexivity|].
  rewrite Hm. rewrite Hmessage; [reflexivity|reflexivity|by eexists|by eexists].
Defined.

Lemma drop_socket_fold (sid : string) (todo : list (string * Orchestrator.participant)) :
  ∀ m : list (string * Orchestrator.participant), NoDup m.*1 →
    foldl (λ m kv, if bool_decide (Orchestrator.socketId kv.2 = Some sid)
                   then Js.map_delete kv.1 m else m) m todo
    = filter (λ kv, kv.1 ∉ (filter (λ e : string * Orchestrator.participant,
                                     Orchestrator.socketId e.2 = Some sid) todo).*1) m.
Proof.
  induction todo as [|e todo IH]; intros m Hnd; simpl.
  - symmetry. apply filter_all, Forall_forall. intros kv _. apply not_elem_of_nil.
  - case_bool_decide as He.
    + rewrite IH by by apply map_delete_keys.
      rewrite map_delete_filter by done. rewrite list_filter_filter.
      rewrite filter_cons_True by done. apply list_filter_iff. intros kv. simpl.
      rewrite not_elem_of_cons. tauto.
    + rewrite IH by done. by rewrite filter_cons_False by done.
Qed.

(** X10: a disconnecting socket. In every quiz of the registry the
    [disconnect] handler removes exactly the participants whose socket is
    the one that disconnected: the others, among them the participants
    registered without a socket, keep their entries and their order, and
    nothing else of the quiz state changes. *)
Theorem X10_disconnect reg sid quizId qs :
  reg !! quizId = Some qs →
  NoDup (Orchestrator.participants qs).*1 →
  Orchestrator.disconnect reg sid !! quizId
  = Some (Orchestrator.set_participants
            (filter (λ kv, Orchestrator.socketId kv.2 ≠ Some sid) (Orchestrator.participants qs))
            qs).
Proof.
  intros Hqs Hnd. unfold Orchestrator.disconnect. rewrite lookup_fmap, Hqs. simpl.
  f_equal. f_equal. unfold Orchestrator.drop_socket. rewrite drop_socket_fold by done.
  set (ps := Orchestrator.participants qs) in *.
  assert (∀ kv, kv ∈ ps →
            kv.1 ∉ (filter (λ e : string * Orchestrator.participant,
                               Orchestrator.socketId e.2 = Some sid) ps).*1
            ↔ Orchestrator.socketId kv.2 ≠ Some sid) as Hiff.
  { intros kv Hin. split.
    - intros Hout Hsid. apply Hout. apply list_elem_of_fmap_2.
      by apply list_elem_of_filter.
    - intros Hsid (e & Hk & [He Hine]%list_elem_of_filter)%list_elem_of_fmap.
      assert (kv = e) as -> by by eapply (NoDup_fmap_eq fst ps).
      done. }
  clearbody ps. clear Hqs Hnd.
  assert (∀ l : list (string * Orchestrator.participant), (∀ kv, kv ∈ l → kv ∈ ps) →
            filter (λ kv, kv.1 ∉ (filter (λ e : string * Orchestrator.participant,
                               Orchestrator.socketId e.2 = Some sid) ps).*1) l
            = filter (λ kv, Orchestrator.socketId kv.2 ≠ Some sid) l) as Hfilter.
  { induction l as [|kv l IH]; intros Hl; [done|].
    rewrite !filter_cons.
    pose proof (Hiff kv (Hl kv ltac:(left))) as Hkv.
    rewrite IH by (intros; apply Hl; by right).
    destruct (decide _) as [H1|H1], (decide _) as [H2|H2]; try done; tauto. }
  by apply Hfilter.
Qed.

Lemma X10_disconnect_witness :
  NoDup (["alice"] : list string)
  ∧ Orchestrator.participants <$> Orchestrator.disconnect reg_capital "s1" !! "quiz1" = Some []
  ∧ Orchestrator.participants <$> Orchestrator.disconnect reg_capital "s2" !! "quiz1"
    = Some [("alice", Orchestrator.mkParticipant (Some "s1") [] 0 0 0 false)].
Proof.
  assert (NoDup (["alice"] : list string)) as Hnd by apply NoDup_singleton.
  split; [exact Hnd|]. split.
  - erewrite (X10_disconnect reg_capital "s1" "quiz1"); [|vm_compute; reflexivity|exact Hnd].
    vm_compute. reflexivity.
  - vm_compute. reflexivity.
Defined.

(** ** The socket orchestrator: a whole quiz *)

(** X11: starting a quiz in the orchestrator. For a stored quiz with at
    least one question that is not running yet, [startQuizNow] opens
    question 0 (the emissions are [question-start], [time-left], then
    [quiz-started]), leaves the state of the quiz running on index 0 with
    the clock reading as start of the question, and a further
    [startQuizNow] for the same quiz returns without a change and without
    an emission. *)
Theorem X11_startQuizNow_once db reg quizId now quiz question rest :
  db !! quizId = Some quiz →
  Quiz.questions quiz = question :: rest →
  Orchestrator.running <$> reg !! quizId ≠ Some true →
  ∃ reg' out qs',
    Orchestrator.startQuizNow db reg quizId now = inr (reg', out, Orchestrator.Timers 0)
    ∧ e_event <$> out = ["question-start"; "time-left"; "quiz-started"]
    ∧ reg' !! quizId = Some qs'
    ∧ Orchestrator.running qs' = true
    ∧ Orchestrator.currentIndex qs' = 0
    ∧ Orchestrator.questionStartAt qs' = Some now
    ∧ ∀ db2 now2, is_Some (db2 !! quizId) →
        Orchestrator.startQuizNow db2 reg' quizId now2 = inr (reg', [], Orchestrator.Idle).
Proof.
  intros Hquiz Hquestions Hidle. unfold Orchestrator.startQuizNow at 1.
  rewrite Hquiz. rewrite bool_decide_false by done.
  unfold Orchestrator.advanceTo. rewrite lookup_insert_eq. simpl.
  rewrite Hquestions. simpl.
  eexists _, _, _. split; [reflexivity|]. split; [reflexivity|].
  split; [apply lookup_insert_eq|]. split_and!; [done|done|done|].
  intros db2 now2 [quiz2 Hquiz2]. unfold Orchestrator.startQuizNow.
  rewrite Hquiz2. rewrite lookup_insert_eq. reflexivity.
Qed.

Lemma X11_startQuizNow_once_witness :
  db_alice !! "quiz1" = Some quiz_alice
  ∧ ∃ reg' out,
      Orchestrator.startQuizNow db_alice ∅ "quiz1" 1000
      = inr (reg', out, Orchestrator.Timers 0)
      ∧ Orchestrator.startQuizNow db_alice reg' "quiz1" 2000
        = inr (reg', [], Orchestrator.Idle).
Proof.
  assert (db_alice !! "quiz1" = Some quiz_alice) as Hquiz by (vm_compute; reflexivity).
  split; [exact Hquiz|].
  destruct (X11_startQuizNow_once db_alice ∅ "quiz1" 1000 quiz_alice q_capital []
              Hquiz eq_refl) as (reg' & out & qs' & Hstart & _ & _ & _ & _ & _ & Hagain).
  { rewrite lookup_empty. done. }
  exists reg', out. split; [exact Hstart|]. apply Hagain. by eexists.
Defined.

Lemma index_middle {A} (opened rest : list A) (q : A) :
  Js.index (opened ++ q :: rest) (Z.of_nat (length opened)) = Some q.
Proof.
  unfold Js.index. rewrite bool_decide_true by lia. rewrite Nat2Z.id.
  by rewrite list_lookup_middle.
Qed.

Lemma finalizeQuiz_emits reg qid qs :
  reg !! qid = Some qs →
  Orchestrator.finalizeQuiz reg qid
  = (delete qid reg,
     [mkEmit (ToRoom qid) "quiz-ended"
        (Js.JObj [("quizId", Js.JText qid);
                  ("leaderboard",
                   Js.JList (Orchestrator.leaderboard_entry
                               <$> take 50 (Orchestrator.assign_ranks
                                              (Js.sort Orchestrator.compare
                                                 (Orchestrator.participantsArr qs)))))])],
     Orchestrator.assign_ranks (Js.sort Orchestrator.compare (Orchestrator.participantsArr qs))).
Proof. intros Hqs. unfold Orchestrator.finalizeQuiz. by rewrite Hqs. Qed.

Lemma advanceTo_opens reg qid qs doc idx question now :
  reg !! qid = Some qs →
  Orchestrator.running qs = true →
  Orchestrator.qs_quizDoc qs = Some doc →
  Js.index (Orchestrator.d_questions doc) idx = Some question →
  Orchestrator.advanceTo reg qid idx now
  = (<[qid := Orchestrator.mkQstate (Some doc) idx true
                (Orchestrator.questionDurationSec qs) (Orchestrator.participants qs)
                (Some now) (Orchestrator.persistCount qs)]> reg,
     [mkEmit (ToRoom qid) "question-start"
        (Orchestrator.questionForClients idx question (Orchestrator.questionDurationSec qs));
      Orchestrator.time_left qid idx (Orchestrator.questionDurationSec qs)],
     Orchestrator.Timers idx).
Proof.
  intros Hqs Hrunning Hdoc Hquestion. unfold Orchestrator.advanceTo.
  rewrite Hqs, Hrunning. simpl. rewrite Hdoc. simpl. by rewrite Hquestion.
Qed.

Lemma play_rest qid doc : ∀ rest opened reg qs now,
  Orchestrator.d_questions doc = opened ++ rest →
  rest ≠ [] →
  reg !! qid = Some qs →
  Orchestrator.running qs = true →
  Orchestrator.qs_quizDoc qs = Some doc →
  play (length rest) reg qid (Z.of_nat (length opened)) now
  = (delete qid reg,
     concat (imap (λ i, question_events qid (Orchestrator.questionDurationSec qs)
                          (length opened + i)) rest)
     ++ (Orchestrator.finalizeQuiz reg qid).1.2).
Proof.
  induction rest as [|q rest IH];
    intros opened reg qs now Hquestions Hrest Hqs Hrunning Hdoc; [done|].
  assert (Js.index (Orchestrator.d_questions doc) (Z.of_nat (length opened)) = Some q)
    as Hq by (rewrite Hquestions; apply index_middle).
  set (qs1 := Orchestrator.mkQstate (Some doc) (Z.of_nat (length opened)) true
                (Orchestrator.questionDurationSec qs) (Orchestrator.participants qs)
                (Some now) (Orchestrator.persistCount qs)).
  assert (Orchestrator.finalizeQuiz (<[qid:=qs1]> reg) qid
          = (delete qid reg, (Orchestrator.finalizeQuiz reg qid).1.2,
             (Orchestrator.finalizeQuiz reg qid).2)) as Hfinal.
  { rewrite (finalizeQuiz_emits _ _ qs1) by apply lookup_insert_eq.
    rewrite (finalizeQuiz_emits _ _ qs) by done. by rewrite delete_insert_eq. }
  change (length (q :: rest)) with (S (length rest)). cbn [play].
  rewrite (advanceTo_opens reg qid qs doc _ q now Hqs Hrunning Hdoc Hq). fold qs1.
  rewrite lookup_insert_eq. cbn [Orchestrator.qs_quizDoc qs1]. rewrite Hq.
  unfold Orchestrator.endHandle. rewrite Hquestions, length_app.
  change (length (q :: rest)) with (S (length rest)).
  destruct rest as [|q' rest].
  - rewrite bool_decide_true by (simpl; lia).
    rewrite Hfinal. rewrite imap_cons. simpl. rewrite Nat.add_0_r. done.
  - rewrite bool_decide_false by (simpl; lia).
    specialize (IH (opened ++ [q]) (<[qid:=qs1]> reg) qs1
                  (now + Orchestrator.questionDurationSec qs1 * 1000 + 1000)).
    rewrite length_app in IH. simpl length in IH.
    replace (Z.of_nat (length opened) + 1) with (Z.of_nat (length opened + 1)) by lia.
    change (length (q' :: rest)) with (S (length rest)).
    rewrite IH; [|by rewrite <- app_assoc|done|apply lookup_insert_eq|done|done].
    rewrite delete_insert_eq, Hfinal. cbn [fst snd].
    rewrite (imap_cons _ q). cbn [concat]. rewrite Nat.add_0_r.
    assert (imap (λ i, question_events qid (Orchestrator.questionDurationSec qs1)
                         (length opened + 1 + i)) (q' :: rest)
            = imap ((λ i, question_events qid (Orchestrator.questionDurationSec qs)
                            (length opened + i)) ∘ S) (q' :: rest)) as ->.
    { apply imap_ext. intros i x _. simpl. f_equal. lia. }
    reflexivity.
Qed.

(** X12: a whole quiz in the orchestrator. When a running quiz with at
    least one question is opened at question 0 and every end-of-question
    timer fires, the questions are opened one after the other in the order
    of the document, each with its [question-start], its first [time-left]
    and, at its end, [question-ended] with its correct index; after the
    last one the leaderboard is sent with [quiz-ended] and the quiz is
    removed from the registry. No question is skipped or sent twice. *)
Theorem X12_orchestrator_run reg qid qs doc now :
  reg !! qid = Some qs →
  Orchestrator.running qs = true →
  Orchestrator.qs_quizDoc qs = Some doc →
  Orchestrator.d_questions doc ≠ [] →
  play (length (Orchestrator.d_questions doc)) reg qid 0 now
  = (delete qid reg,
     concat (imap (question_events qid (Orchestrator.questionDurationSec qs))
                  (Orchestrator.d_questions doc))
     ++ (Orchestrator.finalizeQuiz reg qid).1.2).
Proof.
  intros Hqs Hrunning Hdoc Hquestions.
  by apply (play_rest qid doc (Orchestrator.d_questions doc) [] reg qs now).
Qed.

Lemma X12_orchestrator_run_witness :
  reg_contest !! "quiz1"
  = Some (Orchestrator.mkQstate
            (Some (Orchestrator.mkQuizDoc "quiz1" "Daily Quiz" [q_capital] []))
            0 true 15
            [("a", Orchestrator.mkParticipant None [] 50 0 10 false);
             ("b", Orchestrator.mkParticipant None [] 80 0 5 false);
             ("c", Orchestrator.mkParticipant None [] 80 0 8 false);
             ("d", Orchestrator.mkParticipant None [] 30 0 20 false)]
            (Some 1000) 0)
  ∧ e_event <$> (play 1 reg_contest "quiz1" 0 2000).2
    = ["question-start"; "time-left"; "question-ended"; "quiz-ended"].
Proof.
  assert (reg_contest !! "quiz1"
          = Some (Orchestrator.mkQstate
                    (Some (Orchestrator.mkQuizDoc "quiz1" "Daily Quiz" [q_capital] []))
                    0 true 15
                    [("a", Orchestrator.mkParticipant None [] 50 0 10 false);
                     ("b", Orchestrator.mkParticipant None [] 80 0 5 false);
                     ("c", Orchestrator.mkParticipant None [] 80 0 8 false);
                     ("d", Orchestrator.mkParticipant None [] 30 0 20 false)]
                    (Some 1000) 0)) as Hqs by (vm_compute; reflexivity).
  split; [exact Hqs|].
  pose proof (X12_orchestrator_run reg_contest "quiz1" _ _ 2000 Hqs eq_refl eq_refl
                ltac:(done)) as Hrun.
  exact (eq_trans (f_equal (λ r, e_event <$> r.2) Hrun) eq_refl).
Defined.

Lemma filter_none {A} (P : A → Prop) `{!∀ x, Decision (P x)} (l : list A) :
  Forall (λ x, ¬ P x) l → filter P l = [].
Proof.
  induction 1 as [|x l Hx Hl IH]; [done|]. by rewrite filter_cons_False.
Qed.

(** X13: what [finalizeQuiz] leaves in the database. The participants of
    the stored quiz are replaced by one entry for each participant of the
    running quiz, in the order of the ranking (score, highest first, then
    time spent): the entry at position [i] has rank [i + 1], is completed,
    and carries the user, the score and the time of a participant of the
    running quiz; its answers are empty and it is not marked as paid, these
    being the defaults of the schema. So [getWinners], which lists the
    completed and paid participants, finds none for a quiz finalized this
    way. *)
Theorem X13_finalizeQuiz_stores c reg qid qs doc quiz now ids hids us :
  reg !! qid = Some qs →
  Orchestrator.qs_quizDoc qs = Some doc →
  quizzes c !! Orchestrator.d_id doc = Some quiz →
  ∃ quiz',
    quizzes (Orchestrator.save_results c qs (Orchestrator.finalizeQuiz reg qid).2 now ids hids)
      !! Orchestrator.d_id doc = Some quiz'
    ∧ length (Quiz.participants quiz') = length (Orchestrator.participants qs)
    ∧ (∀ (i : nat) p, Quiz.participants quiz' !! i = Some p →
         Participant.rank p = Some (Z.of_nat i + 1)
         ∧ Participant.isCompleted p = true
         ∧ Participant.answers p = []
         ∧ Participant.paid p = false
         ∧ ∃ entry, (Participant.user p, entry) ∈ Orchestrator.participants qs
                    ∧ Participant.score p = Orchestrator.score entry
                    ∧ Participant.timeSpent p = Orchestrator.timeSpent entry)
    ∧ StronglySorted
        (λ a b, ranks_before (Participant.score a) (Participant.timeSpent a)
                             (Participant.score b) (Participant.timeSpent b))
        (Quiz.participants quiz')
    ∧ QuizController.getWinners (Some quiz') us = QuizController.NoneCompleted (Quiz.date quiz).
Proof.
  intros Hqs Hdoc Hquiz.
  rewrite (finalizeQuiz_emits reg qid qs Hqs). cbn [snd].
  set (sorted := Js.sort Orchestrator.compare (Orchestrator.participantsArr qs)).
  unfold Orchestrator.save_results. rewrite Hdoc, Hquiz. cbn [quizzes].
  rewrite lookup_insert_eq. eexists. split; [reflexivity|]. cbn [Quiz.participants Quiz.set_participants].
  split_and!.
  - rewrite length_imap. unfold Orchestrator.assign_ranks. rewrite length_imap.
    unfold sorted. rewrite (Permutation_length (sort_perm _ _)).
    unfold Orchestrator.participantsArr. by rewrite length_fmap.
  - intros i p. rewrite list_lookup_imap, assign_ranks_lookup.
    destruct (sorted !! i) as [r|] eqn:Hr; [|done]. simpl. intros [= <-]. simpl.
    split_and!; [done..|].
    apply list_elem_of_lookup_2 in Hr. unfold sorted in Hr. rewrite sort_perm in Hr.
    apply list_elem_of_fmap in Hr as ([user entry] & -> & Hin). simpl.
    exists entry. by rewrite !or_num_zero.
  - eapply StronglySorted_imap;
      [|apply assign_ranks_sorted, participantsArr_sorted].
    intros i j a b Hab. exact Hab.
  - unfold QuizController.getWinners, QuizController.completedParticipants. simpl.
    rewrite filter_none; [done|].
    apply Forall_forall. intros p [i Hp]%list_elem_of_lookup_1.
    rewrite list_lookup_imap in Hp.
    destruct (Orchestrator.assign_ranks sorted !! i); simplify_eq/=. by intros [_ [=]].
Qed.

Lemma X13_finalizeQuiz_stores_witness :
  reg_contest !! "quiz1" = Some qs_contest
  ∧ quizzes c_contest !! "quiz1" = Some quiz_contest
  ∧ ∃ quiz',
      quizzes (Orchestrator.save_results c_contest qs_contest
                 (Orchestrator.finalizeQuiz reg_contest "quiz1").2 90000
                 (ids_from "p") (ids_from "h")) !! "quiz1" = Some quiz'
      ∧ (λ p, (Participant.user p, Participant.rank p, Participant.paid p))
          <$> Quiz.participants quiz'
        = [("b", Some 1, false); ("c", Some 2, false); ("a", Some 3, false);
           ("d", Some 4, false)]
      ∧ QuizController.getWinners (Some quiz') (users c_contest)
        = QuizController.NoneCompleted 0.
Proof.
  assert (reg_contest !! "quiz1" = Some qs_contest) as Hqs by (vm_compute; reflexivity).
  assert (quizzes c_contest !! "quiz1" = Some quiz_contest) as Hquiz
    by (vm_compute; reflexivity).
  split; [exact Hqs|]. split; [exact Hquiz|].
  destruct (X13_finalizeQuiz_stores c_contest reg_contest "quiz1" qs_contest
              (Orchestrator.mkQuizDoc "quiz1" "Daily Quiz" [q_capital] []) quiz_contest
              90000 (ids_from "p") (ids_from "h") (users c_contest) Hqs eq_refl Hquiz)
    as (quiz' & Hstored & _ & _ & _ & Hwinners).
  exists quiz'. split; [exact Hstored|]. split; [|exact Hwinners].
  vm_compute in Hstored. injection Hstored as <-. vm_compute. reflexivity.
Defined.

(** ** The session driver of the scheduler: a whole quiz *)

Lemma index_Some_lt {A} (l : list A) (i : Z) (x : A) :
  Js.index l i = Some x → 0 ≤ i < Z.of_nat (length l).
Proof.
  unfold Js.index. case_bool_decide; [|done]. intros Hx%lookup_lt_Some. lia.
Qed.

Lemma emitNextQuestion_opens w quizId idx timer now quiz q :
  Scheduler.db w !! quizId = Some quiz →
  Quiz.isLive quiz = true →
  Js.index (Quiz.questions quiz) idx = Some q →
  Scheduler.emitNextQuestion w (Scheduler.mkSession quizId idx timer) Scheduler.no_faults now
  = (Scheduler.mkWorld (<[quizId := Quiz.set_current idx now quiz]> (Scheduler.db w))
                       (<[quizId := (idx, now)]> (Scheduler.activeQuizSessions w)),
     Scheduler.mkSession quizId idx (Scheduler.NextQuestion (Quiz.timePerQuestion quiz * 1000)),
     [mkEmit (ToRoom ("quiz-" +:+ quizId)) "question"
        (Scheduler.question_payload idx quiz q now)]).
Proof.
  intros Hquiz Hlive Hq. pose proof (index_Some_lt _ _ _ Hq) as Hidx.
  unfold Scheduler.emitNextQuestion. simpl. rewrite Hquiz, Hlive. simpl.
  rewrite bool_decide_false by lia. by rewrite Hq.
Qed.

Lemma emitNextQuestion_ends w quizId idx timer now quiz :
  Scheduler.db w !! quizId = Some quiz →
  Quiz.isLive quiz = true →
  Z.of_nat (length (Quiz.questions quiz)) ≤ idx →
  Scheduler.emitNextQuestion w (Scheduler.mkSession quizId idx timer) Scheduler.no_faults now
  = ((Scheduler.endQuizSession w quizId now).1,
     Scheduler.mkSession quizId idx Scheduler.NoTimer,
     (Scheduler.endQuizSession w quizId now).2).
Proof.
  intros Hquiz Hlive Hidx.
  unfold Scheduler.emitNextQuestion. simpl. rewrite Hquiz, Hlive. simpl.
  rewrite bool_decide_true by lia. by destruct (Scheduler.endQuizSession w quizId now).
Qed.

(** The session from the state in which the last question of [opened] is
    open *)
Lemma run_session_rest quizId quiz : ∀ rest opened w s clock current delay,
  Quiz.questions quiz = opened ++ rest →
  Scheduler.db w !! quizId = Some current →
  Quiz.isLive current = true →
  Quiz.questions current = Quiz.questions quiz →
  Quiz.totalQuestions current = Quiz.totalQuestions quiz →
  Quiz.timePerQuestion current = Quiz.timePerQuestion quiz →
  s = Scheduler.mkSession quizId (Z.of_nat (length opened) - 1) (Scheduler.NextQuestion delay) →
  length clock = S (length rest) →
  ∃ w2 final,
    run_session w s clock
    = (w2, Scheduler.mkSession quizId (Z.of_nat (length (Quiz.questions quiz))) Scheduler.NoTimer,
       imap (λ i, question_emit quizId quiz (default 0 (clock !! i)) (length opened + i)) rest
       ++ [mkEmit (ToRoom ("quiz-" +:+ quizId)) "quiz-ended"
             (Js.JObj [("quizId", Js.JText quizId);
                       ("endTime", Js.jnum (default 0 (last clock)));
                       ("totalParticipants",
                        Js.jnum (Z.of_nat (length (Quiz.participants final))));
                       ("winners",
                        Js.JList (Scheduler.winner
                                    <$> take 20 (Scheduler.ranks
                                                   (Scheduler.sortedParticipants current))))])])
    ∧ Scheduler.db w2 !! quizId = Some final
    ∧ Quiz.isLive final = false
    ∧ Quiz.isCompleted final = true
    ∧ Quiz.endTime final = last clock
    ∧ Scheduler.activeQuizSessions w2 !! quizId = None.
Proof.
  induction rest as [|q rest IH];
    intros opened w s clock current delay Hquestions Hcurrent Hlive Hsame Htotal Htime -> Hclock.
  - destruct clock as [|now [|??]]; [done| |done].
    rewrite app_nil_r in Hquestions.
    cbn [run_session]. unfold Scheduler.timer_fires. cbn [Scheduler.currentTimer].
    cbn [Scheduler.s_quizId Scheduler.questionIndex].
    replace (Z.of_nat (length opened) - 1 + 1) with (Z.of_nat (length (Quiz.questions quiz)))
      by (rewrite Hquestions; lia).
    rewrite (emitNextQuestion_ends w quizId _ _ now current Hcurrent Hlive)
      by (rewrite Hsame; lia).
    unfold Scheduler.endQuizSession. rewrite Hcurrent. simpl.
    eexists _, (Quiz.set_ended now (Quiz.set_participants _ current)).
    split; [reflexivity|]. simpl.
    rewrite lookup_insert_eq. split_and!; [done|done|done|done|apply lookup_delete_eq].
  - destruct clock as [|now clock]; [done|]. simpl in Hclock.
    assert (Js.index (Quiz.questions current) (Z.of_nat (length opened)) = Some q) as Hq.
    { rewrite Hsame, Hquestions. apply index_middle. }
    cbn [run_session]. unfold Scheduler.timer_fires. cbn [Scheduler.currentTimer].
    cbn [Scheduler.s_quizId Scheduler.questionIndex].
    replace (Z.of_nat (length opened) - 1 + 1) with (Z.of_nat (length opened)) by lia.
    rewrite (emitNextQuestion_opens w quizId _ _ now current q Hcurrent Hlive Hq).
    edestruct (IH (opened ++ [q])
                 (Scheduler.mkWorld
                    (<[quizId := Quiz.set_current (Z.of_nat (length opened)) now current]>
                       (Scheduler.db w))
                    (<[quizId := (Z.of_nat (length opened), now)]>
                       (Scheduler.activeQuizSessions w)))
                 (Scheduler.mkSession quizId (Z.of_nat (length opened))
                    (Scheduler.NextQuestion (Quiz.timePerQuestion current * 1000)))
                 clock (Quiz.set_current (Z.of_nat (length opened)) now current))
      as (w2 & final & Hrun & Hfinal).
    + by rewrite <- app_assoc.
    + apply lookup_insert_eq.
    + done.
    + done.
    + done.
    + done.
    + rewrite length_app. simpl. f_equal. lia.
    + lia.
    + rewrite Hrun. exists w2, final. split; [|].
      * f_equal. rewrite imap_cons. cbn [app]. f_equal.
        -- unfold question_emit, Scheduler.question_payload. simpl.
           rewrite Nat.add_0_r, Htotal, Htime. done.
        -- f_equal; [|by destruct clock].
           apply imap_ext. intros i x _. simpl. rewrite length_app. simpl.
           f_equal. lia.
      * destruct Hfinal as (? & ? & ? & Hend & ?). split_and!; try done.
        rewrite Hend. by destruct clock.
Qed.

(** X14: a whole quiz of the scheduler. When the cron path starts a stored
    quiz that is not live, has at least one question and has no session
    yet, and the timer of the session then fires once for each question
    (the database never failing), the questions are emitted one after the
    other in the order of the document, numbered from 1, each exactly once
    and with the clock reading of its opening as [startTime]; [quiz-started]
    follows the first question; after the last question [quiz-ended] is
    emitted, the stored quiz is no longer live and is completed with the
    last clock reading as end time, and the session is removed from the
    active sessions. *)
Theorem X14_scheduler_run w quizId quiz now clock question rest :
  Scheduler.db w !! quizId = Some quiz →
  Quiz.isLive quiz = false →
  Quiz.questions quiz = question :: rest →
  Scheduler.activeQuizSessions w !! quizId = None →
  length clock = S (length rest) →
  ∃ w1 s1 w2 s2 ended final,
    Scheduler.startQuizDirectly w quizId now
    = (w1, Some s1,
       [question_emit quizId quiz now 0 question;
        Scheduler.quiz_started (Quiz.go_live now quiz)])
    ∧ run_session w1 s1 clock
      = (w2, s2,
         imap (λ i, question_emit quizId quiz (default 0 (clock !! i)) (S i)) rest ++ [ended])
    ∧ e_target ended = ToRoom ("quiz-" +:+ quizId)
    ∧ e_event ended = "quiz-ended"
    ∧ Scheduler.currentTimer s2 = Scheduler.NoTimer
    ∧ Scheduler.db w2 !! quizId = Some final
    ∧ Quiz.isLive final = false
    ∧ Quiz.isCompleted final = true
    ∧ Quiz.endTime final = last clock
    ∧ Scheduler.activeQuizSessions w2 !! quizId = None.
Proof.
  intros Hquiz Hnotlive Hquestions Hidle Hclock.
  unfold Scheduler.startQuizDirectly, Scheduler.claim_live. rewrite Hquiz, Hnotlive.
  unfold Scheduler.startQuizSession. cbn [Scheduler.activeQuizSessions Scheduler.db].
  rewrite bool_decide_false by (rewrite Hidle; by intros [? [=]]).
  rewrite lookup_insert_eq.
  change (Quiz.questions (Quiz.go_live now quiz)) with (Quiz.questions quiz).
  rewrite Hquestions.
  change (Quiz.currentQuestionIndex (Quiz.go_live now quiz)) with 0.
  rewrite bool_decide_true by lia.
  rewrite (emitNextQuestion_opens _ quizId 0 _ now (Quiz.go_live now quiz) question);
    [|apply lookup_insert_eq|done|cbn [Quiz.questions Quiz.go_live]; by rewrite Hquestions].
  cbn [Scheduler.db Scheduler.activeQuizSessions].
  edestruct (run_session_rest quizId quiz rest [question]
               (Scheduler.mkWorld
                  (<[quizId := Quiz.set_current 0 now (Quiz.go_live now quiz)]>
                     (<[quizId := Quiz.go_live now quiz]> (Scheduler.db w)))
                  (<[quizId := (0, now)]> (Scheduler.activeQuizSessions w)))
               (Scheduler.mkSession quizId 0
                  (Scheduler.NextQuestion (Quiz.timePerQuestion (Quiz.go_live now quiz) * 1000)))
               clock (Quiz.set_current 0 now (Quiz.go_live now quiz)))
    as (w2 & final & Hrun & Hdb & Hlive & Hcompleted & Hend & Hactive);
    [done|apply lookup_insert_eq|done|done|done|done|done|done|].
  eexists _, _, w2, _, _, final. split; [reflexivity|].
  split; [exact Hrun|]. done.
Qed.

Lemma X14_scheduler_run_witness :
  Scheduler.db (Scheduler.mkWorld (db_of quiz_scheduled) ∅) !! "quiz1" = Some quiz_scheduled
  ∧ ∃ w1 s1 w2 s2 out,
      Scheduler.startQuizDirectly (Scheduler.mkWorld (db_of quiz_scheduled) ∅) "quiz1" 1000
      = (w1, Some s1,
         [question_emit "quiz1" quiz_scheduled 1000 0 q_capital;
          Scheduler.quiz_started (Quiz.go_live 1000 quiz_scheduled)])
      ∧ run_session w1 s1 [16000; 31000; 46000] = (w2, s2, out)
      ∧ e_event <$> out = ["question"; "question"; "quiz-ended"]
      ∧ Quiz.isLive <$> Scheduler.db w2 !! "quiz1" = Some false.
Proof.
  assert (Scheduler.db (Scheduler.mkWorld (db_of quiz_scheduled) ∅) !! "quiz1"
          = Some quiz_scheduled) as Hquiz by (vm_compute; reflexivity).
  split; [exact Hquiz|].
  destruct (X14_scheduler_run (Scheduler.mkWorld (db_of quiz_scheduled) ∅) "quiz1"
              quiz_scheduled 1000 [16000; 31000; 46000] q_capital [q_second; q_third]
              Hquiz eq_refl eq_refl eq_refl eq_refl)
    as (w1 & s1 & w2 & s2 & ended & final & Hstart & Hrun & _ & Hevent & _ & Hdb & Hlive & _).
  eexists w1, s1, w2, s2, _. split; [exact Hstart|]. split; [exact Hrun|].
  split; [by rewrite fmap_app; simpl; rewrite Hevent|].
  by rewrite Hdb; simpl; rewrite Hlive.
Defined.

(** ** The open question: countdown and answers *)

Lemma ceil_div_spec (x d : Z) :
  0 < d → d * (Js.ceil_div x d - 1) < x ≤ d * Js.ceil_div x d.
Proof.
  intros Hd. unfold Js.ceil_div.
  pose proof (Z.div_mod (- x) d ltac:(lia)) as Hdiv.
  pose proof (Z.mod_pos_bound (- x) d Hd) as Hmod. lia.
Qed.

(** X15: the countdown of the open question. Every run of the per-second
    callback emits exactly one [time-left]; the remaining seconds are
    never negative, they are the time left until the end of the question
    rounded up to whole seconds, and they are at most the duration rounded
    up once the question has started. The callback clears its interval
    exactly when the end of the question is reached. *)
Theorem X15_countdown quizId questionIndex questionStartTime durationMs now :
  ∃ remaining,
    Scheduler.perSecondInterval quizId questionIndex questionStartTime durationMs now
    = ([mkEmit (ToRoom ("quiz-" +:+ quizId)) "time-left"
          (Js.JObj [("questionIndex", Js.jnum (questionIndex + 1));
                    ("remaining", Js.jnum remaining)])],
       bool_decide (questionStartTime + durationMs ≤ now))
    ∧ 0 ≤ remaining
    ∧ 1000 * (remaining - 1) < Z.max 0 (questionStartTime + durationMs - now) ≤ 1000 * remaining
    ∧ (questionStartTime ≤ now → remaining ≤ Js.ceil_div (Z.max 0 durationMs) 1000).
Proof.
  unfold Scheduler.perSecondInterval.
  set (remainingMs := Z.max 0 (questionStartTime + durationMs - now)).
  pose proof (ceil_div_spec remainingMs 1000 ltac:(lia)) as Hremaining.
  pose proof (ceil_div_spec (Z.max 0 durationMs) 1000 ltac:(lia)) as Hduration.
  exists (Js.ceil_div remainingMs 1000).
  assert (0 ≤ remainingMs) as Hpos by (unfold remainingMs; lia).
  rewrite bool_decide_true by lia.
  split_and!; [|lia|lia|lia|intros Hstarted; unfold remainingMs in *; lia].
  f_equal. apply bool_decide_ext. unfold remainingMs in *. lia.
Qed.

(** X16: the window in which the answer intake accepts an answer to the
    question that the session driver has just opened. After
    [emitNextQuestion] has opened a question at the instant [now], the
    answer that a registered participant, who has not answered that
    question, submits over HTTP [d] milliseconds later is refused with
    'Time limit exceeded' when [d] is more than the time per question plus
    one second, refused with 'Answer submitted too quickly' when [d] is less
    than half a second, and accepted otherwise, with the correctness and
    the points of that question. *)
Theorem X16_open_question_window w quizId idx timer now quiz q userId i participant sel
    reported d :
  Scheduler.db w !! quizId = Some quiz →
  Quiz.isLive quiz = true →
  Js.index (Quiz.questions quiz) idx = Some q →
  List.find (λ x, bool_decide (Question._id x = Question._id q)) (Quiz.questions quiz) = Some q →
  list_find (λ p, Participant.user p = userId) (Quiz.participants quiz) = Some (i, participant) →
  List.find (λ a, bool_decide (Answer.questionId a = Question._id q))
            (Participant.answers participant) = None →
  (QuizController.submitAnswer
     (Scheduler.db (Scheduler.emitNextQuestion w (Scheduler.mkSession quizId idx timer)
                      Scheduler.no_faults now).1.1)
     userId (QuizController.mkBody quizId (Question._id q) sel reported) (now + d)).1
  = if bool_decide (d > (Quiz.timePerQuestion quiz + 1) * 1000) then
      QuizController.Fail 400 "Time limit exceeded"
    else if bool_decide (d < 500) then
      QuizController.Fail 400 "Answer submitted too quickly"
    else
      QuizController.Success
        (Js.strict_eq_num sel (Question.correctIndex q))
        (if Js.strict_eq_num sel (Question.correctIndex q) then Question.points q else 0)
        (Participant.score participant
         + (if Js.strict_eq_num sel (Question.correctIndex q) then Question.points q else 0)).
Proof.
  intros Hquiz Hlive Hq Hfind Hparticipant Hanswers.
  rewrite (emitNextQuestion_opens w quizId idx timer now quiz q Hquiz Hlive Hq).
  cbn [fst Scheduler.db]. unfold QuizController.submitAnswer.
  cbn [QuizController.quizId QuizController.questionId QuizController.selectedIndex].
  rewrite lookup_insert_eq.
  cbn [Quiz.participants Quiz.questions Quiz.set_current Quiz.timePerQuestion].
  rewrite Hparticipant, Hanswers, Hfind.
  unfold QuizController.elapsed_ms.
  cbn [Quiz.questionStartTime Quiz.set_current].
  change (default 0 (Some now)) with now.
  replace (now + d - now) with d by lia.
  repeat case_bool_decide; try lia; reflexivity.
Qed.

Lemma X16_open_question_window_witness :
  Scheduler.db (Scheduler.mkWorld (db_of quiz_running) ∅) !! "quiz1" = Some quiz_running
  ∧ (QuizController.submitAnswer
       (Scheduler.db (Scheduler.emitNextQuestion (Scheduler.mkWorld (db_of quiz_running) ∅)
                        (Scheduler.mkSession "quiz1" 1 Scheduler.NoTimer)
                        Scheduler.no_faults 20000).1.1)
       "alice" (QuizController.mkBody "quiz1" "q1" (Js.JNum 1) None) (20000 + 7000)).1
    = QuizController.Success true 5 5.
Proof.
  assert (Scheduler.db (Scheduler.mkWorld (db_of quiz_running) ∅) !! "quiz1"
          = Some quiz_running) as Hquiz by (vm_compute; reflexivity).
  split; [exact Hquiz|].
  exact (X16_open_question_window (Scheduler.mkWorld (db_of quiz_running) ∅) "quiz1" 1
           Scheduler.NoTimer 20000 quiz_running q_second "alice" 0%nat
           (fresh_participant "p1" "alice") (Js.JNum 1) None 7000
           Hquiz eq_refl eq_refl eq_refl eq_refl eq_refl).
Defined.

(** ** The end of a session of the scheduler *)

Lemma apply_ranks_ids now (entries : list (Participant.t * Z)) : ∀ ps,
  Participant._id
    <$> foldl (λ ps entry, Scheduler.set_rank (Participant._id entry.1) entry.2 now ps)
              ps entries
  = Participant._id <$> ps.
Proof.
  induction entries as [|entry entries IH]; intros ps; simpl; [done|].
  by rewrite IH, set_rank_ids.
Qed.

Lemma sortedParticipants_paid quiz p :
  p ∈ Scheduler.sortedParticipants quiz
  ↔ p ∈ Quiz.participants quiz ∧ Participant.paid p = true.
Proof.
  unfold Scheduler.sortedParticipants. rewrite sort_perm, list_elem_of_filter. tauto.
Qed.

(** X17: what [endQuizSession] does to the participants. With distinct
    participant ids, the stored quiz is ended (not live, completed, end
    time now) and keeps every participant at its position. A participant
    that has not paid is left exactly as it was: no rank, not marked
    completed. A participant that has paid is marked completed, keeps its
    own end time if it has one and gets now otherwise, and gets a rank
    between 1 and the number of paid participants; its score, answers and
    time are not changed. *)
Theorem X17_endQuizSession_participants w quizId quiz now (j : nat) p :
  Scheduler.db w !! quizId = Some quiz →
  NoDup (Participant._id <$> Quiz.participants quiz) →
  Quiz.participants quiz !! j = Some p →
  ∃ final,
    Scheduler.db (Scheduler.endQuizSession w quizId now).1 !! quizId = Some final
    ∧ Quiz.isLive final = false ∧ Quiz.isCompleted final = true
    ∧ Quiz.endTime final = Some now
    ∧ length (Quiz.participants final) = length (Quiz.participants quiz)
    ∧ if Participant.paid p then
        ∃ rank,
          Quiz.participants final !! j = Some (ranked_participant p rank now)
          ∧ 1 ≤ rank
              ≤ Z.of_nat (length (filter (λ p, Participant.paid p = true)
                                         (Quiz.participants quiz)))
      else Quiz.participants final !! j = Some p.
Proof.
  intros Hquiz Hnd Hj.
  unfold Scheduler.endQuizSession. rewrite Hquiz. cbn [fst Scheduler.db].
  eexists. rewrite lookup_insert_eq. split; [reflexivity|].
  cbn [Quiz.isLive Quiz.isCompleted Quiz.endTime Quiz.participants Quiz.set_ended
       Quiz.set_participants].
  split_and!; try reflexivity.
  { rewrite <- (length_fmap Participant._id), apply_ranks_ids. by rewrite length_fmap. }
  rewrite (apply_ranks_lookup now _ _ j p Hnd);
    [|by rewrite ranks_fst; apply sortedParticipants_ids|done].
  assert (p ∈ Quiz.participants quiz) as Hin by (apply list_elem_of_lookup; eauto).
  destruct (list_find _ (Scheduler.ranks (Scheduler.sortedParticipants quiz)))
    as [[k entry]|] eqn:Hfind.
  - apply list_find_Some in Hfind as (Hk & Hid & _).
    unfold Scheduler.ranks in Hk. rewrite list_lookup_imap in Hk.
    destruct (Scheduler.sortedParticipants quiz !! k) as [p'|] eqn:Hp'; [|done].
    simpl in Hk. injection Hk as <-. simpl in Hid.
    assert (p' ∈ Scheduler.sortedParticipants quiz) as Hs by (apply list_elem_of_lookup; eauto).
    apply sortedParticipants_paid in Hs as [Hin' Hpaid].
    assert (p' = p) as -> by (by apply (NoDup_fmap_eq Participant._id _ _ _ Hnd)).
    rewrite Hpaid. exists (Z.of_nat k + 1). split; [done|].
    apply lookup_lt_Some in Hp'. unfold Scheduler.sortedParticipants in Hp'.
    rewrite (Permutation_length (sort_perm _ _)) in Hp'. lia.
  - destruct (Participant.paid p) eqn:Hpaid; [|done]. exfalso.
    assert (p ∈ Scheduler.sortedParticipants quiz) as Hs by (by apply sortedParticipants_paid).
    apply list_elem_of_lookup in Hs as [k Hk].
    apply list_find_None in Hfind. rewrite Forall_lookup in Hfind.
    apply (Hfind k (p, Z.of_nat k + 1)); [|done].
    unfold Scheduler.ranks. rewrite list_lookup_imap. by rewrite Hk.
Qed.

Lemma X17_endQuizSession_participants_witness :
  Scheduler.db (Scheduler.mkWorld (db_of quiz_mixed) ∅) !! "quiz1" = Some quiz_mixed
  ∧ NoDup (Participant._id <$> Quiz.participants quiz_mixed)
  ∧ Quiz.participants quiz_mixed !! 1%nat
    = Some (Participant.mk "p2" "bob" 30 1 1 4 [] None false None false)
  ∧ ∃ final,
      Scheduler.db (Scheduler.endQuizSession (Scheduler.mkWorld (db_of quiz_mixed) ∅)
                      "quiz1" 9500).1 !! "quiz1" = Some final
      ∧ Quiz.isLive final = false ∧ Quiz.isCompleted final = true
      ∧ Quiz.endTime final = Some 9500
      ∧ length (Quiz.participants final) = 3%nat
      ∧ Quiz.participants final !! 1%nat
        = Some (Participant.mk "p2" "bob" 30 1 1 4 [] None false None false).
Proof.
  assert (Scheduler.db (Scheduler.mkWorld (db_of quiz_mixed) ∅) !! "quiz1"
          = Some quiz_mixed) as Hquiz by (vm_compute; reflexivity).
  assert (NoDup (Participant._id <$> Quiz.participants quiz_mixed)) as Hnd
    by (apply (bool_decide_unpack _); vm_compute; exact I).
  split_and!; [exact Hquiz|exact Hnd|reflexivity|].
  exact (X17_endQuizSession_participants (Scheduler.mkWorld (db_of quiz_mixed) ∅) "quiz1"
           quiz_mixed 9500 1%nat _ Hquiz Hnd eq_refl).
Defined.

Lemma update_history_other finalQuiz now hids u : ∀ entries us,
  us !! u = None →
  foldl (Scheduler.update_history finalQuiz now hids) us entries !! u = None.
Proof.
  induction entries as [|entry entries IH]; intros us Hu; simpl; [done|].
  apply IH. unfold Scheduler.update_history.
  destruct (us !! Participant.user entry.2) as [user|] eqn:Huser; [|done].
  destruct (list_find _ (User.quizHistory user)); [done|].
  rewrite lookup_insert_ne; [done|]. intros Heq. congruence.
Qed.

Lemma update_history_fold finalQuiz now hids u : ∀ entries us user,
  us !! u = Some user →
  ∃ user',
    foldl (Scheduler.update_history finalQuiz now hids) us entries !! u = Some user'
    ∧ (user' = user
       ∨ ∃ entry,
           entry ∈ entries ∧ Participant.user entry.2 = u
           ∧ list_find (λ h, History.quizId h = Some (Quiz._id finalQuiz))
                       (User.quizHistory user) = None
           ∧ user' = User.set_quizHistory
                       (User.quizHistory user
                          ++ [History.mk (hids entry.1) (Some (Quiz._id finalQuiz))
                                (Participant.score entry.2) (Some (Quiz.date finalQuiz))
                                (Participant.rank entry.2) now]) user).
Proof.
  induction entries as [|entry entries IH]; intros us user Hu; simpl.
  { exists user. split; [done|by left]. }
  unfold Scheduler.update_history at 2.
  destruct (decide (Participant.user entry.2 = u)) as [Heq|Hne].
  - rewrite Heq, Hu.
    destruct (list_find _ (User.quizHistory user)) as [found|] eqn:Hfind.
    + destruct (IH us user Hu) as (user' & Hlookup & Hcases).
      exists user'. split; [done|].
      destruct Hcases as [->|(e & _ & _ & Hnone & _)]; [by left|]. congruence.
    + set (user1 := User.set_quizHistory _ user).
      destruct (IH (<[u := user1]> us) user1 (lookup_insert_eq _ _ _))
        as (user' & Hlookup & Hcases).
      exists user'. split; [done|]. right. exists entry. split; [by left|].
      split_and!; [done|done|].
      destruct Hcases as [->|(e & _ & _ & Hnone & _)]; [done|]. exfalso.
      apply list_find_None in Hnone. unfold user1 in Hnone. simpl in Hnone.
      apply Forall_app in Hnone as [_ Hnone]. by inversion Hnone.
  - assert (Scheduler.update_history finalQuiz now hids us entry !! u = Some user) as Hu'.
    { unfold Scheduler.update_history.
      destruct (us !! Participant.user entry.2) as [other|]; [|done].
      destruct (list_find _ (User.quizHistory other)); [done|].
      by rewrite lookup_insert_ne. }
    fold (Scheduler.update_history finalQuiz now hids us entry).
    destruct (IH _ user Hu') as (user' & Hlookup & Hcases).
    exists user'. split; [done|]. destruct Hcases as [->|(e & He & Hrest)]; [by left|].
    right. exists e. split; [by right|done].
Qed.

(** X18: the history entries that [endQuizSession] writes. A stored user is
    either left as it was, or it had no entry for the quiz, belongs to
    one of the sorted (paid) participants, and got exactly one entry
    appended: the quiz, the participant's score, the date of the quiz, and
    as rank the participant's [rank] as it was loaded before the new ranks
    were written. So after the end of the session a user has at most one
    entry for the quiz where it had none, and as many as before
    otherwise; a user that is not stored is not created. *)
Theorem X18_endQuizSession_history w us quizId quiz now hids u :
  Scheduler.db w !! quizId = Some quiz →
  match us !! u with
  | None => Scheduler.endQuizSession_histories w us quizId now hids !! u = None
  | Some user =>
    ∃ user',
      Scheduler.endQuizSession_histories w us quizId now hids !! u = Some user'
      ∧ entries_of (Quiz._id quiz) user ≤ entries_of (Quiz._id quiz) user'
          ≤ Z.max 1 (entries_of (Quiz._id quiz) user)
      ∧ (user' = user
         ∨ ∃ (i : nat) p,
             Scheduler.sortedParticipants quiz !! i = Some p
             ∧ Participant.user p = u
             ∧ entries_of (Quiz._id quiz) user = 0
             ∧ user' = User.set_quizHistory
                         (User.quizHistory user
                            ++ [History.mk (hids i) (Some (Quiz._id quiz))
                                  (Participant.score p) (Some (Quiz.date quiz))
                                  (Participant.rank p) now]) user)
  end.
Proof.
  intros Hquiz. unfold Scheduler.endQuizSession_histories. rewrite Hquiz.
  destruct (us !! u) as [user|] eqn:Hu; [|by apply update_history_other].
  destruct (update_history_fold quiz now hids u
              (imap pair (Scheduler.sortedParticipants quiz)) us user Hu)
    as (user' & Hlookup & Hcases).
  exists user'. split; [done|].
  destruct Hcases as [->|([i p] & Hin & Huser & Hnone & ->)].
  { split; [lia|by left]. }
  assert (entries_of (Quiz._id quiz) user = 0) as Hzero.
  { unfold entries_of. apply list_find_None in Hnone. by rewrite (filter_none _ _ Hnone). }
  assert (entries_of (Quiz._id quiz)
            (User.set_quizHistory
               (User.quizHistory user
                  ++ [History.mk (hids i) (Some (Quiz._id quiz)) (Participant.score p)
                        (Some (Quiz.date quiz)) (Participant.rank p) now]) user) = 1)
    as Hone.
  { unfold entries_of in *. simpl. rewrite filter_app, length_app.
    rewrite filter_cons_True by done. simpl. lia. }
  simpl in *. rewrite Hone, Hzero. split; [lia|]. right. exists i, p.
  split_and!; try done.
  apply list_elem_of_lookup in Hin as [k Hk]. rewrite list_lookup_imap in Hk.
  destruct (Scheduler.sortedParticipants quiz !! k) eqn:Hp; [|done].
  simpl in Hk. by injection Hk as <- <-.
Qed.


Lemma X18_endQuizSession_history_witness :
  Scheduler.db (Scheduler.mkWorld (db_of quiz_played) ∅) !! "quiz1" = Some quiz_played
  ∧ ∃ user',
      Scheduler.endQuizSession_histories (Scheduler.mkWorld (db_of quiz_played) ∅)
        (users c_played) "quiz1" 9500 (ids_from "h") !! "alice" = Some user'
      ∧ entries_of "quiz1" (user_of "alice" "Alice") ≤ entries_of "quiz1" user'
          ≤ Z.max 1 (entries_of "quiz1" (user_of "alice" "Alice")).
Proof.
  assert (Scheduler.db (Scheduler.mkWorld (db_of quiz_played) ∅) !! "quiz1"
          = Some quiz_played) as Hquiz by (vm_compute; reflexivity).
  split; [exact Hquiz|].
  pose proof (X18_endQuizSession_history (Scheduler.mkWorld (db_of quiz_played) ∅)
                (users c_played) "quiz1" quiz_played 9500 (ids_from "h") "alice" Hquiz)
    as Hhistory.
  change (users c_played !! "alice") with (Some (user_of "alice" "Alice")) in Hhistory.
  destruct Hhistory as (user' & Hlookup & Hcount & _).
  exists user'. split; [exact Hlookup|exact Hcount].
Defined.

(** ** The results of the day *)

Lemma findOne_Some (f : Quiz.t → bool) (db : store) k quiz :
  Scheduler.findOne f db = Some (k, quiz) → db !! k = Some quiz ∧ f quiz = true.
Proof.
  unfold Scheduler.findOne. intros [Hin Hf]%find_some.
  apply list_elem_of_In, elem_of_map_to_list in Hin. done.
Qed.

Lemma findOne_None (f : Quiz.t → bool) (db : store) k quiz :
  Scheduler.findOne f db = None → db !! k = Some quiz → f quiz = false.
Proof.
  unfold Scheduler.findOne. intros Hnone Hk.
  apply (find_none _ _ Hnone (k, quiz)).
  by apply list_elem_of_In, elem_of_map_to_list.
Qed.

Lemma findOne_is_None (f : Quiz.t → bool) (db : store) :
  (∀ k quiz, db !! k = Some quiz → f quiz = false) → Scheduler.findOne f db = None.
Proof.
  intros Hall. destruct (Scheduler.findOne f db) as [[k quiz]|] eqn:Hfind; [|done].
  apply findOne_Some in Hfind as [Hk Hf]. rewrite (Hall k quiz Hk) in Hf. done.
Qed.

(** X19: what [finalizeQuizResults] does. When no quiz of today is live it
    changes nothing and sends nothing. Otherwise it takes a live quiz of
    today and stores it ended (not live, completed) with its participants
    as they were, so no rank is stored, and leaves the other quizzes alone;
    the broadcast carries at most ten winners and each personal message at
    most twenty, of which the broadcast is the first ten. The winners are
    completed participants of the quiz, best first (higher score, then
    less time), with the ranks 1, 2, 3, ... *)
Theorem X19_finalizeQuizResults db us pays now today :
  match Scheduler.finalizeQuizResults db us pays now today with
  | (db', None) =>
    db' = db
    ∧ ∀ k quiz, db !! k = Some quiz → Scheduler.of_day today quiz = true →
                Quiz.isLive quiz = false
  | (db', Some r) =>
    ∃ quiz final,
      db !! Scheduler.rr_quizId r = Some quiz
      ∧ Quiz.isLive quiz = true ∧ Scheduler.of_day today quiz = true
      ∧ db' !! Scheduler.rr_quizId r = Some final
      ∧ Quiz.isLive final = false ∧ Quiz.isCompleted final = true
      ∧ Quiz.endTime final = Some now
      ∧ Quiz.participants final = Quiz.participants quiz
      ∧ (∀ k, k ≠ Scheduler.rr_quizId r → db' !! k = db !! k)
      ∧ (length (Scheduler.rr_winners r) ≤ 10)%nat
      ∧ (∀ (i : nat) win,
           Scheduler.rr_winners r !! i = Some win →
           Scheduler.rw_rank win = Z.of_nat i + 1
           ∧ ∃ p, p ∈ Quiz.participants quiz ∧ Participant.isCompleted p = true
                  ∧ Scheduler.rw_userId win = Participant.user p
                  ∧ Scheduler.rw_score win = Participant.score p
                  ∧ Scheduler.rw_timeSpent win = Participant.timeSpent p)
      ∧ StronglySorted
          (λ a b, ranks_before (Scheduler.rw_score a) (Scheduler.rw_timeSpent a)
                               (Scheduler.rw_score b) (Scheduler.rw_timeSpent b))
          (Scheduler.rr_winners r)
      ∧ Forall (λ sent, (length sent.2 ≤ 20)%nat ∧ Scheduler.rr_winners r = take 10 sent.2)
               (Scheduler.rr_personal r)
  end.
Proof.
  unfold Scheduler.finalizeQuizResults.
  destruct (Scheduler.findOne _ db) as [[k quiz]|] eqn:Hfind.
  - apply findOne_Some in Hfind as [Hk [Hday Hlive]%andb_true_iff].
    cbn [Scheduler.rr_quizId Scheduler.rr_winners Scheduler.rr_personal].
    exists quiz, (Quiz.set_ended now quiz).
    assert (length (Scheduler.result_winners quiz) ≤ 20)%nat as Hlen.
    { unfold Scheduler.result_winners. rewrite length_imap, length_take. lia. }
    split_and!; try done.
    + by rewrite lookup_insert_eq.
    + intros k' Hne. by rewrite lookup_insert_ne.
    + rewrite length_take. lia.
    + intros i win [Hwin Hi]%lookup_take_Some.
      unfold Scheduler.result_winners in Hwin. rewrite list_lookup_imap in Hwin.
      destruct (take 20 _ !! i) as [p|] eqn:Hp; [|done].
      simpl in Hwin. injection Hwin as <-. split; [done|]. exists p.
      apply lookup_take_Some in Hp as [Hp _].
      assert (p ∈ Js.sort Scheduler.compare
                    (filter (λ p, Participant.isCompleted p = true) (Quiz.participants quiz)))
        as Hin by (apply list_elem_of_lookup; eauto).
      rewrite sort_perm, list_elem_of_filter in Hin. destruct Hin as [Hcompleted Hin].
      done.
    + apply StronglySorted_take. unfold Scheduler.result_winners.
      eapply StronglySorted_imap; [|apply StronglySorted_take, scheduler_sorted].
      intros i j a b Hab. exact Hab.
    + destruct (Notifications.sendQuizNotifications _ us pays k "results" today)
        as [data|]; [|by apply Forall_nil].
      apply Forall_fmap, Forall_forall. intros userId _. done.
  - split; [done|]. intros k quiz Hk Hday.
    pose proof (findOne_None _ _ _ _ Hfind Hk) as Hf. simpl in Hf.
    rewrite Hday in Hf. done.
Qed.


(** X20: the END job followed by the RESULT_ANNOUNCE job. When no other
    quiz of today is live, the quiz that the END job has dealt with is not
    live any more, so [finalizeQuizResults] of the RESULT_ANNOUNCE job finds
    no quiz: it changes nothing and no results are sent. *)
Theorem X20_end_then_announce w quizId us pays now later today :
  (∀ k quiz, Scheduler.db w !! k = Some quiz → k ≠ quizId →
             Scheduler.of_day today quiz = true → Quiz.isLive quiz = false) →
  Jobs.result_announce_job (Jobs.end_job w quizId now).1 us pays later today
  = ((Jobs.end_job w quizId now).1, None).
Proof.
  intros Hothers. unfold Jobs.result_announce_job, Scheduler.finalizeQuizResults.
  rewrite findOne_is_None; [by destruct (Jobs.end_job w quizId now).1|].
  intros k q Hk. apply andb_false_iff.
  destruct (Scheduler.of_day today q) eqn:Hday; [right|by left].
  unfold Jobs.end_job in Hk.
  destruct (decide (k = quizId)) as [->|Hne].
  - destruct (Scheduler.db w !! quizId) as [quiz|] eqn:Hquiz; [|simpl in Hk; congruence].
    destruct (Quiz.isLive quiz) eqn:Hlive; [|simpl in Hk; congruence].
    unfold Scheduler.endQuizSession in Hk. rewrite Hquiz in Hk. simpl in Hk.
    rewrite lookup_insert_eq in Hk. by injection Hk as <-.
  - apply (Hothers k q); [|done|done].
    destruct (Scheduler.db w !! quizId) as [quiz|] eqn:Hquiz; [|done].
    destruct (Quiz.isLive quiz); [|done].
    unfold Scheduler.endQuizSession in Hk. rewrite Hquiz in Hk. simpl in Hk.
    by rewrite lookup_insert_ne in Hk.
Qed.

Lemma X20_end_then_announce_witness :
  (∀ k quiz, Scheduler.db (Scheduler.mkWorld (db_of quiz_mixed) ∅) !! k = Some quiz →
             k ≠ "quiz1" → Scheduler.of_day 0 quiz = true → Quiz.isLive quiz = false)
  ∧ Quiz.isLive
      <$> Scheduler.db (Jobs.end_job (Scheduler.mkWorld (db_of quiz_mixed) ∅) "quiz1" 9500).1
          !! "quiz1" = Some false
  ∧ (Jobs.result_announce_job
       (Jobs.end_job (Scheduler.mkWorld (db_of quiz_mixed) ∅) "quiz1" 9500).1
       ∅ [] 9600 0).2 = None.
Proof.
  assert (∀ k quiz, Scheduler.db (Scheduler.mkWorld (db_of quiz_mixed) ∅) !! k = Some quiz →
                    k ≠ "quiz1" → Scheduler.of_day 0 quiz = true → Quiz.isLive quiz = false)
    as Hothers.
  { intros k quiz Hk Hne. simpl in Hk. unfold db_of in Hk.
    apply lookup_singleton_Some in Hk as [Heq _]. by destruct Hne. }
  split_and!; [exact Hothers|vm_compute; reflexivity|].
  exact (f_equal snd (X20_end_then_announce (Scheduler.mkWorld (db_of quiz_mixed) ∅) "quiz1"
                        ∅ [] 9500 9600 0 Hothers)).
Defined.

(** ** The jobs of the day *)



(** ** The scheduled start *)

Lemma endQuizSession_frame w quizId now k :
  k ≠ quizId →
  Scheduler.db (Scheduler.endQuizSession w quizId now).1 !! k = Scheduler.db w !! k.
Proof.
  intros Hne. unfold Scheduler.endQuizSession.
  destruct (Scheduler.db w !! quizId); simpl; [|done]. by rewrite lookup_insert_ne.
Qed.

Lemma emitNextQuestion_frame w s f now k :
  k ≠ Scheduler.s_quizId s →
  Scheduler.db (Scheduler.emitNextQuestion w s f now).1.1 !! k = Scheduler.db w !! k.
Proof.
  intros Hne. unfold Scheduler.emitNextQuestion.
  destruct (Scheduler.reload_throws f); [done|].
  destruct (Scheduler.db w !! Scheduler.s_quizId s) as [quiz|] eqn:Hquiz; [|done].
  destruct (Quiz.isLive quiz); simpl; [|done].
  case_bool_decide.
  - pose proof (endQuizSession_frame w (Scheduler.s_quizId s) now k Hne) as Hend.
    by destruct (Scheduler.endQuizSession w (Scheduler.s_quizId s) now).
  - destruct (Js.index _ _); [|done]. simpl.
    destruct (Scheduler.persist_throws f); [done|]. by rewrite lookup_insert_ne.
Qed.

Lemma startQuizSession_frame w quizId f now k :
  k ≠ quizId →
  Scheduler.db (Scheduler.startQuizSession w quizId f now).1.1 !! k = Scheduler.db w !! k.
Proof.
  intros Hne. unfold Scheduler.startQuizSession.
  case_bool_decide; [done|].
  destruct (Scheduler.db w !! quizId) as [quiz|]; [|done].
  destruct (Quiz.questions quiz) as [|q0 qs]; [done|].
  match goal with
  | |- context [Scheduler.emitNextQuestion ?w0 ?s0 ?f0 ?n0] =>
    pose proof (emitNextQuestion_frame w0 s0 f0 n0 k Hne) as Hemit;
    by destruct (Scheduler.emitNextQuestion w0 s0 f0 n0) as [[? ?] ?]
  end.
Qed.

Lemma startQuizDirectly_frame w quizId now k :
  k ≠ quizId →
  Scheduler.db (Scheduler.startQuizDirectly w quizId now).1.1 !! k = Scheduler.db w !! k.
Proof.
  intros Hne. unfold Scheduler.startQuizDirectly, Scheduler.claim_live.
  destruct (Scheduler.db w !! quizId) as [quiz|]; [|done].
  destruct (Quiz.isLive quiz); [done|].
  match goal with
  | |- context [Scheduler.startQuizSession ?w0 ?q0 ?f0 ?n0] =>
    pose proof (startQuizSession_frame w0 q0 f0 n0 k Hne) as Hstart;
    destruct (Scheduler.startQuizSession w0 q0 f0 n0) as [[? ?] ?]
  end.
  simpl in *. by rewrite Hstart, lookup_insert_ne.
Qed.

(** X22: which quizzes [startScheduledQuiz] leaves alone. A stored quiz that
    is not published, or is live already, or whose date is not of today,
    is stored unchanged afterwards, whatever else is started; and when
    the queue of jobs is in use, no stored quiz changes whether it is
    live: the start is left to the START job. *)
Theorem X22_startScheduledQuiz_frame w us pays g now today useBullMQ queue :
  (∀ k quiz,
     Scheduler.db w !! k = Some quiz →
     Quiz.published quiz = false ∨ Quiz.isLive quiz = true
     ∨ Scheduler.of_day today quiz = false →
     Scheduler.db (Scheduler.startScheduledQuiz w us pays g now today useBullMQ queue).1.1 !! k
     = Some quiz)
  ∧ (useBullMQ && queue = true →
     ∀ k,
       Quiz.isLive
         <$> Scheduler.db (Scheduler.startScheduledQuiz w us pays g now today
                             useBullMQ queue).1.1 !! k
       = Quiz.isLive <$> Scheduler.db w !! k).
Proof.
  unfold Scheduler.startScheduledQuiz.
  destruct (Scheduler.findOne _ (Scheduler.db w)) as [[k0 quiz0]|] eqn:Hfind;
    [|split; [by intros|done]].
  apply findOne_Some in Hfind as [Hk0 [[Hday Hnotlive]%andb_true_iff Hpublished]%andb_true_iff].
  apply negb_true_iff in Hnotlive. rewrite Hnotlive.
  split.
  - intros k quiz Hk Hwhy.
    assert (k ≠ k0) as Hne.
    { intros ->. rewrite Hk0 in Hk. injection Hk as <-.
      destruct Hwhy as [?|[?|?]]; congruence. }
    set (db1 := if Quiz.shuffleQuestions quiz0 && bool_decide (Quiz.questions quiz0 ≠ [])
                then alter _ k0 (Scheduler.db w) else Scheduler.db w).
    assert (db1 !! k = Some quiz) as Hdb1.
    { unfold db1. destruct (_ && _); [|done]. by rewrite lookup_alter_ne. }
    destruct (useBullMQ && queue); [done|].
    pose proof (startQuizDirectly_frame
                  (Scheduler.mkWorld db1 (Scheduler.activeQuizSessions w)) k0 now k Hne)
      as Hframe.
    destruct (Scheduler.startQuizDirectly _ k0 now) as [[w' s] out].
    simpl in *. by rewrite Hframe.
  - intros ->. intros k. cbn [fst Scheduler.db].
    destruct (_ && _); [|done].
    destruct (decide (k = k0)) as [->|Hne]; [|by rewrite lookup_alter_ne].
    rewrite lookup_alter_eq, Hk0. done.
Qed.

Lemma X22_startScheduledQuiz_frame_witness :
  Scheduler.db (Scheduler.mkWorld (db_of quiz_mixed) ∅) !! "quiz1" = Some quiz_mixed
  ∧ (Quiz.published quiz_mixed = false ∨ Quiz.isLive quiz_mixed = true
     ∨ Scheduler.of_day 0 quiz_mixed = false)
  ∧ Scheduler.db (Scheduler.startScheduledQuiz (Scheduler.mkWorld (db_of quiz_mixed) ∅)
                    ∅ [] [] 1000 0 false false).1.1 !! "quiz1" = Some quiz_mixed.
Proof.
  assert (Scheduler.db (Scheduler.mkWorld (db_of quiz_mixed) ∅) !! "quiz1"
          = Some quiz_mixed) as Hquiz by (vm_compute; reflexivity).
  assert (Quiz.published quiz_mixed = false ∨ Quiz.isLive quiz_mixed = true
          ∨ Scheduler.of_day 0 quiz_mixed = false) as Hwhy by (right; left; reflexivity).
  split_and!; [exact Hquiz|exact Hwhy|].
  exact (proj1 (X22_startScheduledQuiz_frame (Scheduler.mkWorld (db_of quiz_mixed) ∅)
                  ∅ [] [] 1000 0 false false) "quiz1" quiz_mixed Hquiz Hwhy).
Defined.

(** ** The START job *)

Lemma shuffleQuestions_same (h : Scheduler.heap) (refs : list nat) (g : Scheduler.rng) :
  (Scheduler.shuffleQuestions h refs g).1.1 ≡ₚ refs
  ∧ ∀ r q, h !! r = Some q →
           ∃ q', (Scheduler.shuffleQuestions h refs g).1.2 !! r = Some q' ∧ same_question q q'.
Proof.
  unfold Scheduler.shuffleQuestions.
  destruct refs as [|r0 rs] eqn:Hrefs.
  { simpl. split; [done|]. intros r q Hr. exists q. split; [done|apply same_question_refl]. }
  rewrite <- Hrefs.
  destruct (Scheduler.shuffle refs g) as [shuffled g1] eqn:Hs.
  destruct (Scheduler.forEach_reshuffle shuffled h g1) as [h' g2] eqn:Hf. simpl.
  split.
  - pose proof (shuffle_perm refs g) as Hp. by rewrite Hs in Hp.
  - intros r q Hr.
    destruct (forEach_reshuffle_same shuffled h g1 r q Hr) as (q' & Hq' & Hsame).
    rewrite Hf in Hq'. by exists q'.
Qed.

Lemma omap_seq_ids (f : nat → option Question.t) : ∀ (qs : list Question.t) (k : nat),
  (∀ (i : nat) q, qs !! i = Some q →
                  ∃ q', f (k + i)%nat = Some q' ∧ Question._id q' = Question._id q) →
  Question._id <$> omap f (seq k (length qs)) = Question._id <$> qs.
Proof.
  induction qs as [|q qs IH]; intros k Hf; [done|].
  destruct (Hf 0%nat q eq_refl) as (q' & Hq' & Hid).
  rewrite Nat.add_0_r in Hq'. simpl. rewrite Hq'. simpl. rewrite Hid. f_equal.
  apply IH. intros i qi Hi. destruct (Hf (S i) qi Hi) as (qi' & Hqi' & Hidi).
  exists qi'. split; [|done]. by replace (S k + i)%nat with (k + S i)%nat by lia.
Qed.

(** The questions of a document after [quiz.questions =
    shuffleQuestions(quiz.questions)]: the same questions, by their ids, in
    some order, each with its text, its points, its options in some order
    and its correct option. *)
Lemma shuffle_document_same qs g :
  Question._id <$> (Scheduler.shuffle_document qs g).1 ≡ₚ Question._id <$> qs
  ∧ ∀ q', q' ∈ (Scheduler.shuffle_document qs g).1 → ∃ q, q ∈ qs ∧ same_question q q'.
Proof.
  unfold Scheduler.shuffle_document. rewrite list_to_map_zip_seq.
  destruct (shuffleQuestions_same (map_seq 0 qs) (seq 0 (length qs)) g) as [Hperm Hsame].
  destruct (Scheduler.shuffleQuestions (map_seq 0 qs) (seq 0 (length qs)) g)
    as [[out h'] g'].
  simpl in *. split.
  - rewrite Hperm. rewrite (omap_seq_ids (λ r, h' !! r) qs 0); [done|].
    intros i q Hi. destruct (Hsame i q) as (q' & Hq' & Hid & _).
    { by rewrite lookup_map_seq_0. }
    by exists q'.
  - intros q' (r & Hr & Hq')%list_elem_of_omap.
    rewrite Hperm in Hr. apply elem_of_seq in Hr as [_ Hr].
    destruct (lookup_lt_is_Some_2 qs r ltac:(lia)) as [q Hq].
    destruct (Hsame r q) as (q'' & Hq'' & Hsame'); [by rewrite lookup_map_seq_0|].
    exists q. split; [by eapply list_elem_of_lookup_2|]. congruence.
Qed.

(** A session that is started for a live quiz at question 0 leaves the quiz
    live, with its questions. *)
Lemma startQuizSession_started w quizId now quiz :
  Scheduler.db w !! quizId = Some quiz →
  Quiz.isLive quiz = true →
  Quiz.currentQuestionIndex quiz = 0 →
  ∃ final,
    Scheduler.db (Scheduler.startQuizSession w quizId Scheduler.no_faults now).1.1 !! quizId
    = Some final
    ∧ Quiz.isLive final = true ∧ Quiz.published final = Quiz.published quiz
    ∧ Quiz.questions final = Quiz.questions quiz.
Proof.
  intros Hquiz Hlive Hidx. unfold Scheduler.startQuizSession.
  case_bool_decide; [by exists quiz|].
  rewrite Hquiz. destruct (Quiz.questions quiz) as [|q0 qs] eqn:Hqs; [by exists quiz|].
  rewrite Hidx. rewrite bool_decide_true by lia.
  unfold Scheduler.emitNextQuestion. simpl. rewrite Hquiz, Hlive, Hqs. simpl.
  exists (Quiz.set_current 0 now quiz). rewrite lookup_insert_eq. simpl. by rewrite Hqs.
Qed.

(** X23: the START job on a stored quiz that is not live. The job succeeds
    and leaves the quiz stored as live and published, whether or not a
    session could be started. The stored questions are the questions of
    before, by their ids, in some order (shuffled when the quiz asks for
    it); each of them has its text, its points, its options in some order
    and the same correct option. A second START job for the quiz then
    changes nothing and starts nothing. *)
Theorem X23_start_job w quizId quiz g now :
  Scheduler.db w !! quizId = Some quiz →
  Quiz._id quiz = quizId →
  Quiz.isLive quiz = false →
  ∃ w1 s out final,
    Jobs.start_job w quizId g now = inr (w1, s, out)
    ∧ Scheduler.db w1 !! quizId = Some final
    ∧ Quiz.isLive final = true ∧ Quiz.published final = true
    ∧ Question._id <$> Quiz.questions final ≡ₚ Question._id <$> Quiz.questions quiz
    ∧ (∀ q', q' ∈ Quiz.questions final →
             ∃ q, q ∈ Quiz.questions quiz ∧ same_question q q')
    ∧ ∀ g2 now2, Jobs.start_job w1 quizId g2 now2 = inr (w1, None, []).
Proof.
  intros Hquiz Hid Hlive. unfold Jobs.start_job at 1. rewrite Hquiz, Hlive.
  set (saved := Scheduler.manual_save (Scheduler.db w) quiz g now).
  assert (∃ stored,
            saved !! quizId = Some stored
            ∧ Quiz.isLive stored = true ∧ Quiz.published stored = true
            ∧ Quiz.currentQuestionIndex stored = 0
            ∧ Question._id <$> Quiz.questions stored ≡ₚ Question._id <$> Quiz.questions quiz
            ∧ ∀ q', q' ∈ Quiz.questions stored →
                    ∃ q, q ∈ Quiz.questions quiz ∧ same_question q q')
    as (stored & Hstored & Hlive' & Hpublished & Hidx & Hperm & Hsame).
  { unfold saved, Scheduler.manual_save. rewrite Hid, lookup_alter_eq, Hquiz. simpl.
    eexists. split; [reflexivity|].
    destruct (Quiz.shuffleQuestions quiz && bool_decide (Quiz.questions quiz ≠ [])); simpl.
    - destruct (shuffle_document_same (Quiz.questions quiz) g) as [Hperm Hsame]. done.
    - split_and!; try done. intros q' Hq'. exists q'. split; [done|apply same_question_refl]. }
  destruct (startQuizSession_started
              (Scheduler.mkWorld saved (Scheduler.activeQuizSessions w)) quizId now stored
              Hstored Hlive' Hidx) as (final & Hfinal & Hlive'' & Hpublished' & Hquestions).
  destruct (Scheduler.startQuizSession _ quizId Scheduler.no_faults now) as [[w1 s] out].
  simpl in Hfinal. eexists w1, s, _, final.
  split_and!; [reflexivity|done|done|congruence|by rewrite Hquestions| |].
  - intros q' Hq'. rewrite Hquestions in Hq'. by apply Hsame.
  - intros g2 now2. unfold Jobs.start_job. by rewrite Hfinal, Hlive''.
Qed.

Lemma X23_start_job_witness :
  Scheduler.db (Scheduler.mkWorld (db_of quiz_to_shuffle) ∅) !! "quiz1" = Some quiz_to_shuffle
  ∧ Quiz._id quiz_to_shuffle = "quiz1"
  ∧ Quiz.isLive quiz_to_shuffle = false
  ∧ ∃ w1 s out final,
      Jobs.start_job (Scheduler.mkWorld (db_of quiz_to_shuffle) ∅) "quiz1" [2; 0; 1]%nat 1000
      = inr (w1, s, out)
      ∧ Scheduler.db w1 !! "quiz1" = Some final
      ∧ Quiz.isLive final = true
      ∧ Question._id <$> Quiz.questions final
        ≡ₚ Question._id <$> Quiz.questions quiz_to_shuffle.
Proof.
  assert (Scheduler.db (Scheduler.mkWorld (db_of quiz_to_shuffle) ∅) !! "quiz1"
          = Some quiz_to_shuffle) as Hquiz by (vm_compute; reflexivity).
  split_and!; [exact Hquiz|reflexivity|reflexivity|].
  destruct (X23_start_job (Scheduler.mkWorld (db_of quiz_to_shuffle) ∅) "quiz1"
              quiz_to_shuffle [2; 0; 1]%nat 1000 Hquiz eq_refl eq_refl)
    as (w1 & s & out & final & Hjob & Hfinal & Hlive & _ & Hperm & _).
  exists w1, s, out, final. split_and!; [exact Hjob|exact Hfinal|exact Hlive|exact Hperm].
Defined.

(** ** Who is notified *)

Lemma filter_fmap_length {A B} (f : A → B) (P : B → Prop) `{!∀ y, Decision (P y)}
    (l : list A) :
  length (filter P (f <$> l)) = length (filter (λ x, P (f x)) l).
Proof.
  induction l as [|x l IH]; [done|]. rewrite fmap_cons.
  destruct (decide (P (f x))) as [Hx|Hx].
  - rewrite !filter_cons_True by done. simpl. by rewrite IH.
  - by rewrite !filter_cons_False.
Qed.

(** X24: whom [sendQuizNotifications] names. When it returns data, the quiz
    exists, the notification carries its id, and [count] is the number of
    the listed user ids. A user is listed exactly when one of its payments
    is for today, completed and verified, and once for each such payment,
    so a user with two of them is listed twice; every listed user is a
    stored user. The list does not depend on the kind of notification. *)
Theorem X24_sendQuizNotifications db us pays quizId kind todayStart data :
  Notifications.sendQuizNotifications db us pays quizId kind todayStart = Some data →
  is_Some (db !! quizId)
  ∧ Notifications.n_quizId (Notifications.notification_of data) = quizId
  ∧ Notifications.count data = Z.of_nat (length (Notifications.eligibleUserIds data))
  ∧ (∀ u,
       length (filter (λ listed, listed = u) (Notifications.eligibleUserIds data))
       = length (filter (λ p, Payment.user p = u
                              ∧ todayStart ≤ Payment.forDate p < todayStart + 86400000
                              ∧ Payment.status p = "completed"
                              ∧ Payment.verified p = true) pays))
  ∧ (∀ u, u ∈ Notifications.eligibleUserIds data → is_Some (us !! u))
  ∧ ∀ kind',
      Notifications.eligibleUserIds
        <$> Notifications.sendQuizNotifications db us pays quizId kind' todayStart
      = Some (Notifications.eligibleUserIds data).
Proof.
  unfold Notifications.sendQuizNotifications.
  destruct (db !! quizId) as [quiz|]; [|done].
  destruct (forallb _ _) eqn:Hall; [|done]. intros [= <-]. simpl.
  split_and!; try done.
  - unfold Notifications.notification_for. by repeat case_bool_decide.
  - by rewrite length_fmap.
  - intros u. rewrite filter_fmap_length. unfold Notifications.eligiblePayments.
    rewrite list_filter_filter. f_equal. apply list_filter_iff. intros p. tauto.
  - intros u (p & -> & Hp)%list_elem_of_fmap.
    rewrite forallb_forall in Hall. apply list_elem_of_In in Hp.
    apply Hall in Hp. by apply bool_decide_eq_true in Hp.
Qed.

Lemma X24_sendQuizNotifications_witness :
  ∃ data,
    Notifications.sendQuizNotifications (db_of quiz_mixed)
      {[ "alice" := user_of "alice" "Alice" ]}
      [Payment.mk "alice" 5 "INR" "completed" true "o1" "p1" "s1" 1000 "o1" "quiz" false;
       Payment.mk "bob" 5 "INR" "pending" false "o2" "p2" "s2" 1000 "o2" "quiz" false]
      "quiz1" "started" 0 = Some data
    ∧ Notifications.eligibleUserIds data = ["alice"]
    ∧ Notifications.count data = Z.of_nat (length (Notifications.eligibleUserIds data)).
Proof.
  eexists. split; [vm_compute; reflexivity|]. split; [reflexivity|].
  exact (proj1 (proj2 (proj2 (X24_sendQuizNotifications (db_of quiz_mixed)
                                {[ "alice" := user_of "alice" "Alice" ]}
                                [Payment.mk "alice" 5 "INR" "completed" true "o1" "p1" "s1"
                                   1000 "o1" "quiz" false;
                                 Payment.mk "bob" 5 "INR" "pending" false "o2" "p2" "s2"
                                   1000 "o2" "quiz" false]
                                "quiz1" "started" 0 _ eq_refl)))).
Defined.

(** ** The histories written by [finalizeQuiz] *)

Lemma filter_imap_snd {A} (P : A → Prop) `{!∀ x, Decision (P x)} (l : list A) :
  ∀ g : nat → nat,
    length (filter (λ e : nat * A, P e.2) (imap (λ i x, (g i, x)) l)) = length (filter P l).
Proof.
  induction l as [|x l IH]; intros g; [done|]. rewrite imap_cons.
  destruct (decide (P x)) as [Hx|Hx].
  - rewrite !filter_cons_True by done. simpl. f_equal. apply (IH (g ∘ S)).
  - rewrite !filter_cons_False by done. apply (IH (g ∘ S)).
Qed.

Lemma push_history_fold quizId now hids u : ∀ entries us user,
  us !! u = Some user →
  ∃ user' added,
    foldl (Orchestrator.push_history quizId now hids) us entries !! u = Some user'
    ∧ User.quizHistory user' = User.quizHistory user ++ added
    ∧ Forall (λ h, History.quizId h = Some quizId) added
    ∧ length added
      = length (filter (λ e : nat * Orchestrator.ranked, Orchestrator.r_user e.2 = u) entries).
Proof.
  induction entries as [|entry entries IH]; intros us user Hu; simpl.
  { exists user, []. by rewrite app_nil_r. }
  unfold Orchestrator.push_history at 2.
  destruct (decide (Orchestrator.r_user entry.2 = u)) as [Heq|Hne].
  - rewrite Heq, Hu. rewrite filter_cons_True by done.
    set (user1 := User.set_quizHistory _ user).
    destruct (IH (<[u := user1]> us) user1 (lookup_insert_eq _ _ _))
      as (user' & added & Hlookup & Hhistory & Hadded & Hlen).
    eexists user', (_ :: added). split_and!; [done| | |].
    + rewrite Hhistory. unfold user1. simpl. by rewrite <- app_assoc.
    + by constructor.
    + simpl. by rewrite Hlen.
  - rewrite filter_cons_False by done.
    apply IH. destruct (us !! Orchestrator.r_user entry.2); [|done].
    by rewrite lookup_insert_ne.
Qed.

(** X25: the history entries that [finalizeQuiz] writes. The history of a
    stored user is extended, nothing is removed; the user gets one more
    entry for the quiz for each of its entries among the ranked
    participants, whether or not it has an entry for the quiz already, and
    no entry for any other quiz. *)
Theorem X25_finalizeQuiz_history c qs doc quiz results now ids hids u user :
  Orchestrator.qs_quizDoc qs = Some doc →
  quizzes c !! Orchestrator.d_id doc = Some quiz →
  users c !! u = Some user →
  ∃ user' added,
    users (Orchestrator.save_results c qs results now ids hids) !! u = Some user'
    ∧ User.quizHistory user' = User.quizHistory user ++ added
    ∧ entries_of (Quiz._id quiz) user'
      = entries_of (Quiz._id quiz) user
        + Z.of_nat (length (filter (λ r, Orchestrator.r_user r = u) results))
    ∧ ∀ other, other ≠ Quiz._id quiz → entries_of other user' = entries_of other user.
Proof.
  intros Hdoc Hquiz Hu. unfold Orchestrator.save_results. rewrite Hdoc, Hquiz. simpl.
  destruct (push_history_fold (Quiz._id quiz) now hids u (imap pair results) (users c) user Hu)
    as (user' & added & Hlookup & Hhistory & Hadded & Hlen).
  exists user', added. split_and!; [done|done| |].
  - unfold entries_of. rewrite Hhistory, filter_app, length_app.
    rewrite (filter_all _ _ Hadded), Hlen.
    pose proof (filter_imap_snd (λ r, Orchestrator.r_user r = u) results id) as Himap.
    change (imap (λ i x, (id i, x)) results) with (imap pair results) in Himap.
    rewrite Himap. lia.
  - intros other Hother. unfold entries_of. rewrite Hhistory, filter_app, length_app.
    rewrite (filter_none (λ h, History.quizId h = Some other) added); [simpl; lia|].
    eapply Forall_impl; [exact Hadded|]. simpl. intros h Hh. congruence.
Qed.

Lemma X25_finalizeQuiz_history_witness :
  Orchestrator.qs_quizDoc qs_contest
  = Some (Orchestrator.mkQuizDoc "quiz1" "Daily Quiz" [q_capital] [])
  ∧ quizzes c_contest !! "quiz1" = Some quiz_contest
  ∧ users c_contest !! "a" = Some (user_of "a" "Ann")
  ∧ ∃ user' added,
      users (Orchestrator.save_results c_contest qs_contest
               [Orchestrator.mkRanked "b" 80 0 5 1; Orchestrator.mkRanked "a" 50 0 10 2]
               9000 (ids_from "p") (ids_from "h")) !! "a" = Some user'
      ∧ User.quizHistory user' = [] ++ added
      ∧ entries_of "quiz1" user' = 0 + 1.
Proof.
  assert (quizzes c_contest !! "quiz1" = Some quiz_contest) as Hquiz
    by (vm_compute; reflexivity).
  assert (users c_contest !! "a" = Some (user_of "a" "Ann")) as Huser
    by (vm_compute; reflexivity).
  split_and!; [reflexivity|exact Hquiz|exact Huser|].
  destruct (X25_finalizeQuiz_history c_contest qs_contest
              (Orchestrator.mkQuizDoc "quiz1" "Daily Quiz" [q_capital] []) quiz_contest
              [Orchestrator.mkRanked "b" 80 0 5 1; Orchestrator.mkRanked "a" 50 0 10 2]
              9000 (ids_from "p") (ids_from "h") "a" (user_of "a" "Ann")
              eq_refl Hquiz Huser) as (user' & added & Hlookup & Hhistory & Hcount & _).
  exists user', added. split_and!; [exact Hlookup|exact Hhistory|exact Hcount].
Defined.
